(** * The stock-market agent: routing, symbol extraction and adapters

    A shallow embedding of [src/stock_agent.py] (class [StockMarketAgent]).

    Text.  A Python [str] is a sequence of code points.  The model keeps one
    [ascii] per code point, so it covers text whose code points lie below
    U+0100 (ASCII and the Latin-1 supplement, which is where the English and
    Spanish keywords of the source live).  Literals of the source that carry
    accented letters are written through [latin1], which reads the UTF-8
    bytes of the literal back into code points.

    Outside world.  Yahoo Finance, Alpha Vantage, DuckDuckGo, the hosted
    model, the [.env] file and the interpreter's [eval] are fields of a
    [World] record; every call to them is logged in a trace, and a call may
    raise.  Debug [print]s are not modelled. *)

From Stdlib Require Import Bool Arith List ZArith Lia Ascii String.
From Stdlib Require Import Numbers.DecimalString.
From Stdlib Require Import Floats.SpecFloat.
Import ListNotations.

Local Open Scope list_scope.
Local Open Scope string_scope.
Local Open Scope nat_scope.

(* ===================================================================== *)
(** * Text: the [str] operations the agent uses *)
(* ===================================================================== *)

Module Text.

Definition code (c : ascii) : nat := nat_of_ascii c.

Definition between (lo hi : nat) (c : ascii) : bool :=
  (lo <=? code c) && (code c <=? hi).

(** [latin1 s]: the UTF-8 bytes of a literal, read back as code points
    below U+0100 (lead byte 0xC2 keeps the next byte, 0xC3 adds 0x40). *)
Fixpoint latin1 (s : string) : string :=
  match s with
  | EmptyString => EmptyString
  | String c rest =>
      match rest with
      | String d rest' =>
          if code c =? 194 then String d (latin1 rest')
          else if code c =? 195 then String (ascii_of_nat (code d + 64)) (latin1 rest')
          else String c (latin1 rest)
      | EmptyString => String c EmptyString
      end
  end.

(** The line feed of ["\n"]. *)
Definition nl : string := String (ascii_of_nat 10) EmptyString.

(** ** Character classes ([str.isspace], and the [\d], [\s], [\w] of [re]
    on [str] patterns) restricted to code points below U+0100 *)

Definition isdigit (c : ascii) : bool := between 48 57 c.

Definition isspace (c : ascii) : bool :=
  between 9 13 c || between 28 32 c || (code c =? 133) || (code c =? 160).

Definition isupper_az (c : ascii) : bool := between 65 90 c.
Definition islower_az (c : ascii) : bool := between 97 122 c.

(** [\w]: alphanumeric ([str.isalnum]) or underscore. *)
Definition isword (c : ascii) : bool :=
  isdigit c || isupper_az c || islower_az c || (code c =? 95)
  || (code c =? 170) || (code c =? 178) || (code c =? 179) || (code c =? 181)
  || (code c =? 185) || (code c =? 186) || between 188 190 c
  || between 192 214 c || between 216 246 c || between 248 255 c.

(** ** [str.lower] and [str.upper] *)

Definition lower_char (c : ascii) : ascii :=
  if isupper_az c then ascii_of_nat (code c + 32)
  else if between 192 222 c && negb (code c =? 215) then ascii_of_nat (code c + 32)
  else c.

Fixpoint lower (s : string) : string :=
  match s with
  | EmptyString => EmptyString
  | String c rest => String (lower_char c) (lower rest)
  end.

(** [upper] maps one code point to a string: U+00DF (sharp s) becomes
    ["SS"].  The upper-case forms of U+00B5 and U+00FF are U+039C and
    U+0178, outside the one-byte range: the model leaves these two as they
    are.  Both forms are word characters outside [A-Z], and no dictionary
    key holds them, so every test the resolver makes on the upper-cased
    text reads the same. *)
Definition upper_char (c : ascii) : string :=
  if islower_az c then String (ascii_of_nat (code c - 32)) EmptyString
  else if between 224 254 c && negb (code c =? 247)
       then String (ascii_of_nat (code c - 32)) EmptyString
  else if code c =? 223 then "SS"
  else String c EmptyString.

Fixpoint upper (s : string) : string :=
  match s with
  | EmptyString => EmptyString
  | String c rest => upper_char c ++ upper rest
  end.

(** ** [sub in s] on strings *)

Fixpoint startswith (p s : string) : bool :=
  match p with
  | EmptyString => true
  | String a p' =>
      match s with
      | EmptyString => false
      | String b s' => Ascii.eqb a b && startswith p' s'
      end
  end.

Fixpoint contains (sub s : string) : bool :=
  startswith sub s ||
  match s with
  | EmptyString => false
  | String _ s' => contains sub s'
  end.

(** What is left of [s] after the prefix [p], when [s] starts with it. *)
Fixpoint after_prefix (p s : string) : option string :=
  match p with
  | EmptyString => Some s
  | String a p' =>
      match s with
      | EmptyString => None
      | String b s' => if Ascii.eqb a b then after_prefix p' s' else None
      end
  end.

(** ** [str.strip] *)

Fixpoint lstrip (s : string) : string :=
  match s with
  | EmptyString => EmptyString
  | String c rest => if isspace c then lstrip rest else s
  end.

Fixpoint rstrip (s : string) : string :=
  match s with
  | EmptyString => EmptyString
  | String c rest =>
      match rstrip rest with
      | EmptyString => if isspace c then EmptyString else String c EmptyString
      | r => String c r
      end
  end.

Definition strip (s : string) : string := rstrip (lstrip s).

(** [str(n)] of an [int]. *)
Definition str_of_Z (z : Z) : string := NilZero.string_of_int (Z.to_int z).

End Text.

(* ===================================================================== *)
(** * Re: the fragment of Python's [re] the patterns are written in *)
(* ===================================================================== *)

Module Re.

(** An item of a bracket set, or a class escape. *)
Inductive item : Type :=
| IChar (c : ascii)
| IRange (lo hi : ascii)
| IDigit
| ISpace.

Definition item_mem (i : item) (c : ascii) : bool :=
  match i with
  | IChar a => Ascii.eqb a c
  | IRange lo hi => Text.between (Text.code lo) (Text.code hi) c
  | IDigit => Text.isdigit c
  | ISpace => Text.isspace c
  end.

Inductive regex : Type :=
| Eps                                   (* the empty pattern *)
| Lit (c : ascii)                       (* one literal character *)
| Dot                                   (* [.]: anything but a line feed *)
| Set_ (negated : bool) (items : list item)   (* [[...]], [[^...]], [\d], [\s] *)
| Seq (r1 r2 : regex)
| Or (r1 r2 : regex)                    (* [r1|r2], left first *)
| Star (r : regex)                      (* greedy [r*] *)
| WordB.                                (* [\b] *)

Definition set_mem (negated : bool) (items : list item) (c : ascii) : bool :=
  xorb negated (existsb (fun i => item_mem i c) items).

Definition at_boundary (prev : option ascii) (s : string) : bool :=
  let w1 := match prev with Some c => Text.isword c | None => false end in
  let w2 := match s with String c _ => Text.isword c | EmptyString => false end in
  xorb w1 w2.

(** The rounds of a greedy star: [step] runs the starred pattern once.
    A round is tried first and the tail [k] only when no longer run
    succeeds; a round that consumes nothing is not repeated.  At most [n]
    rounds are made; the matcher gives the length of the text, which is
    enough (lemma [star_fuel_enough]). *)
Fixpoint star_rounds {A : Type}
         (step : option ascii -> string -> (option ascii -> string -> option A) -> option A)
         (k : option ascii -> string -> option A)
         (n : nat) (prev : option ascii) (s : string) {struct n} : option A :=
  match n with
  | O => k prev s
  | S n' =>
      match step prev s
              (fun p' s' =>
                 if String.length s' <? String.length s
                 then star_rounds step k n' p' s' else None) with
      | Some x => Some x
      | None => k prev s
      end
  end.

(** The backtracking matcher, in continuation style.  [prev] is the
    character before the current position (for [\b]); [k] receives the
    position reached.  Alternatives are tried left to right, as [sre]
    does. *)
Fixpoint rmatch {A : Type} (r : regex) (prev : option ascii) (s : string)
         (k : option ascii -> string -> option A) {struct r} : option A :=
  match r with
  | Eps => k prev s
  | Lit c =>
      match s with
      | String d s' => if Ascii.eqb c d then k (Some d) s' else None
      | EmptyString => None
      end
  | Dot =>
      match s with
      | String d s' => if Text.code d =? 10 then None else k (Some d) s'
      | EmptyString => None
      end
  | Set_ neg items =>
      match s with
      | String d s' => if set_mem neg items d then k (Some d) s' else None
      | EmptyString => None
      end
  | Seq r1 r2 => rmatch r1 prev s (fun p' s' => rmatch r2 p' s' k)
  | Or r1 r2 =>
      match rmatch r1 prev s k with
      | Some x => Some x
      | None => rmatch r2 prev s k
      end
  | Star r1 =>
      star_rounds (fun p' s' k' => rmatch r1 p' s' k') k (String.length s) prev s
  | WordB => if at_boundary prev s then k prev s else None
  end.

(** ** Derived forms *)

Fixpoint lit (s : string) : regex :=
  match s with
  | EmptyString => Eps
  | String c EmptyString => Lit c
  | String c rest => Seq (Lit c) (lit rest)
  end.

Fixpoint seq (rs : list regex) : regex :=
  match rs with
  | [] => Eps
  | [r] => r
  | r :: rest => Seq r (seq rest)
  end.

Fixpoint alt (rs : list regex) : regex :=
  match rs with
  | [] => Set_ false []
  | [r] => r
  | r :: rest => Or r (alt rest)
  end.

Definition plus (r : regex) : regex := Seq r (Star r).
Definition opt (r : regex) : regex := Or r Eps.

(** [r{lo,hi}], greedy: [lo] copies, then up to [hi - lo] optional ones. *)
Fixpoint upto (r : regex) (n : nat) : regex :=
  match n with
  | O => Eps
  | S n' => opt (Seq r (upto r n'))
  end.

Fixpoint times (r : regex) (n : nat) (tail : regex) : regex :=
  match n with
  | O => tail
  | S n' => Seq r (times r n' tail)
  end.

Definition repeat (r : regex) (lo hi : nat) : regex := times r lo (upto r (hi - lo)).

Definition digit : regex := Set_ false [IDigit].
Definition space : regex := Set_ false [ISpace].
Definition oneof (s : string) : regex := Set_ false (map IChar (list_ascii_of_string s)).
Definition noneof (s : string) : regex := Set_ true (map IChar (list_ascii_of_string s)).

(** ** [re.search] and [re.findall] *)

(** A match that starts at the current position: the text left after it. *)
Definition match_at (r : regex) (prev : option ascii) (s : string) : option string :=
  rmatch r prev s (fun _ rest => Some rest).

(** The same, refusing the empty match (the [must_advance] flag of [sre]). *)
Definition match_at_nonempty (r : regex) (prev : option ascii) (s : string) : option string :=
  rmatch r prev s
    (fun _ rest => if String.length rest <? String.length s then Some rest else None).

Fixpoint search_from (r : regex) (prev : option ascii) (s : string) : bool :=
  match match_at r prev s with
  | Some _ => true
  | None =>
      match s with
      | EmptyString => false
      | String c s' => search_from r (Some c) s'
      end
  end.

(** [re.search(pattern, s)] taken as a truth value. *)
Definition search (r : regex) (s : string) : bool := search_from r None s.

Definition taken (s rest : string) : nat := String.length s - String.length rest.

(** [findall_from r prev s skip]: the matches from the current position on,
    the next [skip] characters belonging to a match already reported. *)
Fixpoint findall_from (r : regex) (prev : option ascii) (s : string) (skip : nat)
  : list string :=
  let next (k : nat) :=
    match s with
    | EmptyString => []
    | String c s' => findall_from r (Some c) s' k
    end in
  match skip with
  | S k => next k
  | O =>
      match match_at r prev s with
      | None => next 0
      | Some rest =>
          match taken s rest with
          | S k => substring 0 (S k) s :: next k
          | O =>
              EmptyString ::
              match match_at_nonempty r prev s with
              | Some rest' => substring 0 (taken s rest') s :: next (taken s rest' - 1)
              | None => next 0
              end
          end
      end
  end.

(** [re.findall(pattern, s)] for a pattern without groups: the matched
    texts, left to right, not overlapping. *)
Definition findall (r : regex) (s : string) : list string := findall_from r None s 0.

(** ** Notions used to state properties of the matcher *)

(** A match was found. *)
Definition matched {A} (o : option A) : bool :=
  match o with
  | Some _ => true
  | None => false
  end.

(** The character before the position reached after reading [p]. *)
Fixpoint last_char (prev : option ascii) (p : string) : option ascii :=
  match p with
  | EmptyString => prev
  | String c p' => last_char (Some c) p'
  end.

(** All the characters of the model. *)
Definition all_ascii : list ascii := map ascii_of_nat (List.seq 0 256).

(** A pattern that lower-casing the text cannot break: its literals are
    fixed by [lower_char], and a character of one of its sets stays in the
    set when lower-cased. *)
Fixpoint stable (r : regex) : bool :=
  match r with
  | Eps => true
  | Lit c => Ascii.eqb (Text.lower_char c) c
  | Dot =>
      forallb (fun d => implb (negb (Text.code d =? 10))
                              (negb (Text.code (Text.lower_char d) =? 10))) all_ascii
  | Set_ neg items =>
      forallb (fun d => implb (set_mem neg items d)
                              (set_mem neg items (Text.lower_char d))) all_ascii
  | Seq r1 r2 | Or r1 r2 => stable r1 && stable r2
  | Star r1 => stable r1
  | WordB =>
      forallb (fun d => Bool.eqb (Text.isword (Text.lower_char d)) (Text.isword d)) all_ascii
  end.

(** Whenever [k] succeeds at a position, [k'] succeeds at the same position
    of the lower-cased text. *)
Definition carried {A B} (k : option ascii -> string -> option A)
           (k' : option ascii -> string -> option B) : Prop :=
  forall p s, matched (k p s) = true ->
              matched (k' (option_map Text.lower_char p) (Text.lower s)) = true.

End Re.

(* ===================================================================== *)
(** * Float64: the numbers of a price series *)
(* ===================================================================== *)

Module Float64.

(** A close price is a NumPy [float64]: IEEE 754 binary64, taken from the
    standard library's executable specification of the format. *)
Definition float : Type := spec_float.

Definition prec : Z := 53%Z.
Definition emax : Z := 1024%Z.

Definition sub : float -> float -> float := SFsub prec emax.
Definition div : float -> float -> float := SFdiv prec emax.
Definition mul : float -> float -> float := SFmul prec emax.

Definition of_Z (z : Z) : float := binary_normalize prec emax z 0%Z false.

(** Round a non-negative fraction [num / den] to the nearest integer, ties
    to the even one. *)
Definition round_half_even (num den : Z) : Z :=
  let q := (num / den)%Z in
  let r := (num mod den)%Z in
  match (2 * r ?= den)%Z with
  | Lt => q
  | Gt => (q + 1)%Z
  | Eq => if Z.even q then q else (q + 1)%Z
  end.

(** The magnitude [m * 2^e] in hundredths, correctly rounded. *)
Definition hundredths (m : positive) (e : Z) : Z :=
  match e with
  | Zneg p => round_half_even (Zpos m * 100) (Z.pow_pos 2 p)
  | _ => (Zpos m * 2 ^ e * 100)%Z
  end.

Definition two_digits (z : Z) : string :=
  if (z <? 10)%Z then "0" ++ Text.str_of_Z z else Text.str_of_Z z.

(** [f"{x:.2f}"]. *)
Definition fmt2 (x : float) : string :=
  match x with
  | S754_nan => "nan"
  | S754_infinity s => if s then "-inf" else "inf"
  | S754_zero s => if s then "-0.00" else "0.00"
  | S754_finite s m e =>
      let h := hundredths m e in
      (if s then "-" else EmptyString)
        ++ Text.str_of_Z (h / 100) ++ "." ++ two_digits (h mod 100)
  end.

End Float64.

(* ===================================================================== *)
(** * Py: exceptions, the call trace and the outside world *)
(* ===================================================================== *)

Module Py.

(** An exception (any subclass of [Exception]), seen through [str(e)]. *)
Record exn : Type := Exn { str : string }.

Inductive result (A : Type) : Type :=
| Ok (a : A)
| Raise (e : exn).
Arguments Ok {A} a.
Arguments Raise {A} e.

#[local] Set Warnings "-register-all".

(** A JSON answer of Alpha Vantage after [response.json()]: that service
    answers with objects whose leaves are strings (numbers included).  An
    object is a [dict]: keys in document order. *)
Inductive json : Type :=
| JStr (s : string)
| JObj (fields : list (string * json)).

(** What [self.llm.invoke] gives back: an object that may carry a
    [content] attribute, and its [str()]. *)
Record reply : Type := Reply { content : option string; reply_str : string }.

(** One call that leaves the process. *)
Inductive event : Type :=
| Sleep (seconds : Z)                         (* time.sleep *)
| TickerInfo (symbol : string)                (* yf.Ticker(symbol).info *)
| TickerHistory (symbol period : string)      (* yf.Ticker(symbol).history(period=...) *)
| EnvFile                                     (* open('.env') *)
| HttpGet (url : string)                      (* requests.get(url, timeout=10).json() *)
| Search (query : string)                     (* DDGS().text(query, max_results=3) *)
| Eval (expression : string)                  (* eval(expression, ...) *)
| Invoke (message : string).                  (* self.llm.invoke(message) *)

Definition trace : Type := list event.

(** The outside world, as far as one [chat] call can see it.  A mapping
    of strings stands for a [dict] whose values are read through [str()]. *)
Record World : Type := {
  (* [ticker.info]: field name to the text of its value *)
  ticker_info : string -> result (string -> option string);
  (* the [Close] column of [ticker.history(period=period)], oldest first *)
  ticker_history : string -> string -> result (list Float64.float);
  (* [Series.mean()] of pandas and the built-in [sum], whose rounding is
     the library's own *)
  series_mean : list Float64.float -> Float64.float;
  float_sum : list Float64.float -> Float64.float;
  (* [_load_env_file()]: the parsed [.env] file *)
  env_file : result (string -> option string);
  (* [requests.get(url, timeout=10).json()] *)
  http_get_json : string -> result json;
  (* [float(text)] and [str()] of a [dict] *)
  float_of_str : string -> result Float64.float;
  repr_obj : list (string * json) -> string;
  (* the hits of a web search: title and body *)
  ddgs_text : string -> Z -> result (list (string * string));
  (* [eval] on a text the model does not decide itself (see [Expr]): the
     [str()] of the value, or the exception *)
  eval_value : string -> result string;
  (* [self.llm.invoke(message)] *)
  llm_invoke : string -> result reply
}.

(** Computations that log their calls and may raise. *)
Definition M (A : Type) : Type := trace -> trace * result A.

Definition ret {A} (a : A) : M A := fun t => (t, Ok a).
Definition raise {A} (e : exn) : M A := fun t => (t, Raise e).

Definition bind {A B} (m : M A) (f : A -> M B) : M B :=
  fun t =>
    match m t with
    | (t', Ok a) => f a t'
    | (t', Raise e) => (t', Raise e)
    end.

(** [try: body  except Exception as e: handler e]. *)
Definition try_except {A} (body : M A) (handler : exn -> M A) : M A :=
  fun t =>
    match body t with
    | (t', Ok a) => (t', Ok a)
    | (t', Raise e) => handler e t'
    end.

(** Log a call and hand over what the world answers. *)
Definition call {A} (ev : event) (answer : result A) : M A :=
  fun t => ((t ++ [ev])%list, answer).

Definition lift {A} (r : result A) : M A := fun t => (t, r).

End Py.

Declare Scope py_scope.
Delimit Scope py_scope with py.
Notation "x <- m ;; k" := (Py.bind m (fun x => k))
  (at level 61, m at next level, right associativity) : py_scope.
Notation "m ;;; k" := (Py.bind m (fun _ => k))
  (at level 61, right associativity) : py_scope.

(* ===================================================================== *)
(** * Expr: what the model fixes about [eval] *)
(* ===================================================================== *)

Module Expr.

(** [eval] is the interpreter's own.  The model fixes one fact of its
    grammar and leaves the rest to the world ([Py.eval_value]): a text made
    of names, decimal numbers, blanks and the operators [+ - * / %] in
    which two operands stand side by side does not parse, and [eval]
    raises [SyntaxError("invalid syntax", ("<string>", 1, ...))].  Texts
    that hold a keyword (or the legacy statement names [print] and [exec],
    which have an error text of their own) are left to the world. *)

Inductive token : Type :=
| TWord (w : string)
| TBlank
| TOp (c : ascii).

Definition wordchar (c : ascii) : bool :=
  Text.isdigit c || Text.isupper_az c || Text.islower_az c || (Text.code c =? 95).

Definition blank (c : ascii) : bool := (Text.code c =? 32) || (Text.code c =? 9).

Definition operator (c : ascii) : bool :=
  existsb (Ascii.eqb c) (list_ascii_of_string "+-*/%").

Fixpoint lex (s : string) : list token :=
  match s with
  | EmptyString => []
  | String c rest =>
      if wordchar c then
        match lex rest with
        | TWord w :: ts => TWord (String c w) :: ts
        | ts => TWord (String c EmptyString) :: ts
        end
      else if blank c then TBlank :: lex rest
      else TOp c :: lex rest
  end.

Fixpoint all_chars (p : ascii -> bool) (s : string) : bool :=
  match s with
  | EmptyString => true
  | String c rest => p c && all_chars p rest
  end.

Definition reserved : list string :=
  ["False"; "None"; "True"; "and"; "as"; "assert"; "async"; "await"; "break";
   "class"; "continue"; "def"; "del"; "elif"; "else"; "except"; "finally";
   "for"; "from"; "global"; "if"; "import"; "in"; "is"; "lambda"; "nonlocal";
   "not"; "or"; "pass"; "raise"; "return"; "try"; "while"; "with"; "yield";
   "print"; "exec"].

(** A decimal integer without a leading zero, or a name that is not
    reserved. *)
Definition operand (w : string) : bool :=
  match w with
  | EmptyString => false
  | String c rest =>
      if Text.isdigit c
      then all_chars Text.isdigit rest && (negb (Text.code c =? 48) || String.eqb rest EmptyString)
      else negb (existsb (String.eqb w) reserved)
  end.

Definition token_ok (t : token) : bool :=
  match t with
  | TWord w => operand w
  | TBlank => true
  | TOp c => operator c
  end.

(** Two words with nothing but blanks between them. *)
Fixpoint juxtaposed (ts : list token) (after_word : bool) : bool :=
  match ts with
  | [] => false
  | TWord _ :: rest => after_word || juxtaposed rest true
  | TBlank :: rest => juxtaposed rest after_word
  | TOp _ :: rest => juxtaposed rest false
  end.

Definition operands_side_by_side (expression : string) : bool :=
  let ts := lex expression in
  forallb token_ok ts && juxtaposed ts false.

Definition syntax_error : Py.exn := Py.Exn "invalid syntax (<string>, line 1)".

End Expr.

(* ===================================================================== *)
(** * Agent: [class StockMarketAgent] *)
(* ===================================================================== *)

Module Agent.

Import Py.
Local Open Scope py_scope.

(** A tool function: the closures of [_create_tools] take a symbol (or a
    query, or an expression), a symbol and a period, or a symbol and a
    number of days. *)
Inductive callable : Type :=
| OfText (f : string -> M string)
| OfSymbolPeriod (f : string -> string -> M string)
| OfSymbolDays (f : string -> Z -> M string).

(** [langchain.tools.Tool]. *)
Record Tool : Type := { name : string; description : string; func : callable }.

(** ** Helpers: the Python operations on a parsed JSON answer *)

Fixpoint lookup {A} (key : string) (d : list (string * A)) : option A :=
  match d with
  | [] => None
  | (k, v) :: rest => if String.eqb k key then Some v else lookup key rest
  end.

(** [key in data]. *)
Definition json_in (key : string) (data : json) : bool :=
  match data with
  | JStr s => Text.contains key s
  | JObj fields => existsb (fun kv => String.eqb (fst kv) key) fields
  end.

(** Truth value of a string or a dict. *)
Definition json_truthy (data : json) : bool :=
  match data with
  | JStr s => negb (String.eqb s EmptyString)
  | JObj fields => match fields with [] => false | _ => true end
  end.

(** [data[key]]. *)
Definition json_getitem (data : json) (key : string) : result json :=
  match data with
  | JStr _ => Raise (Exn "string indices must be integers, not 'str'")
  | JObj fields =>
      match lookup key fields with
      | Some v => Ok v
      | None => Raise (Exn ("'" ++ key ++ "'"))
      end
  end.

(** [data.get(key, default)]. *)
Definition json_get (data : json) (key : string) (default : json) : result json :=
  match data with
  | JStr _ => Raise (Exn "'str' object has no attribute 'get'")
  | JObj fields =>
      match lookup key fields with
      | Some v => Ok v
      | None => Ok default
      end
  end.

(** [data.keys()]. *)
Definition json_keys (data : json) : result (list string) :=
  match data with
  | JStr _ => Raise (Exn "'str' object has no attribute 'keys'")
  | JObj fields => Ok (map fst fields)
  end.

(** Order of strings ([<=] on [str]: by code point). *)
Fixpoint str_leb (a b : string) : bool :=
  match a, b with
  | EmptyString, _ => true
  | String _ _, EmptyString => false
  | String x a', String y b' =>
      if Text.code x <? Text.code y then true
      else if Text.code y <? Text.code x then false
      else str_leb a' b'
  end.

Fixpoint insert_desc (x : string) (l : list string) : list string :=
  match l with
  | [] => [x]
  | y :: rest => if str_leb y x then x :: l else y :: insert_desc x rest
  end.

(** [sorted(keys, reverse=True)]. *)
Definition sorted_reverse (l : list string) : list string :=
  fold_right insert_desc [] l.

(** [l[:k]], also for a negative [k]. *)
Definition slice_to {A} (k : Z) (l : list A) : list A :=
  if (k <? 0)%Z then firstn (Z.to_nat (Z.of_nat (List.length l) + k)) l
  else firstn (Z.to_nat k) l.

(** [max(matches, key=len)]: the first of the longest. *)
Fixpoint max_by_len (best : string) (l : list string) : string :=
  match l with
  | [] => best
  | x :: rest =>
      if String.length best <? String.length x then max_by_len x rest
      else max_by_len best rest
  end.

(** ["429" in str(e) or "Too Many Requests" in str(e)]. *)
Definition rate_limited (e : exn) : bool :=
  Text.contains "429" (str e) || Text.contains "Too Many Requests" (str e).

Definition ALPHA_VANTAGE_API_KEY : string := "ALPHA_VANTAGE_API_KEY".

(** [if not api_key]: the key is missing or empty. *)
Definition usable_key (k : option string) : option string :=
  match k with
  | Some (String c rest) => Some (String c rest)
  | _ => None
  end.

Section WithWorld.

Variable w : World.

(** [self._load_env_file()]. *)
Definition _load_env_file : M (string -> option string) :=
  call EnvFile (env_file w).

(** [requests.get(url, timeout=10)] and [response.json()]. *)
Definition fetch (url : string) : M json :=
  call (HttpGet url) (http_get_json w url).

(** [str()] of a JSON value inside an f-string. *)
Definition json_str (j : json) : string :=
  match j with
  | JStr s => s
  | JObj fields => repr_obj w fields
  end.

(** [float(value)]. *)
Definition json_float (j : json) : result Float64.float :=
  match j with
  | JStr s => float_of_str w s
  | JObj _ => Raise (Exn "float() argument must be a string or a real number, not 'dict'")
  end.

Definition query_url (function_ symbol api_key : string) : string :=
  "https://www.alphavantage.co/query?function=" ++ function_
    ++ "&symbol=" ++ symbol ++ "&apikey=" ++ api_key.

(** ** The Alpha Vantage fallbacks *)

Definition _get_stock_price_alpha_vantage (symbol : string) : M string :=
  try_except
    (env_vars <- _load_env_file ;;
     match usable_key (env_vars ALPHA_VANTAGE_API_KEY) with
     | None => ret ("Alpha Vantage API key not configured for " ++ symbol)
     | Some api_key =>
         data <- fetch (query_url "GLOBAL_QUOTE" symbol api_key) ;;
         if json_in "Global Quote" data then
           quote <- lift (json_getitem data "Global Quote") ;;
           if json_truthy quote then
             price <- lift (json_get quote "05. price" (JStr "N/A")) ;;
             ret ("Current price of " ++ Text.upper symbol
                    ++ " (Alpha Vantage): $" ++ json_str price)
           else ret ("No data available for " ++ symbol ++ " from Alpha Vantage")
         else ret ("No data available for " ++ symbol ++ " from Alpha Vantage")
     end)
    (fun e => ret ("Error fetching price from Alpha Vantage for " ++ symbol ++ ": " ++ str e)).

Definition _get_stock_info_alpha_vantage (symbol : string) : M string :=
  try_except
    (env_vars <- _load_env_file ;;
     match usable_key (env_vars ALPHA_VANTAGE_API_KEY) with
     | None => ret ("Alpha Vantage API key not configured for " ++ symbol)
     | Some api_key =>
         data <- fetch (query_url "OVERVIEW" symbol api_key) ;;
         if json_truthy data && json_in "Symbol" data then
           let field label key :=
             v <- lift (json_get data key (JStr "N/A")) ;; ret (label ++ json_str v ++ Text.nl) in
           l1 <- field "Current Price: $" "PriceToBookRatio" ;;
           l2 <- field "Market Cap: $" "MarketCapitalization" ;;
           l3 <- field "Volume: " "Volume" ;;
           l4 <- field "52 Week High: $" "52WeekHigh" ;;
           l5 <- field "52 Week Low: $" "52WeekLow" ;;
           l6 <- field "Sector: " "Sector" ;;
           l7 <- field "Industry: " "Industry" ;;
           ret ("Stock Information for " ++ Text.upper symbol ++ " (Alpha Vantage):" ++ Text.nl
                  ++ l1 ++ l2 ++ l3 ++ l4 ++ l5 ++ l6 ++ l7)
         else ret ("No detailed data available for " ++ symbol ++ " from Alpha Vantage")
     end)
    (fun e => ret ("Error fetching detailed info from Alpha Vantage for " ++ symbol ++ ": " ++ str e)).

Definition function_map : list (string * string) :=
  [("1d", "TIME_SERIES_INTRADAY"); ("5d", "TIME_SERIES_INTRADAY");
   ("1mo", "TIME_SERIES_MONTHLY"); ("3mo", "TIME_SERIES_MONTHLY");
   ("6mo", "TIME_SERIES_MONTHLY"); ("1y", "TIME_SERIES_MONTHLY");
   ("2y", "TIME_SERIES_MONTHLY"); ("5y", "TIME_SERIES_MONTHLY");
   ("10y", "TIME_SERIES_MONTHLY"); ("ytd", "TIME_SERIES_MONTHLY");
   ("max", "TIME_SERIES_MONTHLY")].

(** [float(time_series[date]["4. close"])]. *)
Definition close_of (time_series : json) (date : string) : result Float64.float :=
  match json_getitem time_series date with
  | Raise e => Raise e
  | Ok day =>
      match json_getitem day "4. close" with
      | Raise e => Raise e
      | Ok v => json_float v
      end
  end.

(** [((latest - previous) / previous) * 100]. *)
Definition change_percent (latest previous : Float64.float) : Float64.float :=
  Float64.mul (Float64.div (Float64.sub latest previous) previous) (Float64.of_Z 100).

Definition _get_historical_data_alpha_vantage (symbol period : string) : M string :=
  let nothing := "No historical data available for " ++ symbol ++ " from Alpha Vantage" in
  try_except
    (env_vars <- _load_env_file ;;
     match usable_key (env_vars ALPHA_VANTAGE_API_KEY) with
     | None => ret ("Alpha Vantage API key not configured for " ++ symbol)
     | Some api_key =>
         let function_ :=
           match lookup period function_map with
           | Some f => f
           | None => "TIME_SERIES_MONTHLY"
           end in
         data <- fetch (query_url function_ symbol api_key) ;;
         keys <- lift (json_keys data) ;;
         match find (Text.contains "Time Series") keys with
         | None => ret nothing
         | Some time_series_key =>
             time_series <- lift (json_getitem data time_series_key) ;;
             if json_truthy time_series then
               days <- lift (json_keys time_series) ;;
               match sorted_reverse days with
               | latest_date :: previous_date :: _ =>
                   latest_close <- lift (close_of time_series latest_date) ;;
                   previous_close <- lift (close_of time_series previous_date) ;;
                   ret ("Historical data for " ++ Text.upper symbol ++ " (" ++ period
                          ++ ") - Alpha Vantage:" ++ Text.nl
                          ++ "Latest Close: $" ++ Float64.fmt2 latest_close ++ Text.nl
                          ++ "Previous Close: $" ++ Float64.fmt2 previous_close ++ Text.nl
                          ++ "Change: "
                          ++ Float64.fmt2 (change_percent latest_close previous_close)
                          ++ "%" ++ Text.nl)
               | _ => ret nothing
               end
             else ret nothing
         end
     end)
    (fun e => ret ("Error fetching historical data from Alpha Vantage for " ++ symbol ++ ": " ++ str e)).

(** The loop over [recent_dates] that fills [prices]. *)
Fixpoint closes_of (time_series : json) (dates : list string) : result (list Float64.float) :=
  match dates with
  | [] => Ok []
  | d :: rest =>
      match close_of time_series d with
      | Raise e => Raise e
      | Ok p =>
          match closes_of time_series rest with
          | Raise e => Raise e
          | Ok ps => Ok (p :: ps)
          end
      end
  end.

Definition _calculate_average_price_alpha_vantage (symbol : string) (days : Z) : M string :=
  let nothing := "No data available for calculating average of " ++ symbol ++ " from Alpha Vantage" in
  try_except
    (env_vars <- _load_env_file ;;
     match usable_key (env_vars ALPHA_VANTAGE_API_KEY) with
     | None => ret ("Alpha Vantage API key not configured for " ++ symbol)
     | Some api_key =>
         data <- fetch (query_url "TIME_SERIES_DAILY" symbol api_key) ;;
         if json_in "Time Series (Daily)" data then
           time_series <- lift (json_getitem data "Time Series (Daily)") ;;
           if json_truthy time_series then
             all_days <- lift (json_keys time_series) ;;
             let dates := sorted_reverse all_days in
             let recent_dates :=
               slice_to (Z.min days (Z.of_nat (List.length dates))) dates in
             prices <- lift (closes_of time_series recent_dates) ;;
             match prices with
             | [] => ret nothing
             | _ =>
                 let avg_price :=
                   Float64.div (float_sum w prices)
                               (Float64.of_Z (Z.of_nat (List.length prices))) in
                 ret ("Average price of " ++ Text.upper symbol ++ " over last "
                        ++ Text.str_of_Z (Z.of_nat (List.length prices))
                        ++ " days (Alpha Vantage): $" ++ Float64.fmt2 avg_price)
             end
           else ret nothing
         else ret nothing
     end)
    (fun e => ret ("Error calculating average from Alpha Vantage for " ++ symbol ++ ": " ++ str e)).

Definition crypto_symbols : list (string * string) :=
  [("BTC", "BTC"); ("ETH", "ETH"); ("ADA", "ADA"); ("DOGE", "DOGE")].

Definition _get_crypto_price_alpha_vantage (symbol : string) : M string :=
  try_except
    (env_vars <- _load_env_file ;;
     match usable_key (env_vars ALPHA_VANTAGE_API_KEY) with
     | None => ret ("Alpha Vantage API key not configured for " ++ symbol)
     | Some api_key =>
         let crypto_symbol :=
           match lookup (Text.upper symbol) crypto_symbols with
           | Some s => s
           | None => Text.upper symbol
           end in
         data <- fetch ("https://www.alphavantage.co/query?function=CURRENCY_EXCHANGE_RATE&from_currency="
                          ++ crypto_symbol ++ "&to_currency=USD&apikey=" ++ api_key) ;;
         if json_in "Realtime Currency Exchange Rate" data then
           exchange_rate <- lift (json_getitem data "Realtime Currency Exchange Rate") ;;
           price <- lift (json_get exchange_rate "5. Exchange Rate" (JStr "N/A")) ;;
           ret ("Current price of " ++ Text.upper symbol ++ " (Alpha Vantage): $" ++ json_str price)
         else ret ("No crypto data available for " ++ symbol ++ " from Alpha Vantage")
     end)
    (fun e => ret ("Error fetching crypto price from Alpha Vantage for " ++ symbol ++ ": " ++ str e)).

(** ** The tools of [_create_tools] *)

Definition get_stock_price (symbol : string) : M string :=
  try_except
    (call (Sleep 2) (Ok tt) ;;;
     info <- call (TickerInfo (Text.upper symbol)) (ticker_info w (Text.upper symbol)) ;;
     let current_price :=
       match info "currentPrice" with
       | Some v => v
       | None => match info "regularMarketPrice" with Some v => v | None => "N/A" end
       end in
     ret ("Current price of " ++ Text.upper symbol ++ ": $" ++ current_price))
    (fun e =>
       if rate_limited e then _get_stock_price_alpha_vantage symbol
       else ret ("Error fetching price for " ++ symbol ++ ": " ++ str e)).

Definition get_stock_info (symbol : string) : M string :=
  try_except
    (call (Sleep 2) (Ok tt) ;;;
     info <- call (TickerInfo (Text.upper symbol)) (ticker_info w (Text.upper symbol)) ;;
     let field key := match info key with Some v => v | None => "N/A" end in
     ret ("Stock Information for " ++ Text.upper symbol ++ ":" ++ Text.nl
            ++ "Current Price: $" ++ field "currentPrice" ++ Text.nl
            ++ "Previous Close: $" ++ field "previousClose" ++ Text.nl
            ++ "Market Cap: $" ++ field "marketCap" ++ Text.nl
            ++ "Volume: " ++ field "volume" ++ Text.nl
            ++ "52 Week High: $" ++ field "fiftyTwoWeekHigh" ++ Text.nl
            ++ "52 Week Low: $" ++ field "fiftyTwoWeekLow" ++ Text.nl))
    (fun e =>
       if rate_limited e then _get_stock_info_alpha_vantage symbol
       else ret ("Error fetching info for " ++ symbol ++ ": " ++ str e)).

(** [hist['Close'].iloc[i]]: position [i], counted from the end when it
    is negative. *)
Definition iloc (closes : list Float64.float) (i : Z) : result Float64.float :=
  let n := Z.of_nat (List.length closes) in
  let j := if (i <? 0)%Z then (n + i)%Z else i in
  if (j <? 0)%Z then Raise (Exn "single positional indexer is out-of-bounds")
  else
    match nth_error closes (Z.to_nat j) with
    | Some x => Ok x
    | None => Raise (Exn "single positional indexer is out-of-bounds")
    end.

Definition get_historical_data (symbol period : string) : M string :=
  try_except
    (call (Sleep 2) (Ok tt) ;;;
     hist <- call (TickerHistory (Text.upper symbol) period)
                  (ticker_history w (Text.upper symbol) period) ;;
     match hist with
     | [] => ret ("No historical data available for " ++ Text.upper symbol)
     | _ :: _ =>
         latest_price <- lift (iloc hist (-1)) ;;
         previous_price <-
           (if 1 <? List.length hist then lift (iloc hist (-2)) else ret latest_price) ;;
         let change := change_percent latest_price previous_price in
         ret ("Historical data for " ++ Text.upper symbol ++ " (" ++ period ++ "):" ++ Text.nl
                ++ "Latest Close: $" ++ Float64.fmt2 latest_price ++ Text.nl
                ++ "Previous Close: $" ++ Float64.fmt2 previous_price ++ Text.nl
                ++ "Change: " ++ Float64.fmt2 change ++ "%" ++ Text.nl)
     end)
    (fun e =>
       if rate_limited e then _get_historical_data_alpha_vantage symbol period
       else ret ("Error fetching historical data for " ++ symbol ++ ": " ++ str e)).

Definition calculate_average_price (symbol : string) (days : Z) : M string :=
  try_except
    (call (Sleep 2) (Ok tt) ;;;
     let period := Text.str_of_Z days ++ "d" in
     hist <- call (TickerHistory (Text.upper symbol) period)
                  (ticker_history w (Text.upper symbol) period) ;;
     match hist with
     | [] => ret ("No data available for " ++ Text.upper symbol)
     | _ :: _ =>
         let avg_price := series_mean w hist in
         ret ("Average price of " ++ Text.upper symbol ++ " over last "
                ++ Text.str_of_Z days ++ " days: $" ++ Float64.fmt2 avg_price)
     end)
    (fun e =>
       if rate_limited e then _calculate_average_price_alpha_vantage symbol days
       else ret ("Error calculating average for " ++ symbol ++ ": " ++ str e)).

Definition get_crypto_price (symbol : string) : M string :=
  try_except
    (call (Sleep 2) (Ok tt) ;;;
     let crypto_symbol := Text.upper symbol ++ "-USD" in
     info <- call (TickerInfo crypto_symbol) (ticker_info w crypto_symbol) ;;
     let current_price :=
       match info "currentPrice" with
       | Some v => v
       | None => match info "regularMarketPrice" with Some v => v | None => "N/A" end
       end in
     ret ("Current price of " ++ Text.upper symbol ++ ": $" ++ current_price))
    (fun e =>
       if rate_limited e then _get_crypto_price_alpha_vantage symbol
       else ret ("Error fetching crypto price for " ++ symbol ++ ": " ++ str e)).

(** The loop over [enumerate(results, 1)]. *)
Fixpoint search_lines (i : Z) (results : list (string * string)) : string :=
  match results with
  | [] => EmptyString
  | (title, body) :: rest =>
      Text.str_of_Z i ++ ". " ++ title ++ Text.nl ++ "   " ++ body ++ Text.nl ++ Text.nl
        ++ search_lines (i + 1) rest
  end.

Definition web_search (query : string) : M string :=
  try_except
    (results <- call (Search query) (ddgs_text w query 3) ;;
     match results with
     | [] => ret "No search results found"
     | _ :: _ => ret ("Search results:" ++ Text.nl ++ search_lines 1 results)
     end)
    (fun e => ret ("Error performing web search: " ++ str e)).

(** [eval(expression, {"__builtins__": {}}, allowed_names)], read through
    [str()].  Building [allowed_names] raises nothing: in a module that is
    imported, as [app.py] and [test_agent.py] import this one,
    [__builtins__] is a [dict]. *)
Definition eval (expression : string) : M string :=
  call (Eval expression)
       (if Expr.operands_side_by_side expression then Raise Expr.syntax_error
        else eval_value w expression).

Definition mathematical_calculation (expression : string) : M string :=
  try_except
    (result <- eval expression ;;
     ret ("Result: " ++ result))
    (fun e => ret ("Error in calculation: " ++ str e)).

Definition tools : list Tool :=
  [ {| name := "get_stock_price";
       description := "Get current stock price for a given symbol (e.g., AAPL, TSLA, MSFT)";
       func := OfText get_stock_price |};
    {| name := "get_stock_info";
       description := "Get detailed stock information including price, market cap, volume, etc.";
       func := OfText get_stock_info |};
    {| name := "get_historical_data";
       description := "Get historical stock data for a given symbol and period (1d, 5d, 1mo, 3mo, 6mo, 1y, 2y, 5y, 10y, ytd, max)";
       func := OfSymbolPeriod get_historical_data |};
    {| name := "calculate_average_price";
       description := "Calculate average stock price over specified number of days";
       func := OfSymbolDays calculate_average_price |};
    {| name := "get_crypto_price";
       description := "Get current cryptocurrency price (e.g., BTC, ETH, ADA)";
       func := OfText get_crypto_price |};
    {| name := "web_search";
       description := "Search the web for information using DuckDuckGo";
       func := OfText web_search |};
    {| name := "mathematical_calculation";
       description := "Perform mathematical calculations (e.g., '2+2', 'sqrt(16)', 'sin(pi/2)')";
       func := OfText mathematical_calculation |} ].

End WithWorld.

(** ** [_decide_tool]: the rule cascade *)

(** The four [math_patterns] of [_decide_tool]. *)
Definition decide_math_patterns : list Re.regex :=
  [ (* \d+\s*[+\-*/]\s*\d+ *)
    Re.seq [Re.plus Re.digit; Re.Star Re.space; Re.oneof "+-*/"; Re.Star Re.space;
            Re.plus Re.digit];
    (* \d+\s*%\s*of\s*\d+ *)
    Re.seq [Re.plus Re.digit; Re.Star Re.space; Re.lit "%"; Re.Star Re.space; Re.lit "of";
            Re.Star Re.space; Re.plus Re.digit];
    (* sqrt\s*\( *)
    Re.seq [Re.lit "sqrt"; Re.Star Re.space; Re.lit "("];
    (* sin\s*\(|cos\s*\(|tan\s*\( *)
    Re.alt [Re.seq [Re.lit "sin"; Re.Star Re.space; Re.lit "("];
            Re.seq [Re.lit "cos"; Re.Star Re.space; Re.lit "("];
            Re.seq [Re.lit "tan"; Re.Star Re.space; Re.lit "("]] ].

(** The list of the operator scan: ['+', '-', '*', '/', '%', '=', 'sqrt',
    'sin', 'cos', 'tan', 'log']. *)
Definition math_operators : list string :=
  ["+"; "-"; "*"; "/"; "%"; "="; "sqrt"; "sin"; "cos"; "tan"; "log"].

(** An alternation of plain words. *)
Definition words (l : list string) : Re.regex := Re.alt (map (fun s => Re.lit (Text.latin1 s)) l).

Definition price_patterns : list Re.regex :=
  [ (* precio|price|cotización|cuesta|cost|valor|value *)
    words ["precio"; "price"; "cotización"; "cuesta"; "cost"; "valor"; "value"];
    (* cuánto cuesta|how much|what.*price *)
    Re.alt [Re.lit (Text.latin1 "cuánto cuesta"); Re.lit "how much";
            Re.seq [Re.lit "what"; Re.Star Re.Dot; Re.lit "price"]];
    (* precio actual|current price *)
    words ["precio actual"; "current price"] ].

Definition crypto_words : list string :=
  ["bitcoin"; "btc"; "ethereum"; "eth"; "crypto"; "criptomoneda"].

Definition info_patterns : list Re.regex :=
  [ (* información|info|detalles|details|market cap|volumen|volume *)
    words ["información"; "info"; "detalles"; "details"; "market cap"; "volumen"; "volume"];
    (* capitalización|capitalization|52.*week|high|low *)
    Re.alt [Re.lit (Text.latin1 "capitalización"); Re.lit "capitalization";
            Re.seq [Re.lit "52"; Re.Star Re.Dot; Re.lit "week"];
            Re.lit "high"; Re.lit "low"] ].

Definition historical_patterns : list Re.regex :=
  [ (* histórico|historical|ayer|yesterday|cambio|change|trend *)
    words ["histórico"; "historical"; "ayer"; "yesterday"; "cambio"; "change"; "trend"];
    (* último|last|semana|week|mes|month|año|year *)
    words ["último"; "last"; "semana"; "week"; "mes"; "month"; "año"; "year"] ].

Definition average_patterns : list Re.regex :=
  [ (* promedio|average|media|mean *)
    words ["promedio"; "average"; "media"; "mean"];
    (* última semana|last week|últimos días|last days *)
    words ["última semana"; "last week"; "últimos días"; "last days"] ].

Definition search_patterns : list Re.regex :=
  [ (* buscar|search|noticias|news|encontrar|find *)
    words ["buscar"; "search"; "noticias"; "news"; "encontrar"; "find"];
    (* últimas noticias|latest news|información sobre *)
    words ["últimas noticias"; "latest news"; "información sobre"] ].

(** [for pattern in patterns: if re.search(pattern, text): ...]: does the
    loop reach its body? *)
Definition any_search (patterns : list Re.regex) (text : string) : bool :=
  existsb (fun p => Re.search p text) patterns.

(** [any(x in text for x in l)]. *)
Definition any_in (l : list string) (text : string) : bool :=
  existsb (fun x => Text.contains x text) l.

(** ** [_extract_symbol_robust] *)

Definition stock_mapping : list (string * string) :=
  [("APPLE", "AAPL"); ("AAPL", "AAPL");
   ("TESLA", "TSLA"); ("TSLA", "TSLA");
   ("MICROSOFT", "MSFT"); ("MSFT", "MSFT");
   ("GOOGLE", "GOOGL"); ("GOOGL", "GOOGL");
   ("AMAZON", "AMZN"); ("AMZN", "AMZN");
   ("META", "META"); ("FACEBOOK", "META");
   ("NETFLIX", "NFLX"); ("NFLX", "NFLX");
   ("NVIDIA", "NVDA"); ("NVDA", "NVDA");
   ("BITCOIN", "BTC"); ("BTC", "BTC");
   ("ETHEREUM", "ETH"); ("ETH", "ETH")].

(** [\b[A-Z]{3,5}\b] *)
Definition symbol_pattern : Re.regex :=
  Re.seq [Re.WordB; Re.repeat (Re.Set_ false [Re.IRange "A" "Z"]) 3 5; Re.WordB].

Definition exclude_words : list string :=
  ["THE"; "AND"; "FOR"; "ARE"; "BUT"; "NOT"; "YOU"; "ALL"; "CAN"; "HAD"; "HER"; "WAS";
   "ONE"; "OUR"; "OUT"; "DAY"; "GET"; "HAS"; "HIM"; "HIS"; "HOW"; "ITS"; "MAY"; "NEW";
   "NOW"; "OLD"; "SEE"; "TWO"; "WAY"; "WHO"; "BOY"; "DID"; "MAN"; "MEN"; "PUT"; "SAY";
   "SHE"; "TOO"; "USE"].

Definition member (x : string) (l : list string) : bool := existsb (String.eqb x) l.

(** [for key, symbol in stock_mapping.items(): if key in message_upper:
    return symbol]. *)
Fixpoint first_key (mapping : list (string * string)) (message_upper : string)
  : option string :=
  match mapping with
  | [] => None
  | (key, symbol) :: rest =>
      if Text.contains key message_upper then Some symbol
      else first_key rest message_upper
  end.

(** [for symbol in symbols: if symbol not in exclude_words and
    len(symbol) >= 3: return symbol]. *)
Fixpoint first_symbol (symbols : list string) : option string :=
  match symbols with
  | [] => None
  | symbol :: rest =>
      if negb (member symbol exclude_words) && (3 <=? String.length symbol)
      then Some symbol
      else first_symbol rest
  end.

Definition _extract_symbol_robust (message : string) : option string :=
  let message_upper := Text.upper message in
  match first_key stock_mapping message_upper with
  | Some symbol => Some symbol
  | None => first_symbol (Re.findall symbol_pattern message_upper)
  end.

(** Truth value of an optional string ([if symbol:], [if tool_name:]). *)
Definition truthy (x : option string) : bool :=
  match x with
  | Some (String _ _) => true
  | _ => false
  end.

Definition _decide_tool (message : string) : option string :=
  let message_lower := Text.lower message in
  if any_search decide_math_patterns message_lower then Some "mathematical_calculation"
  else if any_in math_operators message then Some "mathematical_calculation"
  else if any_search price_patterns message_lower then
    if any_in crypto_words message_lower then Some "get_crypto_price"
    else Some "get_stock_price"
  else if any_search info_patterns message_lower then Some "get_stock_info"
  else if any_search historical_patterns message_lower then Some "get_historical_data"
  else if any_search average_patterns message_lower then Some "calculate_average_price"
  else if any_search search_patterns message_lower then Some "web_search"
  else if truthy (_extract_symbol_robust message) then Some "get_stock_price"
  else None.

(** ** [chat] *)

(** The five [math_patterns] of [chat]. *)
Definition chat_math_patterns : list Re.regex :=
  [ (* \d+\s*[+\-*/]\s*\d+ *)
    Re.seq [Re.plus Re.digit; Re.Star Re.space; Re.oneof "+-*/"; Re.Star Re.space;
            Re.plus Re.digit];
    (* \d+\s*%\s*of\s*\d+ *)
    Re.seq [Re.plus Re.digit; Re.Star Re.space; Re.lit "%"; Re.Star Re.space; Re.lit "of";
            Re.Star Re.space; Re.plus Re.digit];
    (* sqrt\s*\([^)]+\) *)
    Re.seq [Re.lit "sqrt"; Re.Star Re.space; Re.lit "("; Re.plus (Re.noneof ")"); Re.lit ")"];
    (* sin\s*\([^)]+\)|cos\s*\([^)]+\)|tan\s*\([^)]+\) *)
    Re.alt [Re.seq [Re.lit "sin"; Re.Star Re.space; Re.lit "("; Re.plus (Re.noneof ")"); Re.lit ")"];
            Re.seq [Re.lit "cos"; Re.Star Re.space; Re.lit "("; Re.plus (Re.noneof ")"); Re.lit ")"];
            Re.seq [Re.lit "tan"; Re.Star Re.space; Re.lit "("; Re.plus (Re.noneof ")"); Re.lit ")"]];
    (* [\d\+\-\*\/\(\)\.\s]+ *)
    Re.plus (Re.Set_ false
               [Re.IDigit; Re.IChar "+"; Re.IChar "-"; Re.IChar "*"; Re.IChar "/";
                Re.IChar "("; Re.IChar ")"; Re.IChar "."; Re.ISpace]) ].

(** The loop that sets [expression]: the first pattern with a match gives
    the longest of its matches, stripped. *)
Fixpoint extract_expression (patterns : list Re.regex) (message : string) : option string :=
  match patterns with
  | [] => None
  | pattern :: rest =>
      match Re.findall pattern message with
      | [] => extract_expression rest message
      | m :: ms => Some (Text.strip (max_by_len m ms))
      end
  end.

Definition symbol_prompt_any : string :=
  Text.latin1 "Por favor especifica el símbolo de la acción o criptomoneda (ej: Apple, Tesla, Bitcoin, AAPL, TSLA)".

Definition symbol_prompt_stock : string :=
  Text.latin1 "Por favor especifica el símbolo de la acción (ej: Apple, Tesla, AAPL, TSLA)".

Definition expression_prompt : string :=
  Text.latin1 "Por favor proporciona una expresión matemática válida (ej: 2+2, 15% of 250)".

(** [for tool in self.tools: if tool.name == tool_name: tool_func =
    tool.func; break]. *)
Fixpoint find_tool (tool_name : string) (registry : list Tool) : option callable :=
  match registry with
  | [] => None
  | tool :: rest =>
      if String.eqb (name tool) tool_name then Some (func tool)
      else find_tool tool_name rest
  end.

(** The three call shapes of [chat].  A closure called with a second
    argument it does not take is a [TypeError]; [chat] looks the closure up
    by the name that also picks the call shape, so it makes no such call. *)
Definition call_text (f : callable) (a : string) : M string :=
  match f with
  | OfText g => g a
  | OfSymbolPeriod g => g a "1mo"
  | OfSymbolDays g => g a 7%Z
  end.

Definition call_period (f : callable) (a period : string) : M string :=
  match f with
  | OfSymbolPeriod g => g a period
  | _ => raise (Exn "unexpected positional argument")
  end.

Definition call_days (f : callable) (a : string) (days : Z) : M string :=
  match f with
  | OfSymbolDays g => g a days
  | _ => raise (Exn "unexpected positional argument")
  end.

Section Chat.

Variable w : World.

(** [response = self.llm.invoke(message)] and the text read off it. *)
Definition ask_llm (message : string) : M string :=
  response <- call (Invoke message) (llm_invoke w message) ;;
  ret (match content response with
       | Some text => text
       | None => reply_str response
       end).

(** The body of the [try] of [chat]. *)
Definition chat_body (message : string) : M string :=
  let tool_name := _decide_tool message in
  match tool_name with
  | Some tn =>
      if truthy tool_name then
        match find_tool tn (tools w) with
        | Some tool_func =>
            if member tn ["get_stock_price"; "get_stock_info"; "get_crypto_price"] then
              let symbol := _extract_symbol_robust message in
              match symbol with
              | Some s => if truthy symbol then call_text tool_func s else ret symbol_prompt_any
              | None => ret symbol_prompt_any
              end
            else if member tn ["get_historical_data"; "calculate_average_price"] then
              let symbol := _extract_symbol_robust message in
              match symbol with
              | Some s =>
                  if truthy symbol then
                    if String.eqb tn "get_historical_data" then call_period tool_func s "1mo"
                    else call_days tool_func s 7%Z
                  else ret symbol_prompt_stock
              | None => ret symbol_prompt_stock
              end
            else if String.eqb tn "web_search" then call_text tool_func message
            else if String.eqb tn "mathematical_calculation" then
              let expression := extract_expression chat_math_patterns message in
              match expression with
              | Some e => if truthy expression then call_text tool_func e else ret expression_prompt
              | None => ret expression_prompt
              end
            else
              (* [return result] with no branch having set it *)
              raise (Exn "cannot access local variable 'result' where it is not associated with a value")
        | None => ask_llm message
        end
      else ask_llm message
  | None => ask_llm message
  end.

Definition chat (message : string) : M string :=
  try_except (chat_body message)
             (fun e => ret ("Error processing your request: " ++ str e)).

End Chat.

End Agent.

(* ===================================================================== *)
(** * Adapter: one invocation of a capability that has a fallback *)
(* ===================================================================== *)

Module Adapter.

Import Py Agent.

(** The five capabilities with a primary and a fallback source, with the
    arguments of one invocation. *)
Inductive request : Type :=
| Price (symbol : string)
| Info (symbol : string)
| History (symbol period : string)
| Average (symbol : string) (days : Z)
| Crypto (symbol : string).

Definition invoke (w : World) (r : request) : M string :=
  match r with
  | Price symbol => get_stock_price w symbol
  | Info symbol => get_stock_info w symbol
  | History symbol period => get_historical_data w symbol period
  | Average symbol days => calculate_average_price w symbol days
  | Crypto symbol => get_crypto_price w symbol
  end.

Definition fallback (w : World) (r : request) : M string :=
  match r with
  | Price symbol => _get_stock_price_alpha_vantage w symbol
  | Info symbol => _get_stock_info_alpha_vantage w symbol
  | History symbol period => _get_historical_data_alpha_vantage w symbol period
  | Average symbol days => _calculate_average_price_alpha_vantage w symbol days
  | Crypto symbol => _get_crypto_price_alpha_vantage w symbol
  end.

(** The calls the primary attempt makes before Yahoo Finance answers. *)
Definition primary_calls (r : request) : trace :=
  match r with
  | Price symbol | Info symbol => [Sleep 2; TickerInfo (Text.upper symbol)]
  | History symbol period => [Sleep 2; TickerHistory (Text.upper symbol) period]
  | Average symbol days =>
      [Sleep 2; TickerHistory (Text.upper symbol) (Text.str_of_Z days ++ "d")]
  | Crypto symbol => [Sleep 2; TickerInfo (Text.upper symbol ++ "-USD")]
  end.

(** The exception Yahoo Finance answers this request with, if it does. *)
Definition primary_failure (w : World) (r : request) : option exn :=
  let failure {A} (x : result A) := match x with Raise e => Some e | Ok _ => None end in
  match r with
  | Price symbol | Info symbol => failure (ticker_info w (Text.upper symbol))
  | History symbol period => failure (ticker_history w (Text.upper symbol) period)
  | Average symbol days =>
      failure (ticker_history w (Text.upper symbol) (Text.str_of_Z days ++ "d"))
  | Crypto symbol => failure (ticker_info w (Text.upper symbol ++ "-USD"))
  end.

(** Two worlds with the same fallback source: the same [.env] file, the
    same Alpha Vantage answers, the same number routines. *)
Definition same_fallback_source (w1 w2 : World) : Prop :=
  env_file w1 = env_file w2 /\
  http_get_json w1 = http_get_json w2 /\
  float_of_str w1 = float_of_str w2 /\
  repr_obj w1 = repr_obj w2 /\
  float_sum w1 = float_sum w2.

End Adapter.

(* ===================================================================== *)
(** * Rules: names for the stages of the cascade *)
(* ===================================================================== *)

Module Rules.

Import Agent.

(** The names of the registry. *)
Definition tool_names : list string :=
  ["get_stock_price"; "get_stock_info"; "get_historical_data"; "calculate_average_price";
   "get_crypto_price"; "web_search"; "mathematical_calculation"].

(** Stage 1: one of the four arithmetic shapes occurs in the lower-cased
    message. *)
Definition arithmetic_shape (message : string) : bool :=
  any_search decide_math_patterns (Text.lower message).

(** Stage 2: an operator or a function name occurs in the message. *)
Definition operator_present (message : string) : bool :=
  any_in math_operators message.

(** Stages 3 to 7. *)
Definition price_keyword (message : string) : bool :=
  any_search price_patterns (Text.lower message).

Definition info_keyword (message : string) : bool :=
  any_search info_patterns (Text.lower message).

Definition historical_keyword (message : string) : bool :=
  any_search historical_patterns (Text.lower message).

Definition average_keyword (message : string) : bool :=
  any_search average_patterns (Text.lower message).

Definition search_keyword (message : string) : bool :=
  any_search search_patterns (Text.lower message).

(** One of the stages 1 to 7 matches. *)
Definition matches_a_rule (message : string) : bool :=
  arithmetic_shape message || operator_present message || price_keyword message
  || info_keyword message || historical_keyword message || average_keyword message
  || search_keyword message.

(** [b] occurs in [s] before the first line feed that is not inside it. *)
Fixpoint same_line_contains (b s : string) : bool :=
  Text.startswith b s ||
  match s with
  | EmptyString => false
  | String c s' => if Text.code c =? 10 then false else same_line_contains b s'
  end.

(** [a] occurs in [s], and [b] after it on the same line: what the
    pattern [a.*b] looks for. *)
Fixpoint contains_then (a b s : string) : bool :=
  match Text.after_prefix a s with
  | Some rest => same_line_contains b rest
  | None => false
  end ||
  match s with
  | EmptyString => false
  | String _ s' => contains_then a b s'
  end.

(** The words of the price patterns and of the detailed-info patterns. *)
Definition price_words : list string :=
  map Text.latin1
      ["precio"; "price"; "cotización"; "cuesta"; "cost"; "valor"; "value";
       "cuánto cuesta"; "how much"; "precio actual"; "current price"].

Definition info_words : list string :=
  map Text.latin1
      ["información"; "info"; "detalles"; "details"; "market cap"; "volumen"; "volume";
       "capitalización"; "capitalization"; "high"; "low"].

(** The lower-cased message holds a price word, or ["what"] and later on
    the same line ["price"]. *)
Definition mentions_price (message : string) : bool :=
  any_in price_words (Text.lower message)
  || contains_then "what" "price" (Text.lower message).

(** The lower-cased message holds a detailed-info word, or ["52"] and
    later on the same line ["week"]. *)
Definition mentions_info (message : string) : bool :=
  any_in info_words (Text.lower message)
  || contains_then "52" "week" (Text.lower message).

(** The capabilities that take a symbol, and the prompt [chat] answers
    with when a message names none. *)
Definition symbol_tools : list string :=
  ["get_stock_price"; "get_stock_info"; "get_crypto_price";
   "get_historical_data"; "calculate_average_price"].

Definition symbol_prompt (tool_name : string) : string :=
  if member tool_name ["get_historical_data"; "calculate_average_price"]
  then symbol_prompt_stock else symbol_prompt_any.

(** The last close of a column, and the one before it: the last again
    when the column has one row. *)
Definition latest_close (hist : list Float64.float) : Float64.float :=
  last hist S754_nan.

Definition previous_close (hist : list Float64.float) : Float64.float :=
  if List.length hist <=? 1 then latest_close hist
  else nth (List.length hist - 2) hist S754_nan.

(** No key of the mapping occurs in the text. *)
Definition no_key_in (mapping : list (string * string)) (text : string) : bool :=
  forallb (fun kv => negb (Text.contains (fst kv) text)) mapping.

(** Every token the symbol pattern finds in the text is on the stoplist. *)
Definition all_tokens_excluded (text : string) : bool :=
  forallb (fun token => member token exclude_words) (Re.findall symbol_pattern text).

End Rules.

(* ===================================================================== *)
(** * Example worlds *)
(* ===================================================================== *)

Module Worlds.

Import Py.

(** Yahoo Finance answers every request with HTTP 429; no [.env] file, no
    network beyond that; the model answers ["Hello!"]. *)
Definition throttled : World :=
  {| ticker_info := fun _ => Raise (Exn "429 Client Error: Too Many Requests for url");
     ticker_history := fun _ _ => Raise (Exn "Too Many Requests. Rate limited. Try after a while.");
     series_mean := fun _ => S754_nan;
     float_sum := fun _ => S754_nan;
     env_file := Ok (fun _ => None);
     http_get_json := fun _ => Raise (Exn "Connection refused");
     float_of_str := fun _ => Raise (Exn "could not convert string to float");
     repr_obj := fun _ => "{}";
     ddgs_text := fun _ _ => Ok [];
     eval_value := fun _ => Raise (Exn "unsupported expression");
     llm_invoke := fun _ => Ok (Reply (Some "Hello!") "content='Hello!'") |}.

(** The same, with a completion provider that cannot be reached. *)
Definition silent : World :=
  {| ticker_info := ticker_info throttled;
     ticker_history := ticker_history throttled;
     series_mean := series_mean throttled;
     float_sum := float_sum throttled;
     env_file := env_file throttled;
     http_get_json := http_get_json throttled;
     float_of_str := float_of_str throttled;
     repr_obj := repr_obj throttled;
     ddgs_text := ddgs_text throttled;
     eval_value := eval_value throttled;
     llm_invoke := fun _ => Raise (Exn "Connection error.") |}.

(** Yahoo Finance answers every history request with the given [Close]
    column. *)
Definition with_history (closes : list Float64.float) : World :=
  {| ticker_info := ticker_info throttled;
     ticker_history := fun _ _ => Ok closes;
     series_mean := series_mean throttled;
     float_sum := float_sum throttled;
     env_file := env_file throttled;
     http_get_json := http_get_json throttled;
     float_of_str := float_of_str throttled;
     repr_obj := repr_obj throttled;
     ddgs_text := ddgs_text throttled;
     eval_value := eval_value throttled;
     llm_invoke := llm_invoke throttled |}.

(** 187.5, a close price. *)
Definition close_187_5 : Float64.float :=
  Float64.div (Float64.of_Z 375) (Float64.of_Z 2).

End Worlds.


(* ===================================================================== *)
(** * Calls: what a computation adds to the trace *)
(* ===================================================================== *)

Module Calls.

Import Py.

(** [m] appends to the trace, whatever it was, at most [n] calls, each of
    which satisfies [allowed]. *)
Definition makes {A} (m : M A) (n : nat) (allowed : event -> bool) : Prop :=
  forall t, exists evs,
      fst (m t) = (t ++ evs)%list /\ List.length evs <= n /\ forallb allowed evs = true.

Definition any_call (_ : event) : bool := true.

(** A call to the completion provider. *)
Definition is_invoke (ev : event) : bool :=
  match ev with
  | Invoke _ => true
  | _ => false
  end.

Definition not_invoke (ev : event) : bool := negb (is_invoke ev).

(** A call to Alpha Vantage or a read of the [.env] file it needs. *)
Definition is_fallback_call (ev : event) : bool :=
  match ev with
  | EnvFile | HttpGet _ => true
  | _ => false
  end.

End Calls.

(* ===================================================================== *)
(** * Report: the texts of the adapters *)
(* ===================================================================== *)

Module Report.

Import Py Agent.

Definition symbol_of (r : Adapter.request) : string :=
  match r with
  | Adapter.Price symbol | Adapter.Info symbol | Adapter.Crypto symbol => symbol
  | Adapter.History symbol _ | Adapter.Average symbol _ => symbol
  end.

(** What a tool says when Yahoo Finance fails for another reason than a
    rate limit. *)
Definition primary_error (r : Adapter.request) (e : exn) : string :=
  match r with
  | Adapter.Price symbol => "Error fetching price for " ++ symbol ++ ": " ++ str e
  | Adapter.Info symbol => "Error fetching info for " ++ symbol ++ ": " ++ str e
  | Adapter.History symbol _ => "Error fetching historical data for " ++ symbol ++ ": " ++ str e
  | Adapter.Average symbol _ => "Error calculating average for " ++ symbol ++ ": " ++ str e
  | Adapter.Crypto symbol => "Error fetching crypto price for " ++ symbol ++ ": " ++ str e
  end.

(** What a fallback says when reading the [.env] file, or the request to
    Alpha Vantage, raises. *)
Definition fallback_error (r : Adapter.request) (e : exn) : string :=
  match r with
  | Adapter.Price symbol =>
      "Error fetching price from Alpha Vantage for " ++ symbol ++ ": " ++ str e
  | Adapter.Info symbol =>
      "Error fetching detailed info from Alpha Vantage for " ++ symbol ++ ": " ++ str e
  | Adapter.History symbol _ =>
      "Error fetching historical data from Alpha Vantage for " ++ symbol ++ ": " ++ str e
  | Adapter.Average symbol _ =>
      "Error calculating average from Alpha Vantage for " ++ symbol ++ ": " ++ str e
  | Adapter.Crypto symbol =>
      "Error fetching crypto price from Alpha Vantage for " ++ symbol ++ ": " ++ str e
  end.

End Report.

(* ===================================================================== *)
(** * Cases: more example worlds *)
(* ===================================================================== *)

Module Cases.

Import Py.

(** Yahoo Finance cannot be reached at all (no rate limit is involved). *)
Definition unreachable : World :=
  {| ticker_info := fun _ => Raise (Exn "Failed to resolve 'query2.finance.yahoo.com'");
     ticker_history := fun _ _ => Raise (Exn "Failed to resolve 'query2.finance.yahoo.com'");
     series_mean := series_mean Worlds.throttled;
     float_sum := float_sum Worlds.throttled;
     env_file := env_file Worlds.throttled;
     http_get_json := http_get_json Worlds.throttled;
     float_of_str := float_of_str Worlds.throttled;
     repr_obj := repr_obj Worlds.throttled;
     ddgs_text := ddgs_text Worlds.throttled;
     eval_value := eval_value Worlds.throttled;
     llm_invoke := llm_invoke Worlds.throttled |}.

(** Yahoo Finance answers: a quote of 189.84 for every symbol, and a
    two-row history. *)
Definition quoting : World :=
  {| ticker_info :=
       fun _ => Ok (fun field => if String.eqb field "currentPrice" then Some "189.84" else None);
     ticker_history := fun _ _ => Ok [Float64.of_Z 200; Worlds.close_187_5];
     series_mean := fun _ => Float64.of_Z 193;
     float_sum := float_sum Worlds.throttled;
     env_file := env_file Worlds.throttled;
     http_get_json := http_get_json Worlds.throttled;
     float_of_str := float_of_str Worlds.throttled;
     repr_obj := repr_obj Worlds.throttled;
     ddgs_text := ddgs_text Worlds.throttled;
     eval_value := eval_value Worlds.throttled;
     llm_invoke := llm_invoke Worlds.throttled |}.

End Cases.

(* ===================================================================== *)
(** * Words: the keyword stages as lists of words *)
(* ===================================================================== *)

Module Words.

(** The words of the two historical patterns. *)
Definition historical_words : list string :=
  map Text.latin1
      (["histórico"; "historical"; "ayer"; "yesterday"; "cambio"; "change"; "trend"]
         ++ ["último"; "last"; "semana"; "week"; "mes"; "month"; "año"; "year"]).

(** The words of the first average pattern and the phrases of the
    second. *)
Definition average_words : list string :=
  map Text.latin1 ["promedio"; "average"; "media"; "mean"].

Definition average_phrases : list string :=
  map Text.latin1 ["última semana"; "last week"; "últimos días"; "last days"].

(** Some character of the text satisfies [p]. *)
Fixpoint has_char (p : ascii -> bool) (s : string) : bool :=
  match s with
  | EmptyString => false
  | String c rest => p c || has_char p rest
  end.

(** The characters of the last pattern of [chat]: [[\d\+\-\*\/\(\)\.\s]]. *)
Definition expression_char (c : ascii) : bool :=
  Re.set_mem false
    [Re.IDigit; Re.IChar "+"; Re.IChar "-"; Re.IChar "*"; Re.IChar "/";
     Re.IChar "("; Re.IChar ")"; Re.IChar "."; Re.ISpace] c.

(** A text that is empty or starts with a character that is not a blank. *)
Definition starts_clean (s : string) : Prop :=
  match s with
  | EmptyString => True
  | String c _ => Text.isspace c = false
  end.

End Words.

(* ===================================================================== *)
(** * Env: reading the [.env] file *)
(* ===================================================================== *)

(** [_load_env_file] of [stock_agent.py], and the [load_env_file] of
    [app.py] and of [test_agent.py], on the text of the file.  The byte
    order mark the source strips is U+FEFF, which is no character of a
    text of this model: stripping it leaves the content as it is. *)
Module Env.

Import Py Agent.

(** Where [str.splitlines] ends a line, below U+0100: LF, VT, FF, CR, FS,
    GS, RS and NEL. *)
Definition is_break (c : ascii) : bool :=
  Text.between 10 13 c || Text.between 28 30 c || (Text.code c =? 133).

(** [str.splitlines()]: CR LF ends one line, and a final line end opens
    no empty last line. *)
Fixpoint splitlines (s : string) : list string :=
  match s with
  | EmptyString => []
  | String c rest =>
      if is_break c then
        EmptyString ::
        match rest with
        | String d rest' =>
            if (Text.code c =? 13) && (Text.code d =? 10) then splitlines rest'
            else splitlines rest
        | EmptyString => []
        end
      else
        match splitlines rest with
        | [] => [String c EmptyString]
        | line :: lines => String c line :: lines
        end
  end.

(** [for line in f]: the lines of a file opened as text, each with the
    line feed that ends it. *)
Fixpoint file_lines (s : string) : list string :=
  match s with
  | EmptyString => []
  | String c rest =>
      if Text.code c =? 10 then String c EmptyString :: file_lines rest
      else
        match file_lines rest with
        | [] => [String c EmptyString]
        | line :: lines => String c line :: lines
        end
  end.

(** [s.split(sep, 1)] when [sep in s]: what is before the first [sep] and
    what is after it. *)
Fixpoint split_first (sep : ascii) (s : string) : option (string * string) :=
  match s with
  | EmptyString => None
  | String c rest =>
      if Ascii.eqb c sep then Some (EmptyString, rest)
      else
        match split_first sep rest with
        | Some (before, after) => Some (String c before, after)
        | None => None
        end
  end.

(** The body of the loop on one line: the key and the value it assigns,
    none for a line that is skipped. *)
Definition assignment (line : string) : option (string * string) :=
  let line := Text.strip line in
  if negb (String.eqb line EmptyString)
     && negb (Text.startswith "#" line)
     && Text.contains "=" line
  then
    match split_first "=" line with
    | Some (key, value) => Some (Text.strip key, Text.strip value)
    | None => None
    end
  else None.

(** [env_vars[key] = value] on a [dict]: the key keeps its place when it
    is there already. *)
Fixpoint assign {V} (key : string) (value : V) (d : list (string * V)) : list (string * V) :=
  match d with
  | [] => [(key, value)]
  | (k, v) :: rest =>
      if String.eqb k key then (k, value) :: rest else (k, v) :: assign key value rest
  end.

(** The loop over the lines, from the [env_vars] it starts with. *)
Definition read_lines {V} (of_str : string -> V) (lines : list string)
           (env_vars : list (string * V)) : list (string * V) :=
  fold_left
    (fun env_vars line =>
       match assignment line with
       | Some (key, value) => assign key (of_str value) env_vars
       | None => env_vars
       end)
    lines env_vars.

(** [_load_env_file] of the agent; [file] is what [open('.env').read()]
    gives, none for [FileNotFoundError]. *)
Definition _load_env_file (file : option string) : list (string * string) :=
  match file with
  | Some content => read_lines (fun value => value) (splitlines content) []
  | None => []
  end.

(** [load_env_file] of [test_agent.py]. *)
Definition test_load_env_file (file : option string) : list (string * string) :=
  match file with
  | Some content => read_lines (fun value => value) (file_lines content) []
  | None => []
  end.

(** [load_env_file] of [app.py]: the Streamlit secrets first (what fails
    there is swallowed), then the file.  A secret is a string or a
    section. *)
Definition app_load_env_file (secrets : result (list (string * json)))
           (file : option string) : list (string * json) :=
  let env_vars :=
    match secrets with
    | Ok (kv :: more) =>
        fold_left (fun env_vars kv => assign (fst kv) (snd kv) env_vars) (kv :: more) []
    | _ => []
    end in
  match file with
  | Some content => read_lines JStr (splitlines content) env_vars
  | None => env_vars
  end.

(** [env_vars.get(key)]. *)
Definition get {V} (env_vars : list (string * V)) (key : string) : option V :=
  lookup key env_vars.

(** A file written line by line, each line ended by a line feed, as
    [create_env_file] of [install.py] writes its template. *)
Fixpoint write_lines (lines : list string) : string :=
  match lines with
  | [] => EmptyString
  | line :: rest => line ++ Text.nl ++ write_lines rest
  end.

(** The template of [create_env_file]. *)
Definition template : string :=
  write_lines ["# Add your API keys here"; "GROQ_API_KEY="; "ALPHA_VANTAGE_API_KEY="].

(** Statement helpers. *)

Definition no_break (line : string) : bool :=
  Expr.all_chars (fun c => negb (is_break c)) line.


Definition assigns (key line : string) : bool :=
  match assignment line with
  | Some (k, _) => String.eqb k key
  | None => false
  end.

(** A key as one writes it: not empty, no blank and no [=] in it, no [#]
    at its start. *)
Definition plain_key (key : string) : bool :=
  negb (String.eqb key EmptyString)
  && Expr.all_chars (fun c => negb (Text.isspace c) && negb (Ascii.eqb c "=")) key
  && negb (Text.startswith "#" key).

Definition blank (s : string) : bool := Expr.all_chars Text.isspace s.


(** The world in which the [.env] file holds [file]. *)
Definition with_file (w : World) (file : option string) : World :=
  {| ticker_info := ticker_info w;
     ticker_history := ticker_history w;
     series_mean := series_mean w;
     float_sum := float_sum w;
     env_file := Ok (get (_load_env_file file));
     http_get_json := http_get_json w;
     float_of_str := float_of_str w;
     repr_obj := repr_obj w;
     ddgs_text := ddgs_text w;
     eval_value := eval_value w;
     llm_invoke := llm_invoke w |}.

End Env.

(* ===================================================================== *)
(** * Dates: the order of the keys of a time series *)
(* ===================================================================== *)

Module Dates.

Import Agent.


End Dates.

(* ===================================================================== *)
(** * App: one prompt of the chat page *)
(* ===================================================================== *)

(** The branch of [main] in [app.py] that handles what [st.chat_input]
    returned.  What is modelled is [st.session_state.messages] and the
    calls of the agent; drawing the page is not. *)
Module App.

Import Py Agent.
Local Open Scope py_scope.

Record message : Type := { role : string; content : string }.

Definition user (text : string) : message := {| role := "user"; content := text |}.
Definition assistant (text : string) : message := {| role := "assistant"; content := text |}.

Definition not_configured : string :=
  "Please configure your GROQ API key to use the agent.".

(** [agent] is [st.session_state.agent]: none when [initialize_agent]
    returned [None]. *)
Definition on_prompt (agent : option World) (messages : list message)
           (prompt : option string) : M (list message) :=
  match prompt with
  | Some text =>
      if truthy prompt then
        let messages := (messages ++ [user text])%list in
        match agent with
        | Some w =>
            try_except
              (response <- chat w text ;;
               ret (messages ++ [assistant response])%list)
              (fun e =>
                 ret (messages
                        ++ [assistant ("Sorry, I encountered an error: " ++ str e)])%list)
        | None => ret (messages ++ [assistant not_configured])%list
        end
      else ret messages
  | None => ret messages
  end.

End App.

(* ===================================================================== *)
(** * Properties *)
(* ===================================================================== *)

Import Py Agent.

Example latin1_example :
  Text.latin1 "año" = String "a" (String (ascii_of_nat 241) "o").
Proof. reflexivity. Qed.

Example findall_example :
  Re.findall (Re.Star (Re.Lit "x")) "abxd" = [EmptyString; EmptyString; "x"; EmptyString; EmptyString].
Proof. vm_compute. reflexivity. Qed.

Example operands_side_by_side_examples :
  Expr.operands_side_by_side "15% of 250" = true /\
  Expr.operands_side_by_side "2 + 2" = false /\
  Expr.operands_side_by_side "15 % 4" = false /\
  Expr.operands_side_by_side "1 if x else 2" = false /\
  Expr.operands_side_by_side "print 5" = false /\
  Expr.operands_side_by_side "sqrt(16)" = false.
Proof. vm_compute. repeat split. Qed.

Example fmt2_examples :
  Float64.fmt2 (Float64.of_Z 5) = "5.00" /\
  Float64.fmt2 (Float64.div (Float64.of_Z 1) (Float64.of_Z 8)) = "0.12" /\
  Float64.fmt2 (Float64.div (Float64.of_Z 3) (Float64.of_Z 8)) = "0.38" /\
  Float64.fmt2 (Float64.div (Float64.of_Z (-1)) (Float64.of_Z 3)) = "-0.33" /\
  Float64.fmt2 (Float64.div (Float64.of_Z 201) (Float64.of_Z 200)) = "1.00".
Proof. vm_compute. repeat split. Qed.

(** ** The matcher *)

(** The matcher consults its continuation only at positions of the text it
    was given: two continuations that agree there give the same result. *)
Lemma star_rounds_agree {A}
      (step : option ascii -> string -> (option ascii -> string -> option A) -> option A)
      (k1 k2 : option ascii -> string -> option A) (bound : nat) :
  (forall p s c1 c2,
      (forall p' s', String.length s' <= String.length s -> c1 p' s' = c2 p' s') ->
      step p s c1 = step p s c2) ->
  (forall p s, String.length s <= bound -> k1 p s = k2 p s) ->
  forall n p s, String.length s <= bound ->
                Re.star_rounds step k1 n p s = Re.star_rounds step k2 n p s.
Proof.
  intros Hstep Hk. induction n as [| n IH]; intros p s Hs; cbn [Re.star_rounds].
  - apply Hk, Hs.
  - rewrite (Hk p s Hs).
    erewrite (Hstep p s); [reflexivity |].
    intros p' s' Hs'. cbn beta.
    destruct (String.length s' <? String.length s) eqn:Hlt; [| reflexivity].
    apply IH. lia.
Qed.

Lemma rmatch_agree {A} (r : Re.regex) (prev : option ascii) (s : string)
      (k1 k2 : option ascii -> string -> option A) :
  (forall p' s', String.length s' <= String.length s -> k1 p' s' = k2 p' s') ->
  Re.rmatch r prev s k1 = Re.rmatch r prev s k2.
Proof.
  revert prev s k1 k2.
  induction r as [| c | | neg items | r1 IH1 r2 IH2 | r1 IH1 r2 IH2 | r1 IH1 |];
    intros prev s k1 k2 Hk; cbn [Re.rmatch].
  - apply Hk. lia.
  - destruct s as [| d s]; [reflexivity |].
    destruct (Ascii.eqb c d); [apply Hk; simpl; lia | reflexivity].
  - destruct s as [| d s]; [reflexivity |].
    destruct (Text.code d =? 10); [reflexivity | apply Hk; simpl; lia].
  - destruct s as [| d s]; [reflexivity |].
    destruct (Re.set_mem neg items d); [apply Hk; simpl; lia | reflexivity].
  - apply IH1. intros p' s' Hs'. apply IH2. intros p'' s'' Hs''. apply Hk. lia.
  - rewrite (IH1 prev s k1 k2 Hk), (IH2 prev s k1 k2 Hk). reflexivity.
  - apply (star_rounds_agree _ k1 k2 (String.length s)).
    + intros p s0 c1 c2 Hc. apply IH1. exact Hc.
    + exact Hk.
    + lia.
  - destruct (Re.at_boundary prev s); [apply Hk; lia | reflexivity].
Qed.

Lemma star_rounds_S {A}
      (step : option ascii -> string -> (option ascii -> string -> option A) -> option A)
      (k : option ascii -> string -> option A) (n : nat) (prev : option ascii) (s : string) :
  Re.star_rounds step k (S n) prev s
  = match step prev s
            (fun p' s' => if String.length s' <? String.length s
                          then Re.star_rounds step k n p' s' else None) with
    | Some x => Some x
    | None => k prev s
    end.
Proof. reflexivity. Qed.

(** A continuation that refuses every position makes the match fail. *)
Lemma rmatch_refused {A} (r : Re.regex) (prev : option ascii) (s : string) :
  @Re.rmatch A r prev s (fun _ _ => None) = None.
Proof.
  revert prev s.
  induction r as [| c | | neg items | r1 IH1 r2 IH2 | r1 IH1 r2 IH2 | r1 IH1 |];
    intros prev s; cbn [Re.rmatch].
  - reflexivity.
  - destruct s as [| d s]; [reflexivity |]. destruct (Ascii.eqb c d); reflexivity.
  - destruct s as [| d s]; [reflexivity |]. destruct (Text.code d =? 10); reflexivity.
  - destruct s as [| d s]; [reflexivity |]. destruct (Re.set_mem neg items d); reflexivity.
  - rewrite (rmatch_agree r1 prev s _ (fun _ _ => None)); [apply IH1 |].
    intros p' s' _. apply IH2.
  - now rewrite IH1, IH2.
  - generalize (String.length s) at 1. intros n. revert prev s.
    induction n as [| n IHn]; intros prev s; [reflexivity |].
    rewrite star_rounds_S. cbn beta.
    rewrite (rmatch_agree r1 prev s _ (fun _ _ => None)); [now rewrite IH1 |].
    intros p' s' _. destruct (String.length s' <? String.length s); [apply IHn | reflexivity].
  - destruct (Re.at_boundary prev s); reflexivity.
Qed.

(** Once the fuel is the length of the text, a round more changes
    nothing. *)
Lemma star_rounds_fuel {A} (r : Re.regex) (k : option ascii -> string -> option A) :
  forall n prev s,
    String.length s <= n ->
    Re.star_rounds (fun p' s' k' => Re.rmatch r p' s' k') k (S n) prev s
    = Re.star_rounds (fun p' s' k' => Re.rmatch r p' s' k') k n prev s.
Proof.
  induction n as [| n IH]; intros prev s Hs;
    rewrite (star_rounds_S _ k); cbn beta.
  - destruct s as [| c s]; [| simpl in Hs; lia].
    rewrite (rmatch_agree r prev EmptyString _ (fun _ _ => None)).
    + now rewrite rmatch_refused.
    + intros p' s' _. reflexivity.
  - rewrite (star_rounds_S _ k n). cbn beta.
    rewrite (rmatch_agree r prev s
               (fun p' s' => if String.length s' <? String.length s
                             then Re.star_rounds (fun p0 s0 k' => Re.rmatch r p0 s0 k') k (S n) p' s'
                             else None)
               (fun p' s' => if String.length s' <? String.length s
                             then Re.star_rounds (fun p0 s0 k' => Re.rmatch r p0 s0 k') k n p' s'
                             else None)); [reflexivity |].
    intros p' s' _. destruct (String.length s' <? String.length s) eqn:Hlt; [| reflexivity].
    apply Nat.ltb_lt in Hlt. apply IH. lia.
Qed.

(** The star of the matcher is the star with any fuel that is at least the
    length of the text: the bound on the rounds cuts nothing off. *)
Lemma star_fuel_enough {A} (r : Re.regex) (k : option ascii -> string -> option A)
      (n : nat) (prev : option ascii) (s : string) :
  String.length s <= n ->
  Re.star_rounds (fun p' s' k' => Re.rmatch r p' s' k') k n prev s
  = Re.rmatch (Re.Star r) prev s k.
Proof.
  intros Hn. replace n with ((n - String.length s) + String.length s) by lia.
  induction (n - String.length s) as [| d IH]; [reflexivity |].
  cbn [Nat.add]. rewrite star_rounds_fuel by lia. exact IH.
Qed.

Lemma startswith_after_prefix p s : Text.startswith p s = Re.matched (Text.after_prefix p s).
Proof.
  revert s. induction p as [| a p IH]; intros s; simpl; [reflexivity |].
  destruct s as [| b s]; [reflexivity |].
  destruct (Ascii.eqb a b); simpl; [apply IH | reflexivity].
Qed.

Lemma rmatch_lit {A} (p : string) (prev : option ascii) (s : string)
      (k : option ascii -> string -> option A) :
  Re.rmatch (Re.lit p) prev s k
  = match Text.after_prefix p s with
    | Some rest => k (Re.last_char prev p) rest
    | None => None
    end.
Proof.
  revert prev s. induction p as [| a p IH]; intros prev s; [reflexivity |].
  destruct p as [| b p].
  - simpl. destruct s as [| d s]; [reflexivity |].
    destruct (Ascii.eqb_spec a d) as [<- |]; reflexivity.
  - change (Re.lit (String a (String b p))) with (Re.Seq (Re.Lit a) (Re.lit (String b p))).
    cbn [Re.rmatch]. destruct s as [| d s]; [reflexivity |].
    cbn [Text.after_prefix Re.last_char]. destruct (Ascii.eqb_spec a d) as [<- |]; [| reflexivity].
    rewrite IH. reflexivity.
Qed.

Lemma rmatch_alt {A} (rs : list Re.regex) (prev : option ascii) (s : string)
      (k : option ascii -> string -> option A) :
  Re.matched (Re.rmatch (Re.alt rs) prev s k)
  = existsb (fun r => Re.matched (Re.rmatch r prev s k)) rs.
Proof.
  induction rs as [| r rs IH]; simpl.
  - destruct s; reflexivity.
  - destruct rs as [| r' rs].
    + simpl. now rewrite orb_false_r.
    + cbn [Re.rmatch]. destruct (Re.rmatch r prev s k); simpl; [reflexivity | exact IH].
Qed.

Lemma search_from_step (r : Re.regex) (prev : option ascii) (s : string) :
  Re.search_from r prev s
  = Re.matched (Re.match_at r prev s)
    || match s with
       | EmptyString => false
       | String c s' => Re.search_from r (Some c) s'
       end.
Proof.
  destruct s; simpl; destruct (Re.match_at r prev _); reflexivity.
Qed.

(** [existsb] over a mapped list, over a disjunction of tests and over
    two tests that agree. *)
Section Any.

Context {X Y : Type}.

Lemma any_of_map (h : X -> Y) (test : Y -> bool) (xs : list X) :
  existsb test (map h xs) = existsb (fun a => test (h a)) xs.
Proof. induction xs as [| a xs IH]; cbn; [reflexivity | now rewrite IH]. Qed.

Lemma any_of_either (test1 test2 : X -> bool) (xs : list X) :
  existsb (fun a => test1 a || test2 a) xs = existsb test1 xs || existsb test2 xs.
Proof.
  induction xs as [| a xs IH]; cbn; [reflexivity |].
  rewrite IH. destruct (test1 a), (test2 a), (existsb test1 xs); reflexivity.
Qed.

Lemma any_of_same (test1 test2 : X -> bool) (xs : list X) :
  (forall a, test1 a = test2 a) -> existsb test1 xs = existsb test2 xs.
Proof.
  intros Hsame. induction xs as [| a xs IH]; cbn; [reflexivity | now rewrite Hsame, IH].
Qed.

End Any.

Lemma search_from_alt (rs : list Re.regex) (prev : option ascii) (s : string) :
  Re.search_from (Re.alt rs) prev s = existsb (fun r => Re.search_from r prev s) rs.
Proof.
  revert prev. induction s as [| c s IH]; intros prev; rewrite search_from_step.
  - unfold Re.match_at. rewrite rmatch_alt, orb_false_r.
    apply any_of_same. intros r. rewrite search_from_step, orb_false_r. reflexivity.
  - rewrite IH. unfold Re.match_at. rewrite rmatch_alt, <- any_of_either.
    apply any_of_same. intros r. rewrite (search_from_step r prev). reflexivity.
Qed.

Lemma search_from_lit (p : string) (prev : option ascii) (s : string) :
  Re.search_from (Re.lit p) prev s = Text.contains p s.
Proof.
  revert prev. induction s as [| c s IH]; intros prev; rewrite search_from_step;
    unfold Re.match_at; rewrite rmatch_lit; cbn [Text.contains];
    rewrite startswith_after_prefix.
  - destruct (Text.after_prefix p EmptyString); reflexivity.
  - rewrite IH. destruct (Text.after_prefix p (String c s)); reflexivity.
Qed.

(** The greedy [.*] followed by a literal [b]. *)
Lemma star_dot_lit {A} (b : string) (k : option ascii -> string -> option A)
      (prev : option ascii) (s : string) :
  (forall p rest, Re.matched (k p rest) = true) ->
  Re.matched (Re.rmatch (Re.Star Re.Dot) prev s (fun p' s' => Re.rmatch (Re.lit b) p' s' k))
  = Rules.same_line_contains b s.
Proof.
  intros Hk. cbn [Re.rmatch].
  assert (Htail : forall p' s',
             Re.matched (Re.rmatch (Re.lit b) p' s' k) = Text.startswith b s').
  { intros p' s'. rewrite rmatch_lit, startswith_after_prefix.
    destruct (Text.after_prefix b s'); [apply Hk | reflexivity]. }
  revert prev. induction s as [| c s IH]; intros prev.
  - cbn [String.length Re.star_rounds Rules.same_line_contains]. rewrite Htail, orb_false_r. reflexivity.
  - cbn [String.length Re.star_rounds Rules.same_line_contains].
    destruct (Text.code c =? 10).
    + rewrite Htail, orb_false_r. reflexivity.
    + replace (String.length s <? S (String.length s)) with true
        by (symmetry; apply Nat.ltb_lt; lia).
      specialize (IH (Some c)).
      destruct (Re.star_rounds _ _ (String.length s) (Some c) s) eqn:Hs.
      * simpl in IH. rewrite <- IH. simpl. now rewrite orb_true_r.
      * simpl in IH. rewrite <- IH, Htail, orb_false_r. reflexivity.
Qed.

Lemma search_from_then (a b : string) (prev : option ascii) (s : string) :
  Re.search_from (Re.seq [Re.lit a; Re.Star Re.Dot; Re.lit b]) prev s = Rules.contains_then a b s.
Proof.
  assert (Hat : forall prev s,
             Re.matched (Re.match_at (Re.seq [Re.lit a; Re.Star Re.Dot; Re.lit b]) prev s)
             = match Text.after_prefix a s with
               | Some rest => Rules.same_line_contains b rest
               | None => false
               end).
  { intros prev0 s0. unfold Re.match_at.
    change (Re.seq [Re.lit a; Re.Star Re.Dot; Re.lit b])
      with (Re.Seq (Re.lit a) (Re.Seq (Re.Star Re.Dot) (Re.lit b))).
    cbn [Re.rmatch]. rewrite rmatch_lit.
    destruct (Text.after_prefix a s0) as [rest |]; [| reflexivity].
    apply (star_dot_lit b (fun _ rest0 => Some rest0)). reflexivity. }
  revert prev. induction s as [| c s IH]; intros prev; rewrite search_from_step, Hat.
  - reflexivity.
  - rewrite IH. reflexivity.
Qed.

Lemma In_all_ascii (d : ascii) : In d Re.all_ascii.
Proof.
  unfold Re.all_ascii. rewrite <- (ascii_nat_embedding d).
  apply in_map, in_seq. pose proof (nat_ascii_bounded d). lia.
Qed.

Lemma forallb_all_ascii (p : ascii -> bool) (d : ascii) :
  forallb p Re.all_ascii = true -> p d = true.
Proof. intros H. rewrite forallb_forall in H. apply H, In_all_ascii. Qed.

Lemma length_lower (s : string) : String.length (Text.lower s) = String.length s.
Proof. induction s as [| c s IH]; simpl; [reflexivity | now rewrite IH]. Qed.

Lemma at_boundary_lower (prev : option ascii) (s : string) :
  Re.stable Re.WordB = true ->
  Re.at_boundary (option_map Text.lower_char prev) (Text.lower s) = Re.at_boundary prev s.
Proof.
  intros H. unfold Re.at_boundary.
  assert (Hw : forall d, Text.isword (Text.lower_char d) = Text.isword d).
  { intros d. apply eqb_prop. exact (forallb_all_ascii _ d H). }
  destruct prev as [p |], s as [| c s]; cbn [option_map Text.lower]; rewrite ?Hw; reflexivity.
Qed.

Lemma star_rounds_lower {A B}
      (step : option ascii -> string -> (option ascii -> string -> option A) -> option A)
      (step' : option ascii -> string -> (option ascii -> string -> option B) -> option B)
      (k : option ascii -> string -> option A) (k' : option ascii -> string -> option B) :
  (forall c c', Re.carried c c' ->
     forall p s, Re.matched (step p s c) = true ->
                 Re.matched (step' (option_map Text.lower_char p) (Text.lower s) c') = true) ->
  Re.carried k k' ->
  forall n, Re.carried (Re.star_rounds step k n) (Re.star_rounds step' k' n).
Proof.
  intros Hstep Hk. induction n as [| n IH]; intros p s; cbn [Re.star_rounds].
  - apply Hk.
  - intros H.
    destruct (step p s _) eqn:Hs.
    + assert (Hs' : Re.matched
                      (step' (option_map Text.lower_char p) (Text.lower s)
                         (fun p' s' =>
                            if String.length s' <? String.length (Text.lower s)
                            then Re.star_rounds step' k' n p' s' else None)) = true).
      { eapply Hstep; [| rewrite Hs; reflexivity].
        intros p0 s0. rewrite !length_lower.
        destruct (String.length s0 <? String.length s); [apply IH | discriminate]. }
      destruct (step' _ _ _); [reflexivity | discriminate Hs'].
    + destruct (step' _ _ _); [reflexivity | apply Hk; exact H].
Qed.

Lemma rmatch_lower (r : Re.regex) :
  Re.stable r = true ->
  forall A B (k : option ascii -> string -> option A)
         (k' : option ascii -> string -> option B),
    Re.carried k k' ->
    Re.carried (fun p s => Re.rmatch r p s k) (fun p s => Re.rmatch r p s k').
Proof.
  induction r as [| c | | neg items | r1 IH1 r2 IH2 | r1 IH1 r2 IH2 | r1 IH1 |];
    intros Hst A B k k' Hk p s; cbn [Re.rmatch Re.stable] in *.
  - apply Hk.
  - destruct s as [| d s]; [discriminate |]. cbn [Text.lower].
    destruct (Ascii.eqb_spec c d) as [<- |]; [| discriminate].
    apply Ascii.eqb_eq in Hst. intros H. pose proof (Hk (Some c) s H) as Hk'.
    cbn [option_map] in Hk'. rewrite Hst in *. rewrite Ascii.eqb_refl. exact Hk'.
  - destruct s as [| d s]; [discriminate |]. cbn [Text.lower].
    pose proof (forallb_all_ascii _ d Hst) as Hd. cbn beta in Hd.
    destruct (Text.code d =? 10); [discriminate |].
    simpl in Hd. apply negb_true_iff in Hd. rewrite Hd. apply (Hk (Some d) s).
  - destruct s as [| d s]; [discriminate |]. cbn [Text.lower].
    pose proof (forallb_all_ascii _ d Hst) as Hd. cbn beta in Hd.
    destruct (Re.set_mem neg items d); [| discriminate].
    simpl in Hd. rewrite Hd. apply (Hk (Some d) s).
  - apply andb_prop in Hst. destruct Hst as [H1 H2].
    apply (IH1 H1 A B). apply (IH2 H2 A B). exact Hk.
  - apply andb_prop in Hst. destruct Hst as [H1 H2]. intros H.
    destruct (Re.rmatch r1 p s k) eqn:E1.
    + assert (H1' := IH1 H1 A B k k' Hk p s). cbn beta in H1'. rewrite E1 in H1'.
      specialize (H1' eq_refl).
      destruct (Re.rmatch r1 _ _ k'); [reflexivity | discriminate H1'].
    + destruct (Re.rmatch r1 _ _ k'); [reflexivity |].
      apply (IH2 H2 A B k k' Hk p s). exact H.
  - rewrite length_lower.
    apply (star_rounds_lower
             (fun p' s' k0 => Re.rmatch r1 p' s' k0)
             (fun p' s' k0 => Re.rmatch r1 p' s' k0) k k'); [| exact Hk].
    intros c c' Hc. apply (IH1 Hst A B c c' Hc).
  - rewrite (at_boundary_lower p s Hst).
    destruct (Re.at_boundary p s); [apply Hk | discriminate].
Qed.

Lemma match_at_lower (r : Re.regex) (prev : option ascii) (s : string) :
  Re.stable r = true ->
  Re.matched (Re.match_at r prev s) = true ->
  Re.matched (Re.match_at r (option_map Text.lower_char prev) (Text.lower s)) = true.
Proof.
  intros Hst. unfold Re.match_at.
  apply (rmatch_lower r Hst string string
           (fun _ rest => Some rest) (fun _ rest => Some rest)).
  intros p0 s0 _. reflexivity.
Qed.

Lemma search_from_lower (r : Re.regex) (prev : option ascii) (s : string) :
  Re.stable r = true ->
  Re.search_from r prev s = true ->
  Re.search_from r (option_map Text.lower_char prev) (Text.lower s) = true.
Proof.
  intros Hst. revert prev. induction s as [| c s IH]; intros prev;
    rewrite (search_from_step r prev),
            (search_from_step r (option_map Text.lower_char prev));
    cbn [Text.lower]; intros H;
    apply orb_true_iff in H; apply orb_true_iff; destruct H as [H | H].
  - left. apply (match_at_lower r prev EmptyString Hst H).
  - discriminate.
  - left. apply (match_at_lower r prev (String c s) Hst H).
  - right. apply (IH (Some c)). exact H.
Qed.


Lemma search_words (l : list string) (text : string) :
  Re.search (words l) text = any_in (map Text.latin1 l) text.
Proof.
  unfold Re.search, words, any_in.
  rewrite search_from_alt, !any_of_map.
  apply any_of_same. intros x. apply search_from_lit.
Qed.

(** Two disjunctions of the same boolean variables: decide one variable
    at a time. *)
Ltac same_disjuncts :=
  repeat match goal with
         | |- context [orb ?b _] =>
             is_var b; destruct b; cbn [orb];
             rewrite ?orb_true_r, ?orb_false_r; try reflexivity
         end.

(** Read the literals written through [latin1]. *)
Ltac read_latin1 :=
  repeat match goal with
         | |- context [Text.latin1 ?x] =>
             let y := eval vm_compute in (Text.latin1 x) in
             change (Text.latin1 x) with y
         end.

(** The price stage and the detailed-info stage, read as tests for
    words. *)
Lemma price_keyword_spec (message : string) :
  Rules.price_keyword message = Rules.mentions_price message.
Proof.
  unfold Rules.price_keyword, Rules.mentions_price, any_search, price_patterns.
  cbn [existsb]. rewrite !search_words.
  unfold Re.search. rewrite search_from_alt. cbn [existsb].
  rewrite !search_from_lit, search_from_then.
  unfold any_in, Rules.price_words. cbn [map existsb]. read_latin1.
  generalize (Rules.contains_then "what" "price" (Text.lower message)).
  repeat match goal with
         | |- context [Text.contains ?k (Text.lower message)] =>
             generalize (Text.contains k (Text.lower message))
         end.
  intros. same_disjuncts.
Qed.

Lemma info_keyword_spec (message : string) :
  Rules.info_keyword message = Rules.mentions_info message.
Proof.
  unfold Rules.info_keyword, Rules.mentions_info, any_search, info_patterns.
  cbn [existsb]. rewrite !search_words.
  unfold Re.search. rewrite search_from_alt. cbn [existsb].
  rewrite !search_from_lit, search_from_then.
  unfold any_in, Rules.info_words. cbn [map existsb]. read_latin1.
  generalize (Rules.contains_then "52" "week" (Text.lower message)).
  repeat match goal with
         | |- context [Text.contains ?k (Text.lower message)] =>
             generalize (Text.contains k (Text.lower message))
         end.
  intros. same_disjuncts.
Qed.

Lemma decide_math_patterns_stable : forallb Re.stable decide_math_patterns = true.
Proof. vm_compute. reflexivity. Qed.

(** A message that shows an arithmetic shape shows it lower-cased too. *)
Lemma arithmetic_shape_of_message (message : string) :
  any_search decide_math_patterns message = true ->
  Rules.arithmetic_shape message = true.
Proof.
  unfold Rules.arithmetic_shape, any_search. rewrite !existsb_exists.
  intros [r [Hin Hs]]. exists r. split; [exact Hin |].
  pose proof decide_math_patterns_stable as Hst.
  rewrite forallb_forall in Hst.
  exact (search_from_lower r None message (Hst r Hin) Hs).
Qed.

(** ** The monad *)

Lemma try_except_ok {A} (body : M A) (handler : exn -> M A) (t : trace) :
  (forall e t0, exists t1 a, handler e t0 = (t1, Ok a)) ->
  exists t1 a, try_except body handler t = (t1, Ok a).
Proof.
  intros Hh. unfold try_except.
  destruct (body t) as [t0 [a | e]].
  - exists t0, a. reflexivity.
  - apply Hh.
Qed.

(** A handler that ends in [return <text>]. *)
Ltac handler_returns := intros; do 2 eexists; reflexivity.

(** ** The fallbacks and the tools always return a text *)

Lemma fallback_returns (w : World) (r : Adapter.request) (t : trace) :
  exists t1 text, Adapter.fallback w r t = (t1, Ok text).
Proof.
  destruct r; cbn [Adapter.fallback];
    apply try_except_ok; handler_returns.
Qed.

Lemma invoke_returns (w : World) (r : Adapter.request) (t : trace) :
  exists t1 text, Adapter.invoke w r t = (t1, Ok text).
Proof.
  destruct r; cbn [Adapter.invoke];
    apply try_except_ok; intros e t0; destruct (rate_limited e).
  all: try (do 2 eexists; reflexivity).
  - apply (fallback_returns w (Adapter.Price symbol)).
  - apply (fallback_returns w (Adapter.Info symbol)).
  - apply (fallback_returns w (Adapter.History symbol period)).
  - apply (fallback_returns w (Adapter.Average symbol days)).
  - apply (fallback_returns w (Adapter.Crypto symbol)).
Qed.

Lemma web_search_returns (w : World) (query : string) (t : trace) :
  exists t1 text, web_search w query t = (t1, Ok text).
Proof. apply try_except_ok; handler_returns. Qed.

Lemma mathematical_calculation_returns (w : World) (expression : string) (t : trace) :
  exists t1 text, mathematical_calculation w expression t = (t1, Ok text).
Proof. apply try_except_ok; handler_returns. Qed.

(** ** The classifier answers with a name of the registry *)

Lemma decide_tool_names (message : string) (tn : string) :
  _decide_tool message = Some tn -> In tn Rules.tool_names.
Proof.
  unfold _decide_tool, Rules.tool_names.
  repeat match goal with
         | |- context [if ?c then _ else _] => destruct c
         end;
    intros H; inversion H; subst; simpl; tauto.
Qed.

(** ** What the body of [chat] can do *)

Lemma ask_llm_outcome (w : World) (message : string) (t : trace) :
  (exists r, llm_invoke w message = Ok r /\
             ask_llm w message t =
               ((t ++ [Invoke message])%list,
                Ok (match content r with Some text => text | None => reply_str r end)))
  \/
  (exists e, llm_invoke w message = Raise e /\
             ask_llm w message t = ((t ++ [Invoke message])%list, Raise e)).
Proof.
  unfold ask_llm, bind, call, ret.
  destruct (llm_invoke w message) as [r | e].
  - left. exists r. split; reflexivity.
  - right. exists e. split; reflexivity.
Qed.

(** Looking a name of the registry up, and the branch [chat] takes on it. *)
Ltac run_dispatch :=
  cbn -[get_stock_price get_stock_info get_historical_data calculate_average_price
        get_crypto_price web_search mathematical_calculation
        _extract_symbol_robust extract_expression chat_math_patterns ask_llm
        symbol_prompt_any symbol_prompt_stock expression_prompt].

Lemma chat_body_outcome (w : World) (message : string) (t : trace) :
  (exists t1 text, chat_body w message t = (t1, Ok text))
  \/
  (exists e, llm_invoke w message = Raise e /\
             chat_body w message t = ((t ++ [Invoke message])%list, Raise e)).
Proof.
  assert (Hllm :
    (exists t1 text, ask_llm w message t = (t1, Ok text))
    \/ (exists e, llm_invoke w message = Raise e /\
                  ask_llm w message t = ((t ++ [Invoke message])%list, Raise e))).
  { destruct (ask_llm_outcome w message t) as [[r [_ H]] | H].
    - left. eauto.
    - right. exact H. }
  unfold chat_body.
  destruct (_decide_tool message) as [tn |] eqn:Hd; [| exact Hllm].
  apply decide_tool_names in Hd. unfold Rules.tool_names in Hd. simpl in Hd.
  left.
  destruct Hd as [<- | [<- | [<- | [<- | [<- | [<- | [<- | []]]]]]]]; run_dispatch.
  - destruct (_extract_symbol_robust message) as [s |]; [| handler_returns].
    destruct (truthy (Some s)); [| handler_returns].
    apply (invoke_returns w (Adapter.Price s)).
  - destruct (_extract_symbol_robust message) as [s |]; [| handler_returns].
    destruct (truthy (Some s)); [| handler_returns].
    apply (invoke_returns w (Adapter.Info s)).
  - destruct (_extract_symbol_robust message) as [s |]; [| handler_returns].
    destruct (truthy (Some s)); [| handler_returns].
    apply (invoke_returns w (Adapter.History s "1mo")).
  - destruct (_extract_symbol_robust message) as [s |]; [| handler_returns].
    destruct (truthy (Some s)); [| handler_returns].
    apply (invoke_returns w (Adapter.Average s 7%Z)).
  - destruct (_extract_symbol_robust message) as [s |]; [| handler_returns].
    destruct (truthy (Some s)); [| handler_returns].
    apply (invoke_returns w (Adapter.Crypto s)).
  - apply web_search_returns.
  - destruct (extract_expression chat_math_patterns message) as [e |]; [| handler_returns].
    destruct (truthy (Some e)); [| handler_returns].
    apply mathematical_calculation_returns.
Qed.

(** C1.  [chat] returns a text for every message, in every world and after
    any calls made before: it never raises.  Either the body of its [try]
    returned that text (a tool's result, a prompt, or the completion), or
    the body raised, which only the completion call can make it do, and the
    text is ["Error processing your request: "] followed by the text of the
    exception. *)
Theorem chat_never_raises (w : World) (message : string) (t : trace) :
  exists t1 text,
    chat w message t = (t1, Ok text) /\
    (chat_body w message t = (t1, Ok text)
     \/ exists e, chat_body w message t = (t1, Raise e) /\
                  llm_invoke w message = Raise e /\
                  text = "Error processing your request: " ++ str e).
Proof.
  unfold chat, try_except.
  destruct (chat_body_outcome w message t) as [[t1 [text H]] | [e [Hl H]]]; rewrite H.
  - exists t1, text. split; [reflexivity | left; reflexivity].
  - eexists _, _. split; [reflexivity |].
    right. exists e. repeat split. exact Hl.
Qed.

Example chat_outcomes :
  chat Worlds.throttled "How are you?" [] = ([Invoke "How are you?"], Ok "Hello!") /\
  chat Worlds.silent "How are you?" []
    = ([Invoke "How are you?"], Ok "Error processing your request: Connection error.") /\
  chat Worlds.silent "search the news" []
    = ([Search "search the news"], Ok "No search results found") /\
  chat Worlds.silent "What is 2 + 2?" []
    = ([Eval "2 + 2"], Ok "Error in calculation: unsupported expression").
Proof. vm_compute. repeat split. Qed.

(** ** The fallback reads nothing of Yahoo Finance *)

Section SameSource.

Variables w1 w2 : World.
Hypothesis same : Adapter.same_fallback_source w1 w2.

Lemma json_str_same : json_str w1 = json_str w2.
Proof.
  destruct same as (_ & _ & _ & Hr & _).
  unfold json_str. now rewrite Hr.
Qed.

Lemma close_of_same : close_of w1 = close_of w2.
Proof.
  destruct same as (_ & _ & Hf & _ & _).
  unfold close_of, json_float. now rewrite Hf.
Qed.

Lemma closes_of_same : closes_of w1 = closes_of w2.
Proof. unfold closes_of. now rewrite close_of_same. Qed.

Lemma fallback_same (r : Adapter.request) :
  Adapter.fallback w1 r = Adapter.fallback w2 r.
Proof.
  pose proof json_str_same as Hjs.
  pose proof close_of_same as Hc.
  pose proof closes_of_same as Hcs.
  destruct same as (He & Hh & _ & _ & Hs).
  destruct r; cbn [Adapter.fallback].
  - unfold _get_stock_price_alpha_vantage, _load_env_file, fetch.
    now rewrite He, Hh, Hjs.
  - unfold _get_stock_info_alpha_vantage, _load_env_file, fetch.
    now rewrite He, Hh, Hjs.
  - unfold _get_historical_data_alpha_vantage, _load_env_file, fetch.
    now rewrite He, Hh, Hc.
  - unfold _calculate_average_price_alpha_vantage, _load_env_file, fetch.
    now rewrite He, Hh, Hs, Hcs.
  - unfold _get_crypto_price_alpha_vantage, _load_env_file, fetch.
    now rewrite He, Hh, Hjs.
Qed.

End SameSource.

(** ** A rate-limited primary *)

Lemma primary_rate_limited (w : World) (r : Adapter.request) (t : trace) (e : exn) :
  Adapter.primary_failure w r = Some e ->
  rate_limited e = true ->
  Adapter.invoke w r t = Adapter.fallback w r (t ++ Adapter.primary_calls r)%list.
Proof.
  intros Hf Hr.
  destruct r; cbn [Adapter.invoke Adapter.fallback Adapter.primary_calls Adapter.primary_failure] in *.
  - unfold get_stock_price, try_except at 1, bind, call.
    destruct (ticker_info w (Text.upper symbol)); [discriminate |].
    injection Hf as ->. rewrite Hr, <- app_assoc. reflexivity.
  - unfold get_stock_info, try_except at 1, bind, call.
    destruct (ticker_info w (Text.upper symbol)); [discriminate |].
    injection Hf as ->. rewrite Hr, <- app_assoc. reflexivity.
  - unfold get_historical_data, try_except at 1, bind, call.
    destruct (ticker_history w (Text.upper symbol) period); [discriminate |].
    injection Hf as ->. rewrite Hr, <- app_assoc. reflexivity.
  - unfold calculate_average_price, try_except at 1, bind, call.
    destruct (ticker_history w (Text.upper symbol) (Text.str_of_Z days ++ "d")); [discriminate |].
    injection Hf as ->. rewrite Hr, <- app_assoc. reflexivity.
  - unfold get_crypto_price, try_except at 1, bind, call.
    destruct (ticker_info w (Text.upper symbol ++ "-USD")); [discriminate |].
    injection Hf as ->. rewrite Hr, <- app_assoc. reflexivity.
Qed.

(** C2.  When Yahoo Finance answers an invocation of a capability with an
    exception whose text holds ["429"] or ["Too Many Requests"], the tool
    returns what the Alpha Vantage fallback returns after the same calls: a
    text (its result, or its own account of what went wrong), never an
    exception.  That text is the same in every world with the same fallback
    source, whatever Yahoo Finance said there: nothing of the rate-limit
    error reaches the caller. *)
Theorem rate_limit_falls_back
        (w : World) (r : Adapter.request) (t : trace) (e : exn) :
  Adapter.primary_failure w r = Some e ->
  rate_limited e = true ->
  exists t1 text,
    Adapter.invoke w r t = (t1, Ok text) /\
    Adapter.fallback w r (t ++ Adapter.primary_calls r)%list = (t1, Ok text) /\
    forall w', Adapter.same_fallback_source w w' ->
               Adapter.fallback w' r (t ++ Adapter.primary_calls r)%list = (t1, Ok text).
Proof.
  intros Hf Hr.
  destruct (fallback_returns w r (t ++ Adapter.primary_calls r)%list) as [t1 [text H]].
  exists t1, text. split; [| split].
  - rewrite (primary_rate_limited w r t e Hf Hr). exact H.
  - exact H.
  - intros w' Hs. rewrite <- (fallback_same w w' Hs). exact H.
Qed.

Lemma rate_limit_falls_back_witness :
  Adapter.primary_failure Worlds.throttled (Adapter.Price "aapl")
    = Some (Exn "429 Client Error: Too Many Requests for url") /\
  rate_limited (Exn "429 Client Error: Too Many Requests for url") = true /\
  exists t1 text,
    Adapter.invoke Worlds.throttled (Adapter.Price "aapl") [] = (t1, Ok text) /\
    Adapter.fallback Worlds.throttled (Adapter.Price "aapl")
                     ([] ++ Adapter.primary_calls (Adapter.Price "aapl"))%list = (t1, Ok text) /\
    forall w', Adapter.same_fallback_source Worlds.throttled w' ->
               Adapter.fallback w' (Adapter.Price "aapl")
                                ([] ++ Adapter.primary_calls (Adapter.Price "aapl"))%list
               = (t1, Ok text).
Proof.
  split; [reflexivity | split; [reflexivity |]].
  apply (rate_limit_falls_back Worlds.throttled (Adapter.Price "aapl") []
           (Exn "429 Client Error: Too Many Requests for url")); reflexivity.
Defined.

Example throttled_price :
  Adapter.invoke Worlds.throttled (Adapter.Price "aapl") []
  = ([Sleep 2; TickerInfo "AAPL"; EnvFile],
     Ok "Alpha Vantage API key not configured for aapl").
Proof. reflexivity. Qed.

(** ** The classifier *)

(** C3.  A message that matches one of the four arithmetic shapes
    (digits, an operator, digits; ["N % of M"]; [sqrt(]; [sin(], [cos(] or
    [tan(]), as it is written or lower-cased, is classified as
    [mathematical_calculation], whatever else it holds, and so never as
    [get_stock_price]. *)
Theorem arithmetic_shape_is_calculation (message : string) :
  any_search decide_math_patterns message = true
  \/ any_search decide_math_patterns (Text.lower message) = true ->
  _decide_tool message = Some "mathematical_calculation" /\
  _decide_tool message <> Some "get_stock_price".
Proof.
  intros H.
  assert (Hl : any_search decide_math_patterns (Text.lower message) = true).
  { destruct H as [H | H]; [apply arithmetic_shape_of_message | ]; exact H. }
  unfold _decide_tool. rewrite Hl.
  split; [reflexivity | discriminate].
Qed.

Lemma arithmetic_shape_is_calculation_witness :
  (any_search decide_math_patterns
     "Search the news: what is the price of 2 + 2 Apple shares last week" = true
   \/ any_search decide_math_patterns
        (Text.lower "Search the news: what is the price of 2 + 2 Apple shares last week")
      = true) /\
  _decide_tool "Search the news: what is the price of 2 + 2 Apple shares last week"
    = Some "mathematical_calculation" /\
  _decide_tool "Search the news: what is the price of 2 + 2 Apple shares last week"
    <> Some "get_stock_price".
Proof.
  split; [left; vm_compute; reflexivity |].
  apply (arithmetic_shape_is_calculation
           "Search the news: what is the price of 2 + 2 Apple shares last week").
  left. vm_compute. reflexivity.
Defined.

Example arithmetic_shapes :
  Rules.arithmetic_shape "2+2" = true /\
  Rules.arithmetic_shape "SQRT(16)" = true /\
  Rules.arithmetic_shape "15% of 250" = true /\
  Rules.arithmetic_shape "price of cos (0)" = true /\
  Rules.arithmetic_shape "What is the day" = false.
Proof. vm_compute. repeat split. Qed.

(** C4.  On ["What's 15% of 250?"] the classifier answers
    [mathematical_calculation] and the expression found is ["15% of 250"];
    [eval] is called on that text, which is not an expression, and [chat]
    returns the text of the syntax error.  The number 37.5 is not in it. *)
Theorem percent_of_is_not_evaluated (w : World) (t : trace) :
  _decide_tool "What's 15% of 250?" = Some "mathematical_calculation" /\
  extract_expression chat_math_patterns "What's 15% of 250?" = Some "15% of 250" /\
  chat w "What's 15% of 250?" t
    = ((t ++ [Eval "15% of 250"])%list,
       Ok "Error in calculation: invalid syntax (<string>, line 1)") /\
  Text.contains "37.5" "Error in calculation: invalid syntax (<string>, line 1)" = false.
Proof.
  split; [vm_compute; reflexivity |].
  split; [vm_compute; reflexivity |].
  split; [| vm_compute; reflexivity].
  unfold chat, chat_body.
  replace (_decide_tool "What's 15% of 250?")
    with (Some "mathematical_calculation") by (vm_compute; reflexivity).
  run_dispatch.
  replace (extract_expression chat_math_patterns "What's 15% of 250?")
    with (Some "15% of 250") by (vm_compute; reflexivity).
  reflexivity.
Qed.

(** ** The resolver *)

Lemma first_key_none (mapping : list (string * string)) (text : string) :
  first_key mapping text = None <-> Rules.no_key_in mapping text = true.
Proof.
  unfold Rules.no_key_in.
  induction mapping as [| [key symbol] rest IH]; simpl.
  - tauto.
  - destruct (Text.contains key text); simpl.
    + split; discriminate.
    + exact IH.
Qed.

Lemma first_symbol_none (symbols : list string) :
  forallb (fun token => member token exclude_words) symbols = true ->
  first_symbol symbols = None.
Proof.
  induction symbols as [| symbol rest IH]; cbn [first_symbol forallb]; [reflexivity |].
  intros H. apply andb_prop in H. destruct H as [-> H].
  cbn [negb andb]. exact (IH H).
Qed.

(** C5, the claim at its own example: the token [WHAT] of ["What is the
    day"] is not on the stoplist, and the resolver returns it. *)
Lemma what_is_the_day_resolves :
  _extract_symbol_robust "What is the day" = Some "WHAT".
Proof. vm_compute. reflexivity. Qed.

(** C5, amended.  When no key of the dictionary occurs in the upper-cased
    message and every token of three to five capital letters found in it is
    on the stoplist, the resolver returns none. *)
Theorem stoplist_property (message : string) :
  Rules.no_key_in stock_mapping (Text.upper message) = true ->
  Rules.all_tokens_excluded (Text.upper message) = true ->
  _extract_symbol_robust message = None.
Proof.
  intros Hk Ht. unfold _extract_symbol_robust.
  apply first_key_none in Hk. rewrite Hk.
  apply first_symbol_none. exact Ht.
Qed.

Lemma stoplist_property_witness :
  Rules.no_key_in stock_mapping (Text.upper "How was the day") = true /\
  Rules.all_tokens_excluded (Text.upper "How was the day") = true /\
  _extract_symbol_robust "How was the day" = None.
Proof.
  split; [vm_compute; reflexivity |].
  split; [vm_compute; reflexivity |].
  apply (stoplist_property "How was the day"); vm_compute; reflexivity.
Defined.

Lemma first_symbol_none_inv (symbols : list string) :
  first_symbol symbols = None ->
  forall token, In token symbols ->
                member token exclude_words = true \/ String.length token < 3.
Proof.
  induction symbols as [| symbol rest IH]; cbn [first_symbol In]; [tauto |].
  destruct (member symbol exclude_words) eqn:Hm; cbn [negb andb].
  - intros H token [<- | Hin]; [left; exact Hm | exact (IH H token Hin)].
  - destruct (3 <=? String.length symbol) eqn:Hl; [discriminate |].
    intros H token [<- | Hin]; [| exact (IH H token Hin)].
    right. apply Nat.leb_gt in Hl. exact Hl.
Qed.

(** The converse of the stoplist property: the resolver returns none only
    then. *)
Lemma resolver_none_inv (message : string) :
  _extract_symbol_robust message = None ->
  Rules.no_key_in stock_mapping (Text.upper message) = true /\
  forall token, In token (Re.findall symbol_pattern (Text.upper message)) ->
                member token exclude_words = true \/ String.length token < 3.
Proof.
  unfold _extract_symbol_robust.
  destruct (first_key stock_mapping (Text.upper message)) eqn:Hk; [discriminate |].
  intros H. split.
  - apply first_key_none. exact Hk.
  - apply first_symbol_none_inv. exact H.
Qed.

Lemma first_key_first (mapping : list (string * string)) (text : string)
      (i : nat) (key symbol : string) :
  nth_error mapping i = Some (key, symbol) ->
  Text.contains key text = true ->
  Rules.no_key_in (firstn i mapping) text = true ->
  first_key mapping text = Some symbol.
Proof.
  revert i. unfold Rules.no_key_in.
  induction mapping as [| [k s] rest IH]; intros [| i]; simpl; try discriminate.
  - intros H Hc _. injection H as -> ->. now rewrite Hc.
  - intros H Hc Hn. apply andb_prop in Hn. destruct Hn as [Hk Hn].
    apply negb_true_iff in Hk. rewrite Hk. exact (IH i H Hc Hn).
Qed.

(** C10.  The dictionary is matched by raw substring on the upper-cased
    message, in the order it is written, before any token is looked for: if
    the key at position [i] occurs in the upper-cased message (anywhere,
    also inside a longer word) and none of the keys before it does, the
    resolver returns the ticker of that key. *)
Theorem dictionary_first_key_wins (message : string) (i : nat) (key symbol : string) :
  nth_error stock_mapping i = Some (key, symbol) ->
  Text.contains key (Text.upper message) = true ->
  Rules.no_key_in (firstn i stock_mapping) (Text.upper message) = true ->
  _extract_symbol_robust message = Some symbol.
Proof.
  intros Hi Hc Hn. unfold _extract_symbol_robust.
  now rewrite (first_key_first stock_mapping (Text.upper message) i key symbol Hi Hc Hn).
Qed.

Lemma dictionary_first_key_wins_witness :
  nth_error stock_mapping 19 = Some ("ETH", "ETH") /\
  Text.contains "ETH" (Text.upper "Let's work together") = true /\
  Rules.no_key_in (firstn 19 stock_mapping) (Text.upper "Let's work together") = true /\
  _extract_symbol_robust "Let's work together" = Some "ETH".
Proof.
  split; [reflexivity |].
  split; [vm_compute; reflexivity |].
  split; [vm_compute; reflexivity |].
  apply (dictionary_first_key_wins "Let's work together" 19 "ETH" "ETH");
    vm_compute; reflexivity.
Defined.

Example dictionary_order :
  map fst stock_mapping
  = ["APPLE"; "AAPL"; "TESLA"; "TSLA"; "MICROSOFT"; "MSFT"; "GOOGLE"; "GOOGL";
     "AMAZON"; "AMZN"; "META"; "FACEBOOK"; "NETFLIX"; "NFLX"; "NVIDIA"; "NVDA";
     "BITCOIN"; "BTC"; "ETHEREUM"; "ETH"] /\
  _extract_symbol_robust "Tesla or Apple?" = Some "AAPL" /\
  _extract_symbol_robust "together" = Some "ETH" /\
  _extract_symbol_robust "metadata of THE DAY" = Some "META".
Proof. vm_compute. repeat split. Qed.

(** ** No rule, no symbol *)

Lemma no_rule_stages (message : string) :
  Rules.matches_a_rule message = false ->
  Rules.arithmetic_shape message = false /\ Rules.operator_present message = false /\
  Rules.price_keyword message = false /\ Rules.info_keyword message = false /\
  Rules.historical_keyword message = false /\ Rules.average_keyword message = false /\
  Rules.search_keyword message = false.
Proof.
  unfold Rules.matches_a_rule. intros H.
  repeat match type of H with
         | (_ || _) = false => apply orb_false_elim in H; destruct H as [H ?]
         end.
  repeat split; assumption.
Qed.

(** C6, the claim at its own example: ["Tell me a joke"] matches no rule
    of stages 1 to 7, but the resolver takes [TELL] for a symbol, so the
    classifier answers [get_stock_price] and the completion provider is not
    asked. *)
Lemma tell_me_a_joke_is_a_price_query :
  Rules.matches_a_rule "Tell me a joke" = false /\
  _extract_symbol_robust "Tell me a joke" = Some "TELL" /\
  _decide_tool "Tell me a joke" = Some "get_stock_price" /\
  _decide_tool "Tell me a joke" <> None /\
  chat Worlds.throttled "Tell me a joke" []
    = ([Sleep 2; TickerInfo "TELL"; EnvFile],
       Ok "Alpha Vantage API key not configured for TELL").
Proof. vm_compute. repeat split. discriminate. Qed.

(** C6, amended.  When no rule of stages 1 to 7 matches a message and the
    resolver finds no symbol in it, the classifier returns none; [chat]
    then makes one call, to the completion provider with the message as it
    is, and returns the text of the reply unchanged. *)
Theorem no_rule_no_symbol_goes_to_completion
        (w : World) (message : string) (t : trace) (r : reply) :
  Rules.matches_a_rule message = false ->
  _extract_symbol_robust message = None ->
  llm_invoke w message = Ok r ->
  _decide_tool message = None /\
  chat w message t
    = ((t ++ [Invoke message])%list,
       Ok (match content r with Some text => text | None => reply_str r end)).
Proof.
  intros Hr Hs Hl.
  apply no_rule_stages in Hr.
  destruct Hr as (H1 & H2 & H3 & H4 & H5 & H6 & H7).
  unfold Rules.arithmetic_shape, Rules.operator_present, Rules.price_keyword,
    Rules.info_keyword, Rules.historical_keyword, Rules.average_keyword,
    Rules.search_keyword in *.
  assert (Hd : _decide_tool message = None).
  { unfold _decide_tool. rewrite H1, H2, H3, H4, H5, H6, H7, Hs. reflexivity. }
  split; [exact Hd |].
  unfold chat, chat_body, try_except. rewrite Hd.
  unfold ask_llm, bind, call, ret. rewrite Hl. reflexivity.
Qed.

Lemma no_rule_no_symbol_goes_to_completion_witness :
  Rules.matches_a_rule "How are you?" = false /\
  _extract_symbol_robust "How are you?" = None /\
  llm_invoke Worlds.throttled "How are you?" = Ok (Reply (Some "Hello!") "content='Hello!'") /\
  _decide_tool "How are you?" = None /\
  chat Worlds.throttled "How are you?" [] = ([Invoke "How are you?"], Ok "Hello!").
Proof.
  split; [vm_compute; reflexivity |].
  split; [vm_compute; reflexivity |].
  split; [reflexivity |].
  apply (no_rule_no_symbol_goes_to_completion Worlds.throttled "How are you?" []
           (Reply (Some "Hello!") "content='Hello!'")); vm_compute; reflexivity.
Defined.

(** ** The detailed-info stage *)

(** C7, the claim at the keyword ["52-week"]: the message below matches no
    arithmetic shape and holds no price word, and with the keyword taken
    out it holds no operator; the hyphen of the keyword is an operator of
    stage 2, and the classifier answers [mathematical_calculation]. *)
Lemma hyphenated_52_week_is_calculation :
  Text.contains "52-week" (Text.lower "Apple 52-week range") = true /\
  Rules.arithmetic_shape "Apple 52-week range" = false /\
  Rules.operator_present "Apple  range" = false /\
  Rules.mentions_price "Apple 52-week range" = false /\
  Rules.mentions_info "Apple 52-week range" = true /\
  _decide_tool "Apple 52-week range" = Some "mathematical_calculation" /\
  _decide_tool "Apple 52-week range" <> Some "get_stock_info".
Proof. vm_compute. repeat split. discriminate. Qed.

(** C7, amended.  A message whose lower-cased text holds a detailed-info
    word (info, market cap, volume, capitalization, ...) or ["52"] and
    later on the same line ["week"], that matches no arithmetic shape,
    holds none of the operators and function names of stage 2 anywhere,
    and holds no price word, is classified as [get_stock_info]. *)
Theorem info_keyword_is_info (message : string) :
  Rules.arithmetic_shape message = false ->
  Rules.operator_present message = false ->
  Rules.mentions_price message = false ->
  Rules.mentions_info message = true ->
  _decide_tool message = Some "get_stock_info".
Proof.
  rewrite <- price_keyword_spec, <- info_keyword_spec.
  unfold Rules.arithmetic_shape, Rules.operator_present, Rules.price_keyword,
    Rules.info_keyword, _decide_tool.
  intros -> -> -> ->. reflexivity.
Qed.

Lemma info_keyword_is_info_witness :
  Rules.arithmetic_shape "Apple 52 week range" = false /\
  Rules.operator_present "Apple 52 week range" = false /\
  Rules.mentions_price "Apple 52 week range" = false /\
  Rules.mentions_info "Apple 52 week range" = true /\
  _decide_tool "Apple 52 week range" = Some "get_stock_info".
Proof.
  repeat (split; [vm_compute; reflexivity |]).
  apply (info_keyword_is_info "Apple 52 week range"); vm_compute; reflexivity.
Defined.

Example info_keywords :
  _decide_tool "Tesla info" = Some "get_stock_info" /\
  _decide_tool "market cap of Microsoft" = Some "get_stock_info" /\
  _decide_tool "Volume for NVDA" = Some "get_stock_info" /\
  _decide_tool "Amazon capitalization" = Some "get_stock_info".
Proof. vm_compute. repeat split. Qed.

(** ** A symbol capability without a symbol *)

(** C8.  When the classifier answers with one of the five capabilities that
    take a symbol and the resolver finds no symbol in the message, [chat]
    returns the fixed prompt of that capability (the one that also names
    cryptocurrencies for the price, info and crypto capabilities, the one
    for stocks for history and average) and the trace is as it was: no
    call was made. *)
Theorem missing_symbol_prompt
        (w : World) (message : string) (tool_name : string) (t : trace) :
  _decide_tool message = Some tool_name ->
  member tool_name Rules.symbol_tools = true ->
  _extract_symbol_robust message = None ->
  chat w message t = (t, Ok (Rules.symbol_prompt tool_name)).
Proof.
  intros Hd Hm Hs.
  unfold chat, chat_body, try_except. rewrite Hd, Hs.
  pose proof (decide_tool_names message tool_name Hd) as Hn.
  unfold Rules.tool_names in Hn. simpl in Hn.
  unfold Rules.symbol_prompt.
  destruct Hn as [<- | [<- | [<- | [<- | [<- | [<- | [<- | []]]]]]]];
    try (vm_compute in Hm; discriminate Hm);
    run_dispatch; reflexivity.
Qed.

Lemma missing_symbol_prompt_witness :
  _decide_tool "prices" = Some "get_stock_price" /\
  member "get_stock_price" Rules.symbol_tools = true /\
  _extract_symbol_robust "prices" = None /\
  chat Worlds.throttled "prices" [] = ([], Ok (Rules.symbol_prompt "get_stock_price")).
Proof.
  split; [vm_compute; reflexivity |].
  split; [reflexivity |].
  split; [vm_compute; reflexivity |].
  apply (missing_symbol_prompt Worlds.throttled "prices" "get_stock_price" []);
    vm_compute; reflexivity.
Defined.

Example missing_symbol_prompts :
  chat Worlds.throttled "prices" [] = ([], Ok symbol_prompt_any) /\
  chat Worlds.throttled "the trends" [] = ([], Ok symbol_prompt_stock) /\
  Text.startswith "Por favor especifica el s" symbol_prompt_any = true /\
  Text.startswith "Por favor especifica el s" symbol_prompt_stock = true.
Proof. vm_compute. repeat split. Qed.

(** ** The history report *)

Lemma sub_self_finite (s : bool) (m : positive) (e : Z) :
  Float64.sub (S754_finite s m e) (S754_finite s m e) = S754_zero false.
Proof.
  unfold Float64.sub, SFsub. rewrite Z.sub_diag. reflexivity.
Qed.

Lemma change_percent_self_finite (s : bool) (m : positive) (e : Z) :
  change_percent (S754_finite s m e) (S754_finite s m e) = S754_zero s.
Proof.
  unfold change_percent. rewrite sub_self_finite.
  destruct s; reflexivity.
Qed.

Lemma nth_last {A} (l : list A) (d : A) :
  nth (List.length l - 1) l d = last l d.
Proof.
  induction l as [| x l IH]; [reflexivity |].
  destruct l as [| y l]; [reflexivity |].
  change (nth (List.length (y :: l)) (x :: y :: l) d = last (y :: l) d).
  rewrite <- IH. simpl. rewrite Nat.sub_0_r. reflexivity.
Qed.

Lemma iloc_last (hist : list Float64.float) (d : Float64.float) :
  0 < List.length hist ->
  iloc hist (-1) = Ok (last hist d).
Proof.
  intros Hlen. unfold iloc.
  replace (-1 <? 0)%Z with true by reflexivity.
  destruct (Z.of_nat (List.length hist) + -1 <? 0)%Z eqn:Hneg; [apply Z.ltb_lt in Hneg; lia |].
  replace (Z.to_nat (Z.of_nat (List.length hist) + -1)) with (List.length hist - 1) by lia.
  rewrite (nth_error_nth' hist d) by lia.
  now rewrite nth_last.
Qed.

Lemma iloc_before_last (hist : list Float64.float) (d : Float64.float) :
  1 < List.length hist ->
  iloc hist (-2) = Ok (nth (List.length hist - 2) hist d).
Proof.
  intros Hlen. unfold iloc.
  replace (-2 <? 0)%Z with true by reflexivity.
  destruct (Z.of_nat (List.length hist) + -2 <? 0)%Z eqn:Hneg; [apply Z.ltb_lt in Hneg; lia |].
  replace (Z.to_nat (Z.of_nat (List.length hist) + -2)) with (List.length hist - 2) by lia.
  rewrite (nth_error_nth' hist d) by lia. reflexivity.
Qed.

(** The rounding of [fmt2] is to the nearest hundredth. *)
Lemma round_half_even_nearest (num den : Z) :
  (0 < den)%Z ->
  (Z.abs (2 * (Float64.round_half_even num den * den - num)) <= den)%Z.
Proof.
  intros Hden. unfold Float64.round_half_even.
  pose proof (Z.div_mod num den ltac:(lia)) as Hdm.
  pose proof (Z.mod_pos_bound num den Hden) as Hb.
  set (q := (num / den)%Z) in *. set (r := (num mod den)%Z) in *.
  destruct (2 * r ?= den)%Z eqn:Hc.
  - apply Z.compare_eq in Hc. destruct (Z.even q); nia.
  - rewrite Z.compare_lt_iff in Hc. nia.
  - rewrite Z.compare_gt_iff in Hc. nia.
Qed.

(** C9, the claim at a history of one row whose close is missing: the
    report reads [nan%], not [0.00%]. *)
Lemma single_missing_close_reports_nan :
  get_historical_data (Worlds.with_history [S754_nan]) "aapl" "1mo" []
  = ([Sleep 2; TickerHistory "AAPL" "1mo"],
     Ok ("Historical data for AAPL (1mo):" ++ Text.nl
         ++ "Latest Close: $nan" ++ Text.nl
         ++ "Previous Close: $nan" ++ Text.nl
         ++ "Change: nan%" ++ Text.nl)) /\
  Text.contains "0.00%"
    ("Historical data for AAPL (1mo):" ++ Text.nl
     ++ "Latest Close: $nan" ++ Text.nl
     ++ "Previous Close: $nan" ++ Text.nl
     ++ "Change: nan%" ++ Text.nl) = false.
Proof. vm_compute. split; reflexivity. Qed.

(** C9, amended.  For a history that is not empty the tool returns the
    report whose change is [(latest - previous) / previous * 100], computed
    in binary64 and printed with two decimals, where [latest] is the last
    close and [previous] the one before it.  With one row [previous] is
    [latest], and the change printed is [0.00] when that close is a finite
    positive number. *)
Theorem history_report_change
        (w : World) (symbol period : string) (t : trace) (hist : list Float64.float) :
  ticker_history w (Text.upper symbol) period = Ok hist ->
  hist <> [] ->
  let latest := Rules.latest_close hist in
  let previous := Rules.previous_close hist in
  get_historical_data w symbol period t
  = ((t ++ [Sleep 2; TickerHistory (Text.upper symbol) period])%list,
     Ok ("Historical data for " ++ Text.upper symbol ++ " (" ++ period ++ "):" ++ Text.nl
         ++ "Latest Close: $" ++ Float64.fmt2 latest ++ Text.nl
         ++ "Previous Close: $" ++ Float64.fmt2 previous ++ Text.nl
         ++ "Change: "
         ++ Float64.fmt2
              (Float64.mul (Float64.div (Float64.sub latest previous) previous)
                           (Float64.of_Z 100))
         ++ "%" ++ Text.nl))
  /\ (List.length hist = 1 -> previous = latest)
  /\ (forall m e, hist = [S754_finite false m e] ->
        Float64.fmt2
          (Float64.mul (Float64.div (Float64.sub latest previous) previous)
                       (Float64.of_Z 100)) = "0.00").
Proof.
  intros Hw Hne latest previous.
  assert (Hlen : 0 < List.length hist) by (destruct hist; [congruence | simpl; lia]).
  split; [| split].
  - unfold get_historical_data, try_except, bind, call, lift, ret.
    rewrite Hw. destruct hist as [| first rest]; [congruence |].
    rewrite (iloc_last (first :: rest) S754_nan Hlen).
    rewrite <- app_assoc. cbn [app].
    destruct (1 <? List.length (first :: rest)) eqn:H1.
    + apply Nat.ltb_lt in H1.
      rewrite (iloc_before_last (first :: rest) S754_nan H1).
      subst latest previous. unfold Rules.previous_close, Rules.latest_close.
      replace (List.length (first :: rest) <=? 1) with false
        by (symmetry; apply Nat.leb_gt; exact H1).
      reflexivity.
    + apply Nat.ltb_ge in H1.
      subst latest previous. unfold Rules.previous_close, Rules.latest_close.
      replace (List.length (first :: rest) <=? 1) with true
        by (symmetry; apply Nat.leb_le; exact H1).
      reflexivity.
  - intros H. subst previous. unfold Rules.previous_close. now rewrite H.
  - intros m e ->. subst latest previous.
    change (Float64.fmt2 (change_percent (S754_finite false m e) (S754_finite false m e))
            = "0.00").
    now rewrite change_percent_self_finite.
Qed.

Lemma history_report_change_witness :
  ticker_history (Worlds.with_history [Worlds.close_187_5]) (Text.upper "aapl") "1mo"
    = Ok [Worlds.close_187_5] /\
  [Worlds.close_187_5] <> [] /\
  get_historical_data (Worlds.with_history [Worlds.close_187_5]) "aapl" "1mo" []
  = ([Sleep 2; TickerHistory "AAPL" "1mo"],
     Ok ("Historical data for AAPL (1mo):" ++ Text.nl
         ++ "Latest Close: $187.50" ++ Text.nl
         ++ "Previous Close: $187.50" ++ Text.nl
         ++ "Change: 0.00%" ++ Text.nl)).
Proof.
  split; [reflexivity |].
  split; [discriminate |].
  exact (proj1 (history_report_change (Worlds.with_history [Worlds.close_187_5])
                  "aapl" "1mo" [] [Worlds.close_187_5] eq_refl
                  ltac:(discriminate))).
Defined.

Example history_reports :
  get_historical_data
    (Worlds.with_history [Float64.of_Z 100; Float64.of_Z 200; Worlds.close_187_5])
    "tsla" "5d" []
  = ([Sleep 2; TickerHistory "TSLA" "5d"],
     Ok ("Historical data for TSLA (5d):" ++ Text.nl
         ++ "Latest Close: $187.50" ++ Text.nl
         ++ "Previous Close: $200.00" ++ Text.nl
         ++ "Change: -6.25%" ++ Text.nl)) /\
  Float64.fmt2 (change_percent (S754_zero false) (S754_zero false)) = "nan" /\
  Float64.fmt2 (change_percent (Float64.of_Z (-5)) (Float64.of_Z (-5))) = "-0.00".
Proof. vm_compute. repeat split. Qed.

(* ===================================================================== *)
(** * Further properties *)
(* ===================================================================== *)

(** ** Counting calls *)

Section Makes.

Context {A : Type}.
Variable allowed : event -> bool.

Lemma makes_ret (a : A) (n : nat) : Calls.makes (ret a) n allowed.
Proof. intros t. exists []. cbn. rewrite app_nil_r. repeat split. lia. Qed.

Lemma makes_raise (e : exn) (n : nat) : Calls.makes (@raise A e) n allowed.
Proof. intros t. exists []. cbn. rewrite app_nil_r. repeat split. lia. Qed.

Lemma makes_lift (r : result A) (n : nat) : Calls.makes (lift r) n allowed.
Proof. intros t. exists []. cbn. rewrite app_nil_r. repeat split. lia. Qed.

Lemma makes_call (ev : event) (answer : result A) (n : nat) :
  allowed ev = true -> 1 <= n -> Calls.makes (call ev answer) n allowed.
Proof.
  intros Hev Hn t. exists [ev]. cbn. rewrite Hev. repeat split. exact Hn.
Qed.

Lemma makes_try (a n : nat) (body : M A) (handler : exn -> M A) :
  Calls.makes body a allowed ->
  (forall e, Calls.makes (handler e) (n - a) allowed) ->
  a <= n ->
  Calls.makes (try_except body handler) n allowed.
Proof.
  intros Hb Hh Han t. unfold try_except.
  destruct (Hb t) as (evs & Ht & Hlen & Hall).
  destruct (body t) as [t1 [x | e]]; cbn [fst] in Ht; subst t1.
  - exists evs. cbn [fst]. repeat split; [lia | exact Hall].
  - destruct (Hh e (t ++ evs)%list) as (evs' & Ht' & Hlen' & Hall').
    exists (evs ++ evs')%list. rewrite Ht', app_assoc, length_app, forallb_app, Hall, Hall'.
    repeat split. lia.
Qed.

End Makes.

Lemma makes_bind {A B} (allowed : event -> bool) (a n : nat) (m : M A) (f : A -> M B) :
  Calls.makes m a allowed ->
  (forall x, Calls.makes (f x) (n - a) allowed) ->
  a <= n ->
  Calls.makes (bind m f) n allowed.
Proof.
  intros Hm Hf Han t. unfold bind.
  destruct (Hm t) as (evs & Ht & Hlen & Hall).
  destruct (m t) as [t1 [x | e]]; cbn [fst] in Ht; subst t1.
  - destruct (Hf x (t ++ evs)%list) as (evs' & Ht' & Hlen' & Hall').
    exists (evs ++ evs')%list. rewrite Ht', app_assoc, length_app, forallb_app, Hall, Hall'.
    repeat split. lia.
  - exists evs. cbn [fst]. repeat split; [lia | exact Hall].
Qed.

Lemma makes_weaken {A} (allowed allowed' : event -> bool) (n n' : nat) (m : M A) :
  Calls.makes m n allowed ->
  n <= n' ->
  (forall ev, allowed ev = true -> allowed' ev = true) ->
  Calls.makes m n' allowed'.
Proof.
  intros Hm Hn Ha t. destruct (Hm t) as (evs & Ht & Hlen & Hall).
  exists evs. repeat split; [exact Ht | lia |].
  rewrite forallb_forall in *. intros ev Hin. apply Ha, Hall, Hin.
Qed.

(** Code that makes no call: returns, raises, reads of values already
    fetched, and the branches between them. *)
Ltac no_call :=
  repeat first
    [ apply makes_ret
    | apply makes_raise
    | apply makes_lift
    | apply (makes_bind _ 0); [| intros ? | lia]
    | progress cbv beta zeta
    | match goal with
      | |- Calls.makes (if ?c then _ else _) _ _ => destruct c
      | |- Calls.makes (match ?x with _ => _ end) _ _ => destruct x
      end ].

(** The shape the five fallbacks share: read the [.env] file, then at most
    one request. *)
Ltac fallback_calls :=
  apply (makes_try _ 2); [| intros e; apply makes_ret | lia];
  apply (makes_bind _ 1); [apply makes_call; [reflexivity | lia] | intros env_vars | lia];
  match goal with
  | |- Calls.makes (match ?k with _ => _ end) _ _ => destruct k
  end; [| apply makes_ret];
  apply (makes_bind _ 1); [apply makes_call; [reflexivity | lia] | intros data | lia];
  cbn [Nat.sub]; no_call.

Lemma fallback_makes (w : World) (r : Adapter.request) :
  Calls.makes (Adapter.fallback w r) 2 Calls.is_fallback_call.
Proof.
  destruct r; cbn [Adapter.fallback].
  - unfold _get_stock_price_alpha_vantage, _load_env_file, fetch. fallback_calls.
  - unfold _get_stock_info_alpha_vantage, _load_env_file, fetch. fallback_calls.
  - unfold _get_historical_data_alpha_vantage, _load_env_file, fetch. fallback_calls.
  - unfold _calculate_average_price_alpha_vantage, _load_env_file, fetch. fallback_calls.
  - unfold _get_crypto_price_alpha_vantage, _load_env_file, fetch. fallback_calls.
Qed.

(** The primary attempt of a tool: the pause, then Yahoo Finance. *)
Ltac primary_calls :=
  apply (makes_bind _ 1); [apply makes_call; [reflexivity | lia] | intros _ | lia];
  apply (makes_bind _ 1); [apply makes_call; [reflexivity | lia] | intros answer | lia];
  cbn [Nat.sub]; no_call.

Lemma invoke_makes (w : World) (r : Adapter.request) :
  Calls.makes (Adapter.invoke w r) 4 Calls.not_invoke.
Proof.
  assert (Hfb : forall r0, Calls.makes (Adapter.fallback w r0) 2 Calls.not_invoke).
  { intros r0. apply (makes_weaken Calls.is_fallback_call _ 2 2 _ (fallback_makes w r0));
      [lia | intros [] H; (reflexivity || discriminate H)]. }
  destruct r; cbn [Adapter.invoke].
  - apply (makes_try _ 2); [primary_calls | intros e | lia].
    destruct (rate_limited e); [apply (Hfb (Adapter.Price symbol)) | apply makes_ret].
  - apply (makes_try _ 2); [primary_calls | intros e | lia].
    destruct (rate_limited e); [apply (Hfb (Adapter.Info symbol)) | apply makes_ret].
  - apply (makes_try _ 2); [primary_calls | intros e | lia].
    destruct (rate_limited e); [apply (Hfb (Adapter.History symbol period)) | apply makes_ret].
  - apply (makes_try _ 2); [primary_calls | intros e | lia].
    destruct (rate_limited e); [apply (Hfb (Adapter.Average symbol days)) | apply makes_ret].
  - apply (makes_try _ 2); [primary_calls | intros e | lia].
    destruct (rate_limited e); [apply (Hfb (Adapter.Crypto symbol)) | apply makes_ret].
Qed.

Lemma web_search_makes (w : World) (query : string) :
  Calls.makes (web_search w query) 4 Calls.not_invoke.
Proof.
  apply (makes_try _ 1); [| intros e; apply makes_ret | lia].
  apply (makes_bind _ 1); [apply makes_call; [reflexivity | lia] | intros results | lia].
  no_call.
Qed.

Lemma mathematical_calculation_makes (w : World) (expression : string) :
  Calls.makes (mathematical_calculation w expression) 4 Calls.not_invoke.
Proof.
  apply (makes_try _ 1); [| intros e; apply makes_ret | lia].
  apply (makes_bind _ 1); [apply makes_call; [reflexivity | lia] | intros value | lia].
  no_call.
Qed.

Lemma ask_llm_trace (w : World) (message : string) (t : trace) :
  fst (ask_llm w message t) = (t ++ [Invoke message])%list.
Proof.
  unfold ask_llm, bind, call, ret. destruct (llm_invoke w message); reflexivity.
Qed.

Lemma try_except_trace {A} (body : M A) (text : exn -> A) (t : trace) :
  fst (try_except body (fun e => ret (text e)) t) = fst (body t).
Proof. unfold try_except, ret. destruct (body t) as [t1 [a | e]]; reflexivity. Qed.

(** What the body of [chat] adds to the trace when a tool was chosen. *)
Lemma chat_body_tool_makes (w : World) (message tn : string) :
  _decide_tool message = Some tn ->
  Calls.makes (chat_body w message) 4 Calls.not_invoke.
Proof.
  intros Hd. unfold chat_body. rewrite Hd.
  apply decide_tool_names in Hd. unfold Rules.tool_names in Hd. simpl in Hd.
  destruct Hd as [<- | [<- | [<- | [<- | [<- | [<- | [<- | []]]]]]]]; run_dispatch.
  - destruct (_extract_symbol_robust message) as [s |]; [| apply makes_ret].
    destruct (truthy (Some s)); [| apply makes_ret].
    apply (invoke_makes w (Adapter.Price s)).
  - destruct (_extract_symbol_robust message) as [s |]; [| apply makes_ret].
    destruct (truthy (Some s)); [| apply makes_ret].
    apply (invoke_makes w (Adapter.Info s)).
  - destruct (_extract_symbol_robust message) as [s |]; [| apply makes_ret].
    destruct (truthy (Some s)); [| apply makes_ret].
    apply (invoke_makes w (Adapter.History s "1mo")).
  - destruct (_extract_symbol_robust message) as [s |]; [| apply makes_ret].
    destruct (truthy (Some s)); [| apply makes_ret].
    apply (invoke_makes w (Adapter.Average s 7%Z)).
  - destruct (_extract_symbol_robust message) as [s |]; [| apply makes_ret].
    destruct (truthy (Some s)); [| apply makes_ret].
    apply (invoke_makes w (Adapter.Crypto s)).
  - apply web_search_makes.
  - destruct (extract_expression chat_math_patterns message) as [e |]; [| apply makes_ret].
    destruct (truthy (Some e)); [| apply makes_ret].
    apply mathematical_calculation_makes.
Qed.


(** The completion provider is called exactly when the classifier returns
    none, and then it is the only call of the turn, made with the message
    as it is: a turn that runs a tool never reaches the provider. *)
Theorem completion_only_when_unclassified (w : World) (message : string) (t : trace) :
  exists evs,
    fst (chat w message t) = (t ++ evs)%list /\
    match _decide_tool message with
    | None => evs = [Invoke message]
    | Some _ => existsb Calls.is_invoke evs = false
    end.
Proof.
  unfold chat. rewrite try_except_trace.
  destruct (_decide_tool message) as [tn |] eqn:Hd.
  - destruct (chat_body_tool_makes w message tn Hd t) as (evs & Ht & _ & Hall).
    exists evs. split; [exact Ht |].
    clear - Hall. induction evs as [| ev evs IH]; [reflexivity |].
    cbn [forallb existsb] in *. apply andb_prop in Hall. destruct Hall as [H1 H2].
    unfold Calls.not_invoke in H1. apply negb_true_iff in H1. rewrite H1, (IH H2). reflexivity.
  - exists [Invoke message]. unfold chat_body. rewrite Hd, ask_llm_trace.
    split; reflexivity.
Qed.

(** ** When the fallback is consulted *)

(** A failure of Yahoo Finance that is not a rate limit is reported as it
    is, with the text of the exception, after the two calls of the primary
    attempt: the [.env] file is not read and Alpha Vantage is not asked. *)
Theorem other_failure_is_reported
        (w : World) (r : Adapter.request) (t : trace) (e : exn) :
  Adapter.primary_failure w r = Some e ->
  rate_limited e = false ->
  Adapter.invoke w r t
  = ((t ++ Adapter.primary_calls r)%list, Ok (Report.primary_error r e)).
Proof.
  intros Hf Hr.
  destruct r;
    cbn [Adapter.invoke Adapter.primary_calls Adapter.primary_failure Report.primary_error] in *.
  - unfold get_stock_price, try_except, bind, call, ret.
    destruct (ticker_info w (Text.upper symbol)); [discriminate |].
    injection Hf as ->. rewrite Hr, <- app_assoc. reflexivity.
  - unfold get_stock_info, try_except, bind, call, ret.
    destruct (ticker_info w (Text.upper symbol)); [discriminate |].
    injection Hf as ->. rewrite Hr, <- app_assoc. reflexivity.
  - unfold get_historical_data, try_except, bind, call, ret.
    destruct (ticker_history w (Text.upper symbol) period); [discriminate |].
    injection Hf as ->. rewrite Hr, <- app_assoc. reflexivity.
  - unfold calculate_average_price, try_except, bind, call, ret.
    destruct (ticker_history w (Text.upper symbol) (Text.str_of_Z days ++ "d")); [discriminate |].
    injection Hf as ->. rewrite Hr, <- app_assoc. reflexivity.
  - unfold get_crypto_price, try_except, bind, call, ret.
    destruct (ticker_info w (Text.upper symbol ++ "-USD")); [discriminate |].
    injection Hf as ->. rewrite Hr, <- app_assoc. reflexivity.
Qed.

Lemma other_failure_is_reported_witness :
  Adapter.primary_failure Cases.unreachable (Adapter.Crypto "btc")
    = Some (Exn "Failed to resolve 'query2.finance.yahoo.com'") /\
  rate_limited (Exn "Failed to resolve 'query2.finance.yahoo.com'") = false /\
  Adapter.invoke Cases.unreachable (Adapter.Crypto "btc") []
  = ([Sleep 2; TickerInfo "BTC-USD"],
     Ok "Error fetching crypto price for btc: Failed to resolve 'query2.finance.yahoo.com'").
Proof.
  split; [reflexivity | split; [reflexivity |]].
  apply (other_failure_is_reported Cases.unreachable (Adapter.Crypto "btc") []
           (Exn "Failed to resolve 'query2.finance.yahoo.com'")); reflexivity.
Defined.

(** When Yahoo Finance answers, the tool returns a text after the two
    calls of the primary attempt and the fallback is not consulted; this
    holds for every answer, an empty history included. *)
Theorem answered_primary_skips_fallback
        (w : World) (r : Adapter.request) (t : trace) :
  Adapter.primary_failure w r = None ->
  exists text,
    Adapter.invoke w r t = ((t ++ Adapter.primary_calls r)%list, Ok text).
Proof.
  intros Hf.
  destruct r;
    cbn [Adapter.invoke Adapter.primary_calls Adapter.primary_failure] in *.
  - unfold get_stock_price, try_except, bind, call, ret.
    destruct (ticker_info w (Text.upper symbol)); [| discriminate].
    rewrite <- app_assoc. eexists. reflexivity.
  - unfold get_stock_info, try_except, bind, call, ret.
    destruct (ticker_info w (Text.upper symbol)); [| discriminate].
    rewrite <- app_assoc. eexists. reflexivity.
  - unfold get_historical_data, try_except, bind, call, ret, lift.
    destruct (ticker_history w (Text.upper symbol) period) as [hist |]; [| discriminate].
    rewrite <- app_assoc. destruct hist as [| first rest]; [eexists; reflexivity |].
    rewrite (iloc_last (first :: rest) first) by (simpl; lia).
    destruct (1 <? List.length (first :: rest)) eqn:H1.
    + apply Nat.ltb_lt in H1. rewrite (iloc_before_last (first :: rest) first H1).
      eexists. reflexivity.
    + eexists. reflexivity.
  - unfold calculate_average_price, try_except, bind, call, ret.
    destruct (ticker_history w (Text.upper symbol) (Text.str_of_Z days ++ "d")) as [hist |];
      [| discriminate].
    rewrite <- app_assoc. destruct hist; eexists; reflexivity.
  - unfold get_crypto_price, try_except, bind, call, ret.
    destruct (ticker_info w (Text.upper symbol ++ "-USD")); [| discriminate].
    rewrite <- app_assoc. eexists. reflexivity.
Qed.

Lemma answered_primary_skips_fallback_witness :
  Adapter.primary_failure Cases.quoting (Adapter.Price "aapl") = None /\
  exists text,
    Adapter.invoke Cases.quoting (Adapter.Price "aapl") []
    = (([] ++ Adapter.primary_calls (Adapter.Price "aapl"))%list, Ok text).
Proof.
  split; [reflexivity |].
  apply (answered_primary_skips_fallback Cases.quoting (Adapter.Price "aapl") []).
  reflexivity.
Defined.

Example quoting_answers :
  Adapter.invoke Cases.quoting (Adapter.Price "aapl") []
    = ([Sleep 2; TickerInfo "AAPL"], Ok "Current price of AAPL: $189.84") /\
  Adapter.invoke Cases.quoting (Adapter.Average "aapl" 7) []
    = ([Sleep 2; TickerHistory "AAPL" "7d"],
       Ok "Average price of AAPL over last 7 days: $193.00") /\
  Adapter.invoke (Worlds.with_history []) (Adapter.History "aapl" "1mo") []
    = ([Sleep 2; TickerHistory "AAPL" "1mo"], Ok "No historical data available for AAPL") /\
  Adapter.invoke (Worlds.with_history []) (Adapter.Average "aapl" 7) []
    = ([Sleep 2; TickerHistory "AAPL" "7d"], Ok "No data available for AAPL").
Proof. vm_compute. repeat split. Qed.

Lemma fallback_without_key
      (w : World) (r : Adapter.request) (t : trace) (env_vars : string -> option string) :
  env_file w = Ok env_vars ->
  usable_key (env_vars ALPHA_VANTAGE_API_KEY) = None ->
  Adapter.fallback w r t
  = ((t ++ [EnvFile])%list,
     Ok ("Alpha Vantage API key not configured for " ++ Report.symbol_of r)).
Proof.
  intros He Hk.
  destruct r; cbn [Adapter.fallback Report.symbol_of].
  - unfold _get_stock_price_alpha_vantage, _load_env_file, try_except, bind, call, ret.
    now rewrite He, Hk.
  - unfold _get_stock_info_alpha_vantage, _load_env_file, try_except, bind, call, ret.
    now rewrite He, Hk.
  - unfold _get_historical_data_alpha_vantage, _load_env_file, try_except, bind, call, ret.
    now rewrite He, Hk.
  - unfold _calculate_average_price_alpha_vantage, _load_env_file, try_except, bind, call, ret.
    now rewrite He, Hk.
  - unfold _get_crypto_price_alpha_vantage, _load_env_file, try_except, bind, call, ret.
    now rewrite He, Hk.
Qed.

(** A rate-limited request with no Alpha Vantage key in the [.env] file
    (the key missing, or set to nothing): the tool answers that the key is
    not configured, having read the file and sent no request to Alpha
    Vantage. *)
Theorem rate_limited_without_key
        (w : World) (r : Adapter.request) (t : trace) (e : exn)
        (env_vars : string -> option string) :
  Adapter.primary_failure w r = Some e ->
  rate_limited e = true ->
  env_file w = Ok env_vars ->
  usable_key (env_vars ALPHA_VANTAGE_API_KEY) = None ->
  Adapter.invoke w r t
  = ((t ++ Adapter.primary_calls r ++ [EnvFile])%list,
     Ok ("Alpha Vantage API key not configured for " ++ Report.symbol_of r)).
Proof.
  intros Hf Hr He Hk.
  rewrite (primary_rate_limited w r t e Hf Hr).
  rewrite (fallback_without_key w r _ env_vars He Hk), app_assoc. reflexivity.
Qed.

Lemma rate_limited_without_key_witness :
  Adapter.primary_failure Worlds.throttled (Adapter.History "tsla" "1mo")
    = Some (Exn "Too Many Requests. Rate limited. Try after a while.") /\
  rate_limited (Exn "Too Many Requests. Rate limited. Try after a while.") = true /\
  env_file Worlds.throttled = Ok (fun _ => None) /\
  usable_key None = None /\
  Adapter.invoke Worlds.throttled (Adapter.History "tsla" "1mo") []
  = ([Sleep 2; TickerHistory "TSLA" "1mo"; EnvFile],
     Ok "Alpha Vantage API key not configured for tsla").
Proof.
  repeat (split; [reflexivity |]).
  apply (rate_limited_without_key Worlds.throttled (Adapter.History "tsla" "1mo") []
           (Exn "Too Many Requests. Rate limited. Try after a while.") (fun _ => None));
    reflexivity.
Defined.

(** ** Substrings *)

Lemma startswith_spec (p s : string) :
  Text.startswith p s = true <-> exists rest, s = p ++ rest.
Proof.
  revert s. induction p as [| a p IH]; intros s; cbn [Text.startswith].
  - split; [intros _; exists s; reflexivity | reflexivity].
  - destruct s as [| b s]; [split; [discriminate | intros [rest H]; discriminate H] |].
    destruct (Ascii.eqb_spec a b) as [<- | Hne]; cbn [andb].
    + rewrite IH. split; intros [rest H]; exists rest.
      * now rewrite H.
      * now injection H.
    + split; [discriminate | intros [rest H]; injection H as H1 _; congruence].
Qed.

Lemma contains_spec (a s : string) :
  Text.contains a s = true <-> exists pre post, s = pre ++ a ++ post.
Proof.
  induction s as [| c s IH]; cbn [Text.contains]; rewrite orb_true_iff, startswith_spec.
  - split.
    + intros [[rest H] | H]; [| discriminate]. exists EmptyString, rest. exact H.
    + intros [pre [post H]]. left. destruct pre; [exists post; exact H |]. discriminate H.
  - rewrite IH. split.
    + intros [[rest H] | [pre [post H]]].
      * exists EmptyString, rest. exact H.
      * exists (String c pre), post. now rewrite H.
    + intros [pre [post H]]. destruct pre as [| d pre].
      * left. exists post. exact H.
      * right. injection H as _ H. exists pre, post. exact H.
Qed.

Lemma append_assoc (a b c : string) : (a ++ b) ++ c = a ++ (b ++ c).
Proof. induction a as [| x a IH]; cbn; [reflexivity | now rewrite IH]. Qed.

Lemma append_nil_r (a : string) : a ++ EmptyString = a.
Proof. induction a as [| x a IH]; cbn; [reflexivity | now rewrite IH]. Qed.

(** A text that holds [x ++ a ++ y] holds [a]. *)
Lemma contains_part (x a y s : string) :
  Text.contains (x ++ a ++ y) s = true -> Text.contains a s = true.
Proof.
  rewrite !contains_spec. intros [pre [post H]].
  exists (pre ++ x), (y ++ post). rewrite H, !append_assoc. reflexivity.
Qed.

Lemma contains_trans (a b c : string) :
  Text.contains a b = true -> Text.contains b c = true -> Text.contains a c = true.
Proof.
  rewrite !contains_spec. intros [p1 [q1 H1]] [p2 [q2 H2]].
  exists (p2 ++ p1), (q1 ++ q2). rewrite H2, H1, !append_assoc. reflexivity.
Qed.

Lemma any_in_member (l : list string) (x text : string) :
  In x l -> Text.contains x text = true -> any_in l text = true.
Proof.
  intros Hin Hc. unfold any_in. apply existsb_exists. exists x. split; assumption.
Qed.

(** ** Stages that shadow later ones *)

(** The stages as tests for words. *)
Lemma historical_keyword_spec (message : string) :
  Rules.historical_keyword message
  = any_in Words.historical_words (Text.lower message).
Proof.
  unfold Rules.historical_keyword, any_search, historical_patterns, Words.historical_words.
  cbn [existsb]. rewrite !search_words, orb_false_r.
  unfold any_in. rewrite map_app, existsb_app. reflexivity.
Qed.

Lemma average_keyword_spec (message : string) :
  Rules.average_keyword message
  = any_in Words.average_words (Text.lower message)
    || any_in Words.average_phrases (Text.lower message).
Proof.
  unfold Rules.average_keyword, any_search, average_patterns,
    Words.average_words, Words.average_phrases.
  cbn [existsb]. rewrite !search_words, orb_false_r. reflexivity.
Qed.

(** Every phrase of the second average pattern holds a word of the
    historical patterns. *)
Lemma average_phrase_is_historical (text : string) :
  any_in Words.average_phrases text = true ->
  any_in Words.historical_words text = true.
Proof.
  unfold any_in at 1, Words.average_phrases. cbn [map existsb]. read_latin1.
  rewrite !orb_true_iff. intros [H | [H | [H | [H | H]]]]; [| | | | discriminate H].
  - (* ultima semana *)
    apply (any_in_member _ "semana"); [vm_compute; tauto |].
    refine (contains_part (Text.latin1 "última ") "semana" EmptyString text _).
    exact H.
  - apply (any_in_member _ "last"); [vm_compute; tauto |].
    exact (contains_part EmptyString "last" " week" text H).
  - apply (any_in_member _ (Text.latin1 "último")); [vm_compute; tauto |].
    refine (contains_part EmptyString (Text.latin1 "último") (Text.latin1 "s días") text _).
    exact H.
  - apply (any_in_member _ "last"); [vm_compute; tauto |].
    exact (contains_part EmptyString "last" " days" text H).
Qed.

(** A message is classified as [calculate_average_price] only through one
    of the words promedio, average, media, mean, and only when it holds no
    word of the historical stage: the phrases of the second average
    pattern ("last week", "last days", ...) never decide, because each of
    them holds a historical word and that stage comes first. *)
Theorem average_needs_its_word (message : string) :
  _decide_tool message = Some "calculate_average_price" ->
  any_in Words.average_words (Text.lower message) = true /\
  any_in Words.historical_words (Text.lower message) = false /\
  any_in Words.average_phrases (Text.lower message) = false.
Proof.
  intros Hd.
  assert (Hh : Rules.historical_keyword message = false
               /\ Rules.average_keyword message = true).
  { unfold _decide_tool in Hd.
    unfold Rules.historical_keyword, Rules.average_keyword.
    repeat match type of Hd with
           | (if ?c then _ else _) = _ => destruct c eqn:?; try discriminate Hd
           end; split; reflexivity. }
  destruct Hh as [Hh Ha].
  rewrite historical_keyword_spec in Hh. rewrite average_keyword_spec in Ha.
  destruct (any_in Words.average_phrases (Text.lower message)) eqn:Hp.
  - apply average_phrase_is_historical in Hp. congruence.
  - rewrite orb_false_r in Ha. repeat split; assumption.
Qed.

Lemma average_needs_its_word_witness :
  _decide_tool "Tesla average" = Some "calculate_average_price" /\
  any_in Words.average_words (Text.lower "Tesla average") = true /\
  any_in Words.historical_words (Text.lower "Tesla average") = false /\
  any_in Words.average_phrases (Text.lower "Tesla average") = false.
Proof.
  split; [vm_compute; reflexivity |].
  apply (average_needs_its_word "Tesla average"). vm_compute. reflexivity.
Defined.

Example last_week_is_history :
  _decide_tool "Tesla average over the last week" = Some "get_historical_data" /\
  _decide_tool "Calculate the average price of Tesla over the last week"
    = Some "get_stock_price".
Proof. vm_compute. split; reflexivity. Qed.

(** A message that holds a price word (price, cost, value, precio, ...,
    "how much") is classified as a calculation, as a crypto price or as a
    stock price, never as info, history, average or search, whatever other
    keywords it holds. *)
Theorem price_word_decides (message : string) :
  Rules.mentions_price message = true ->
  In (_decide_tool message)
     [Some "mathematical_calculation"; Some "get_crypto_price"; Some "get_stock_price"].
Proof.
  rewrite <- price_keyword_spec. unfold Rules.price_keyword, _decide_tool. intros ->.
  destruct (any_search decide_math_patterns (Text.lower message)); [simpl; tauto |].
  destruct (any_in math_operators message); [simpl; tauto |].
  destruct (any_in crypto_words (Text.lower message)); simpl; tauto.
Qed.

Lemma price_word_decides_witness :
  Rules.mentions_price "Calculate the average price of Tesla over the last week" = true /\
  In (_decide_tool "Calculate the average price of Tesla over the last week")
     [Some "mathematical_calculation"; Some "get_crypto_price"; Some "get_stock_price"].
Proof.
  split; [vm_compute; reflexivity |].
  apply (price_word_decides "Calculate the average price of Tesla over the last week").
  vm_compute. reflexivity.
Defined.

(** ** The resolver and the case of letters *)









Lemma contains_after (a x s : string) :
  Text.contains a s = true -> Text.contains a (x ++ s) = true.
Proof.
  rewrite !contains_spec. intros [pre [post H]].
  exists (x ++ pre), post. rewrite H, append_assoc. reflexivity.
Qed.







(** ** What [findall] returns *)

Lemma substring_0_0 (s : string) : substring 0 0 s = EmptyString.
Proof. destruct s; reflexivity. Qed.

(** Every text [findall] returns is the text of a match: the first
    [taken] characters of the position where the match started. *)
Lemma findall_from_elems (P : string -> Prop) (r : Re.regex) :
  (forall prev s rest,
      Re.match_at r prev s = Some rest -> P (substring 0 (Re.taken s rest) s)) ->
  (forall prev s rest,
      Re.match_at_nonempty r prev s = Some rest -> P (substring 0 (Re.taken s rest) s)) ->
  forall s prev skip, Forall P (Re.findall_from r prev s skip).
Proof.
  intros H1 H2. induction s as [| c s IH]; intros prev skip.
  - cbn [Re.findall_from]. cbv zeta. destruct skip as [| k]; [| constructor].
    destruct (Re.match_at r prev EmptyString) as [rest |] eqn:Hm; [| constructor].
    pose proof (H1 prev EmptyString rest Hm) as HP.
    destruct (Re.taken EmptyString rest) as [| k] eqn:Ht.
    + constructor; [exact HP |].
      destruct (Re.match_at_nonempty r prev EmptyString) as [rest' |] eqn:Hn; [| constructor].
      constructor; [exact (H2 prev EmptyString rest' Hn) | constructor].
    + constructor; [exact HP | constructor].
  - cbn [Re.findall_from]. cbv zeta. destruct skip as [| k]; [| apply IH].
    destruct (Re.match_at r prev (String c s)) as [rest |] eqn:Hm; [| apply IH].
    pose proof (H1 prev (String c s) rest Hm) as HP.
    destruct (Re.taken (String c s) rest) as [| k] eqn:Ht.
    + rewrite substring_0_0 in HP. constructor; [exact HP |].
      destruct (Re.match_at_nonempty r prev (String c s)) as [rest' |] eqn:Hn; [| apply IH].
      constructor; [exact (H2 prev (String c s) rest' Hn) | apply IH].
    + constructor; [exact HP | apply IH].
Qed.

(** A text of three to five capital letters. *)
Lemma symbol_set_mem (c : ascii) :
  Re.set_mem false [Re.IRange "A" "Z"] c = Text.isupper_az c.
Proof.
  unfold Re.set_mem, Text.isupper_az. cbn [existsb Re.item_mem].
  change (Text.code "A") with 65. change (Text.code "Z") with 90.
  destruct (Text.between 65 90 c); reflexivity.
Qed.

Lemma taken_cons (c : ascii) (s rest : string) :
  String.length rest <= String.length s ->
  Re.taken (String c s) rest = S (Re.taken s rest).
Proof. unfold Re.taken. cbn [String.length]. lia. Qed.

Lemma taken_self (s : string) : Re.taken s s = 0.
Proof. unfold Re.taken. lia. Qed.

(** The shape of a match of [symbol_pattern], whatever is asked of the
    position reached. *)
Lemma symbol_rmatch_shape {A} (k : option ascii -> string -> option A)
      (prev : option ascii) (s : string) (x : A) :
  Re.rmatch symbol_pattern prev s k = Some x ->
  exists tok rest p,
    s = tok ++ rest /\ k p rest = Some x /\
    Expr.all_chars Text.isupper_az tok = true /\
    3 <= String.length tok <= 5.
Proof.
  unfold symbol_pattern.
  cbv [Re.seq Re.repeat Re.times Re.upto Re.opt Nat.sub].
  cbn [Re.rmatch].
  destruct (Re.at_boundary prev s); [| discriminate].
  destruct s as [| c1 s]; [discriminate |]. rewrite symbol_set_mem.
  destruct (Text.isupper_az c1) eqn:U1; [| discriminate].
  destruct s as [| c2 s]; [discriminate |]. rewrite symbol_set_mem.
  destruct (Text.isupper_az c2) eqn:U2; [| discriminate].
  destruct s as [| c3 s]; [discriminate |]. rewrite symbol_set_mem.
  destruct (Text.isupper_az c3) eqn:U3; [| discriminate].
  assert (H3 : forall p,
             (if Re.at_boundary p s then k p s else None) = Some x ->
             exists tok rest p0,
               String c1 (String c2 (String c3 s)) = tok ++ rest /\ k p0 rest = Some x /\
               Expr.all_chars Text.isupper_az tok = true /\ 3 <= String.length tok <= 5).
  { intros p H. destruct (Re.at_boundary p s); [| discriminate].
    exists (String c1 (String c2 (String c3 EmptyString))), s, p.
    cbn [Expr.all_chars String.length append]. rewrite U1, U2, U3.
    repeat split; [exact H | lia | lia]. }
  destruct s as [| c4 s4]; [apply H3 |]. rewrite symbol_set_mem.
  destruct (Text.isupper_az c4) eqn:U4; [| apply H3].
  assert (H4 : forall p,
             (if Re.at_boundary p s4 then k p s4 else None) = Some x ->
             exists tok rest p0,
               String c1 (String c2 (String c3 (String c4 s4))) = tok ++ rest /\
               k p0 rest = Some x /\
               Expr.all_chars Text.isupper_az tok = true /\ 3 <= String.length tok <= 5).
  { intros p H. destruct (Re.at_boundary p s4); [| discriminate].
    exists (String c1 (String c2 (String c3 (String c4 EmptyString)))), s4, p.
    cbn [Expr.all_chars String.length append]. rewrite U1, U2, U3, U4.
    repeat split; [exact H | lia | lia]. }
  destruct s4 as [| c5 s5].
  - intros H.
    destruct (if Re.at_boundary (Some c4) EmptyString then k (Some c4) EmptyString else None)
      eqn:E4; [injection H as ->; exact (H4 _ E4) | exact (H3 _ H)].
  - rewrite symbol_set_mem. destruct (Text.isupper_az c5) eqn:U5.
    + intros H.
      destruct (if Re.at_boundary (Some c5) s5 then k (Some c5) s5 else None) eqn:E5.
      * injection H as ->. destruct (Re.at_boundary (Some c5) s5); [| discriminate].
        exists (String c1 (String c2 (String c3 (String c4 (String c5 EmptyString))))),
          s5, (Some c5).
        cbn [Expr.all_chars String.length append]. rewrite U1, U2, U3, U4, U5.
        repeat split; [exact E5 | lia | lia].
      * destruct (if Re.at_boundary (Some c4) (String c5 s5)
                  then k (Some c4) (String c5 s5) else None) eqn:E4;
          [injection H as ->; exact (H4 _ E4) | exact (H3 _ H)].
    + intros H.
      destruct (if Re.at_boundary (Some c4) (String c5 s5)
                then k (Some c4) (String c5 s5) else None) eqn:E4;
        [injection H as ->; exact (H4 _ E4) | exact (H3 _ H)].
Qed.

Lemma length_append (a b : string) :
  String.length (a ++ b) = String.length a + String.length b.
Proof. induction a as [| c a IH]; cbn; [reflexivity | now rewrite IH]. Qed.

Lemma substring_prefix (tok rest : string) :
  substring 0 (String.length tok) (tok ++ rest) = tok.
Proof.
  induction tok as [| c tok IH]; cbn [String.length append substring].
  - apply substring_0_0.
  - now rewrite IH.
Qed.

Lemma symbol_token_shape (s rest : string) (prev : option ascii) :
  Re.match_at symbol_pattern prev s = Some rest
  \/ Re.match_at_nonempty symbol_pattern prev s = Some rest ->
  Expr.all_chars Text.isupper_az (substring 0 (Re.taken s rest) s) = true /\
  3 <= String.length (substring 0 (Re.taken s rest) s) <= 5.
Proof.
  intros H.
  assert (Hs : exists tok, s = tok ++ rest /\ Expr.all_chars Text.isupper_az tok = true
                           /\ 3 <= String.length tok <= 5).
  { destruct H as [H | H].
    - destruct (symbol_rmatch_shape _ prev s rest H) as (tok & rest' & p & Hs & Hk & Hu & Hl).
      injection Hk as ->. exists tok. auto.
    - destruct (symbol_rmatch_shape _ prev s rest H) as (tok & rest' & p & Hs & Hk & Hu & Hl).
      destruct (String.length rest' <? String.length s); [| discriminate].
      injection Hk as ->. exists tok. auto. }
  destruct Hs as (tok & -> & Hu & Hl).
  replace (Re.taken (tok ++ rest) rest) with (String.length tok)
    by (unfold Re.taken; rewrite length_append; lia).
  rewrite substring_prefix. split; assumption.
Qed.

Lemma first_key_in (mapping : list (string * string)) (text symbol : string) :
  first_key mapping text = Some symbol ->
  exists key, In (key, symbol) mapping /\ Text.contains key text = true.
Proof.
  induction mapping as [| [k s] rest IH]; cbn [first_key]; [discriminate |].
  destruct (Text.contains k text) eqn:Hk.
  - intros H. injection H as <-. exists k. split; [left; reflexivity | exact Hk].
  - intros H. destruct (IH H) as [key [Hin Hc]]. exists key. split; [right; exact Hin | exact Hc].
Qed.

Lemma first_symbol_in (symbols : list string) (symbol : string) :
  first_symbol symbols = Some symbol ->
  In symbol symbols /\ member symbol exclude_words = false.
Proof.
  induction symbols as [| x rest IH]; cbn [first_symbol]; [discriminate |].
  destruct (member x exclude_words) eqn:Hm; cbn [negb andb].
  - intros H. destruct (IH H). split; [right |]; assumption.
  - destruct (3 <=? String.length x).
    + intros H. injection H as <-. split; [left; reflexivity | exact Hm].
    + intros H. destruct (IH H). split; [right |]; assumption.
Qed.

(** What the resolver returns is never empty: it is the ticker of a
    dictionary entry whose key occurs in the upper-cased message, or a run
    of three to five capital letters A-Z that is not on the stoplist.  (So
    the test [len(symbol) >= 3] of the source never fails, and [if symbol:]
    in [chat] fails only on none.) *)
Theorem resolved_symbol_shape (message symbol : string) :
  _extract_symbol_robust message = Some symbol ->
  truthy (Some symbol) = true /\
  ((exists key, In (key, symbol) stock_mapping
                /\ Text.contains key (Text.upper message) = true)
   \/ (Expr.all_chars Text.isupper_az symbol = true
       /\ 3 <= String.length symbol <= 5
       /\ member symbol exclude_words = false)).
Proof.
  unfold _extract_symbol_robust.
  destruct (first_key stock_mapping (Text.upper message)) as [sym |] eqn:Hk.
  - intros H. injection H as ->.
    destruct (first_key_in _ _ _ Hk) as [key [Hin Hc]].
    split; [| left; exists key; split; assumption].
    clear - Hin. unfold stock_mapping in Hin. cbn [In] in Hin.
    repeat (destruct Hin as [Hin | Hin]; [injection Hin as _ <-; reflexivity |]).
    contradiction.
  - intros H. apply first_symbol_in in H. destruct H as [Hin Hm].
    assert (Hall : Forall (fun tok => Expr.all_chars Text.isupper_az tok = true
                                      /\ 3 <= String.length tok <= 5)
                          (Re.findall symbol_pattern (Text.upper message))).
    { apply findall_from_elems; intros prev s rest Hmatch;
        apply (symbol_token_shape s rest prev); [left | right]; exact Hmatch. }
    rewrite Forall_forall in Hall. destruct (Hall symbol Hin) as [Hu Hl].
    split; [destruct symbol; [simpl in Hl; lia | reflexivity] |].
    right. repeat split; [exact Hu | lia | lia | exact Hm].
Qed.

Lemma resolved_symbol_shape_witness :
  _extract_symbol_robust "Tell me a joke" = Some "TELL" /\
  truthy (Some "TELL") = true /\
  ((exists key, In (key, "TELL") stock_mapping
                /\ Text.contains key (Text.upper "Tell me a joke") = true)
   \/ (Expr.all_chars Text.isupper_az "TELL" = true
       /\ 3 <= String.length "TELL" <= 5
       /\ member "TELL" exclude_words = false)).
Proof.
  split; [vm_compute; reflexivity |].
  apply (resolved_symbol_shape "Tell me a joke" "TELL"). vm_compute. reflexivity.
Defined.

(** ** The expression that is evaluated *)

Lemma substring_is_prefix (n : nat) (s : string) :
  exists post, s = substring 0 n s ++ post.
Proof.
  revert n. induction s as [| c s IH]; intros n.
  - exists EmptyString. destruct n; reflexivity.
  - destruct n as [| n]; cbn [substring].
    + exists (String c s). reflexivity.
    + destruct (IH n) as [post H]. exists post. cbn [append]. now rewrite <- H.
Qed.

Lemma contains_prefix_of (a post : string) : Text.contains a (a ++ post) = true.
Proof. apply contains_spec. exists EmptyString, post. reflexivity. Qed.

(** What [findall] returns are pieces of the text. *)
Lemma findall_from_pieces (r : Re.regex) (s : string) (prev : option ascii) (skip : nat) :
  Forall (fun piece => Text.contains piece s = true) (Re.findall_from r prev s skip).
Proof.
  revert prev skip. induction s as [| c s IH]; intros prev skip.
  - cbn [Re.findall_from]. cbv zeta. destruct skip; [| constructor].
    destruct (Re.match_at r prev EmptyString); [| constructor].
    destruct (Re.taken EmptyString s); constructor; try reflexivity.
    + destruct (Re.match_at_nonempty r prev EmptyString); constructor;
        [destruct (Re.taken _ _); reflexivity | constructor].
    + constructor.
  - assert (Htail : forall p k,
               Forall (fun piece => Text.contains piece (String c s) = true)
                      (Re.findall_from r p s k)).
    { intros p k. eapply Forall_impl; [| apply IH].
      intros piece H. exact (contains_after piece (String c EmptyString) s H). }
    assert (Hpre : forall n, Text.contains (substring 0 n (String c s)) (String c s) = true).
    { intros n. destruct (substring_is_prefix n (String c s)) as [post H].
      rewrite H at 2. apply contains_prefix_of. }
    cbn [Re.findall_from]. cbv zeta. destruct skip; [| apply Htail].
    destruct (Re.match_at r prev (String c s)); [| apply Htail].
    destruct (Re.taken (String c s) s0).
    + constructor; [reflexivity |].
      destruct (Re.match_at_nonempty r prev (String c s)); [| apply Htail].
      constructor; [apply Hpre | apply Htail].
    + constructor; [apply Hpre | apply Htail].
Qed.

Lemma max_by_len_in (best : string) (l : list string) :
  In (max_by_len best l) (best :: l).
Proof.
  revert best. induction l as [| x l IH]; intros best; cbn [max_by_len]; [left; reflexivity |].
  destruct (String.length best <? String.length x).
  - right. apply IH.
  - destruct (IH best) as [H | H]; [left; exact H | right; right; exact H].
Qed.

(** [strip] keeps a piece of the text and leaves nothing to strip. *)
Lemma lstrip_suffix (s : string) : exists pre, s = pre ++ Text.lstrip s.
Proof.
  induction s as [| c s IH]; cbn [Text.lstrip]; [exists EmptyString; reflexivity |].
  destruct (Text.isspace c).
  - destruct IH as [pre H]. exists (String c pre). cbn [append]. now rewrite <- H.
  - exists EmptyString. reflexivity.
Qed.

Lemma rstrip_prefix (s : string) : exists post, s = Text.rstrip s ++ post.
Proof.
  induction s as [| c s IH]; cbn [Text.rstrip]; [exists EmptyString; reflexivity |].
  destruct IH as [post H]. destruct (Text.rstrip s) as [| d r].
  - destruct (Text.isspace c).
    + exists (String c s). reflexivity.
    + exists s. reflexivity.
  - exists post. cbn [append] in *. now rewrite <- H.
Qed.

Lemma strip_piece (s : string) : Text.contains (Text.strip s) s = true.
Proof.
  apply contains_spec. unfold Text.strip.
  destruct (lstrip_suffix s) as [pre H1].
  destruct (rstrip_prefix (Text.lstrip s)) as [post H2].
  exists pre, post. rewrite <- H2. exact H1.
Qed.

Lemma rstrip_rstrip (s : string) : Text.rstrip (Text.rstrip s) = Text.rstrip s.
Proof.
  induction s as [| c s IH]; cbn [Text.rstrip]; [reflexivity |].
  destruct (Text.rstrip s) as [| d r] eqn:Hr.
  - destruct (Text.isspace c) eqn:Hc; [reflexivity |].
    cbn [Text.rstrip]. now rewrite Hc.
  - cbn [Text.rstrip]. cbn [Text.rstrip] in IH. rewrite IH. reflexivity.
Qed.

Lemma lstrip_starts_clean (s : string) : Words.starts_clean (Text.lstrip s).
Proof.
  induction s as [| c s IH]; cbn [Text.lstrip]; [exact I |].
  destruct (Text.isspace c) eqn:Hc; [exact IH | exact Hc].
Qed.

Lemma lstrip_clean (s : string) : Words.starts_clean s -> Text.lstrip s = s.
Proof. destruct s as [| c s]; cbn; [reflexivity | intros ->; reflexivity]. Qed.

Lemma rstrip_starts_clean (s : string) : Words.starts_clean s -> Words.starts_clean (Text.rstrip s).
Proof.
  destruct s as [| c s]; cbn [Text.rstrip Words.starts_clean]; [intros _; exact I |].
  intros Hc. destruct (Text.rstrip s); [rewrite Hc |]; exact Hc.
Qed.

Lemma strip_strip (s : string) : Text.strip (Text.strip s) = Text.strip s.
Proof.
  unfold Text.strip.
  rewrite (lstrip_clean (Text.rstrip (Text.lstrip s)))
    by (apply rstrip_starts_clean, lstrip_starts_clean).
  apply rstrip_rstrip.
Qed.

Lemma extract_expression_piece (patterns : list Re.regex) (message e : string) :
  extract_expression patterns message = Some e ->
  Text.contains e message = true /\ Text.strip e = e.
Proof.
  induction patterns as [| p rest IH]; cbn [extract_expression]; [discriminate |].
  destruct (Re.findall p message) as [| m ms] eqn:Hf; [exact IH |].
  intros H. injection H as <-. split; [| apply strip_strip].
  apply (contains_trans _ (max_by_len m ms)); [apply strip_piece |].
  pose proof (findall_from_pieces p message None 0) as Hall.
  fold (Re.findall p message) in Hall. rewrite Hf in Hall.
  rewrite Forall_forall in Hall. apply Hall, max_by_len_in.
Qed.

(** A turn classified as a calculation evaluates text of the message and
    nothing else: either [eval] is called once, on a piece of the message
    that is not empty and has no blank at either end, or nothing is called
    and the answer is the prompt for a valid expression. *)
Theorem calculation_evaluates_message_text (w : World) (message : string) (t : trace) :
  _decide_tool message = Some "mathematical_calculation" ->
  (exists e,
      e <> EmptyString /\ Text.contains e message = true /\ Text.strip e = e /\
      fst (chat w message t) = (t ++ [Eval e])%list)
  \/ chat w message t = (t, Ok expression_prompt).
Proof.
  intros Hd. unfold chat, chat_body. rewrite Hd. run_dispatch.
  destruct (extract_expression chat_math_patterns message) as [e |] eqn:He;
    [| right; reflexivity].
  destruct (extract_expression_piece _ _ _ He) as [Hc Hs].
  destruct e as [| c e]; [right; reflexivity |].
  left. exists (String c e). repeat split; [discriminate | exact Hc | exact Hs |].
  cbn [truthy]. rewrite try_except_trace.
  unfold mathematical_calculation. rewrite try_except_trace.
  unfold bind, eval, call.
  destruct (if Expr.operands_side_by_side (String c e) then _ else _); reflexivity.
Qed.

Lemma calculation_evaluates_message_text_witness :
  _decide_tool "What is 2 + 2?" = Some "mathematical_calculation" /\
  ((exists e,
       e <> EmptyString /\ Text.contains e "What is 2 + 2?" = true /\ Text.strip e = e /\
       fst (chat Worlds.throttled "What is 2 + 2?" []) = ([] ++ [Eval e])%list)
   \/ chat Worlds.throttled "What is 2 + 2?" [] = ([], Ok expression_prompt)).
Proof.
  split; [vm_compute; reflexivity |].
  apply (calculation_evaluates_message_text Worlds.throttled "What is 2 + 2?" []).
  vm_compute. reflexivity.
Defined.

Example calculation_turns :
  fst (chat Worlds.throttled "What is 2 + 2?" []) = [Eval "2 + 2"] /\
  fst (chat Worlds.throttled "SQRT(16)" []) = [Eval "(16)"] /\
  fst (chat Worlds.throttled "15% OF 250" []) = [Eval "250"] /\
  chat Worlds.throttled "a = b" [] = ([], Ok expression_prompt) /\
  chat Worlds.throttled "a=b" [] = ([], Ok expression_prompt).
Proof. vm_compute. repeat split. Qed.

(** ** When an expression is found *)

Lemma findall_nil_search (r : Re.regex) (s : string) (prev : option ascii) :
  Re.findall_from r prev s 0 = [] -> Re.search_from r prev s = false.
Proof.
  revert prev. induction s as [| c s IH]; intros prev;
    cbn [Re.findall_from Re.search_from]; cbv zeta.
  - destruct (Re.match_at r prev EmptyString) as [rest |]; [| reflexivity].
    destruct (Re.taken EmptyString rest); discriminate.
  - destruct (Re.match_at r prev (String c s)) as [rest |]; [| apply IH].
    destruct (Re.taken (String c s) rest); discriminate.
Qed.

Lemma star_rounds_some {A}
      (step : option ascii -> string -> (option ascii -> string -> option A) -> option A)
      (k : option ascii -> string -> option A) (n : nat) (prev : option ascii) (s : string) :
  (forall p s', Re.matched (k p s') = true) ->
  Re.matched (Re.star_rounds step k n prev s) = true.
Proof.
  intros Hk. destruct n as [| n]; cbn [Re.star_rounds]; [apply Hk |].
  destruct (step prev s _); [reflexivity | apply Hk].
Qed.

(** One character of a set is enough for [[set]+] to be found. *)
Lemma search_plus_set (neg : bool) (items : list Re.item) (s : string) (prev : option ascii) :
  Words.has_char (Re.set_mem neg items) s = true ->
  Re.search_from (Re.plus (Re.Set_ neg items)) prev s = true.
Proof.
  revert prev. induction s as [| c s IH]; intros prev; cbn [Words.has_char]; [discriminate |].
  intros H. rewrite search_from_step. apply orb_true_iff.
  destruct (Re.set_mem neg items c) eqn:Hc.
  - left. unfold Re.match_at, Re.plus. cbn [Re.rmatch]. rewrite Hc.
    apply star_rounds_some. reflexivity.
  - right. apply IH. exact H.
Qed.

(** Every message that holds a digit, a blank, or one of [+ - * / ( ) .]
    gives the extractor something (be it only blanks, which [strip] then
    empties): none is returned only for a message without any of them. *)
Theorem expression_found_in_arithmetic_text (message : string) :
  Words.has_char Words.expression_char message = true ->
  extract_expression chat_math_patterns message <> None.
Proof.
  intros H. unfold chat_math_patterns. cbn [extract_expression].
  repeat match goal with
         | |- context [match Re.findall ?p message with _ => _ end] =>
             destruct (Re.findall p message) eqn:?; [| discriminate]
         end.
  exfalso.
  match goal with
  | Hf : Re.findall (Re.plus (Re.Set_ false ?items)) message = [] |- _ =>
      apply findall_nil_search in Hf;
      rewrite (search_plus_set false items message None H) in Hf; discriminate Hf
  end.
Qed.

Lemma expression_found_in_arithmetic_text_witness :
  Words.has_char Words.expression_char "a = b" = true /\
  extract_expression chat_math_patterns "a = b" <> None.
Proof.
  split; [vm_compute; reflexivity |].
  apply (expression_found_in_arithmetic_text "a = b"). vm_compute. reflexivity.
Defined.

(** ** Reading the [.env] file *)

Lemma all_chars_app (p : ascii -> bool) (a b : string) :
  Expr.all_chars p (a ++ b) = Expr.all_chars p a && Expr.all_chars p b.
Proof.
  induction a as [| c a IH]; cbn [append Expr.all_chars]; [reflexivity |].
  now rewrite IH, andb_assoc.
Qed.

Lemma all_chars_impl (p q : ascii -> bool) (s : string) :
  (forall c, p c = true -> q c = true) ->
  Expr.all_chars p s = true -> Expr.all_chars q s = true.
Proof.
  intros Hpq. induction s as [| c s IH]; cbn [Expr.all_chars]; [reflexivity |].
  intros H. apply andb_prop in H. destruct H as [H1 H2].
  now rewrite (Hpq c H1), (IH H2).
Qed.

Lemma lstrip_blank_app (sp x : string) :
  Env.blank sp = true -> Text.lstrip (sp ++ x) = Text.lstrip x.
Proof.
  unfold Env.blank. induction sp as [| c sp IH]; cbn [append Expr.all_chars]; [reflexivity |].
  intros H. apply andb_prop in H. destruct H as [H1 H2].
  cbn [Text.lstrip]. rewrite H1. exact (IH H2).
Qed.

Lemma rstrip_cons (c : ascii) (s : string) :
  Text.isspace c = false -> Text.rstrip (String c s) = String c (Text.rstrip s).
Proof. intros H. cbn [Text.rstrip]. destruct (Text.rstrip s); [rewrite H |]; reflexivity. Qed.

Lemma rstrip_app_cons (a : string) (c : ascii) (s : string) :
  Text.isspace c = false ->
  Text.rstrip (a ++ String c s) = a ++ String c (Text.rstrip s).
Proof.
  intros H. induction a as [| d a IH]; cbn [append]; [apply rstrip_cons, H |].
  cbn [Text.rstrip]. rewrite IH. destruct a; reflexivity.
Qed.

Lemma rstrip_blank (sp : string) : Env.blank sp = true -> Text.rstrip sp = EmptyString.
Proof.
  unfold Env.blank. induction sp as [| c sp IH]; cbn [Expr.all_chars]; [reflexivity |].
  intros H. apply andb_prop in H. destruct H as [H1 H2].
  cbn [Text.rstrip]. now rewrite (IH H2), H1.
Qed.

Lemma rstrip_app_blank (a sp : string) :
  Env.blank sp = true -> Text.rstrip (a ++ sp) = Text.rstrip a.
Proof.
  intros H. induction a as [| c a IH]; cbn [append]; [cbn; apply rstrip_blank, H |].
  cbn [Text.rstrip]. now rewrite IH.
Qed.

Lemma rstrip_solid (k : string) :
  Expr.all_chars (fun c => negb (Text.isspace c)) k = true -> Text.rstrip k = k.
Proof.
  induction k as [| c k IH]; cbn [Expr.all_chars]; [reflexivity |].
  intros H. apply andb_prop in H. destruct H as [H1 H2]. apply negb_true_iff in H1.
  now rewrite (rstrip_cons c k H1), (IH H2).
Qed.

(** The two ends are stripped independently. *)
Lemma lstrip_rstrip (v : string) : Text.lstrip (Text.rstrip v) = Text.rstrip (Text.lstrip v).
Proof.
  induction v as [| c v IH]; [reflexivity |].
  destruct (Text.isspace c) eqn:Hc.
  - cbn [Text.lstrip Text.rstrip]. rewrite Hc, <- IH.
    destruct (Text.rstrip v) as [| d r]; [reflexivity |].
    cbn [Text.lstrip]. now rewrite Hc.
  - rewrite (rstrip_cons c v Hc). cbn [Text.lstrip]. rewrite Hc.
    symmetry. apply rstrip_cons, Hc.
Qed.

Lemma strip_rstrip (v : string) : Text.strip (Text.rstrip v) = Text.strip v.
Proof. unfold Text.strip. now rewrite lstrip_rstrip, rstrip_rstrip. Qed.

Lemma strip_app_blank (a sp : string) :
  Env.blank sp = true -> Text.strip (a ++ sp) = Text.strip a.
Proof.
  intros H. unfold Text.strip.
  now rewrite <- !lstrip_rstrip, (rstrip_app_blank a sp H).
Qed.

Lemma split_first_app (sep : ascii) (a b : string) :
  Expr.all_chars (fun c => negb (Ascii.eqb c sep)) a = true ->
  Env.split_first sep (a ++ String sep b) = Some (a, b).
Proof.
  induction a as [| c a IH]; cbn [append Expr.all_chars Env.split_first].
  - intros _. now rewrite Ascii.eqb_refl.
  - intros H. apply andb_prop in H. destruct H as [H1 H2]. apply negb_true_iff in H1.
    now rewrite H1, (IH H2).
Qed.

Lemma blank_has_no_equals (c : ascii) :
  Text.isspace c = true -> negb (Ascii.eqb c "=") = true.
Proof.
  intros H. destruct (Ascii.eqb_spec c "=") as [-> |]; [discriminate H | reflexivity].
Qed.

(** A line [KEY=VALUE] assigns to the key, as written, the value without
    the blanks around it; blanks before the key and between the key and the
    [=] are dropped, and what follows the first [=] is all value, further
    [=] and a [#] included. *)
Theorem line_assigns_key_value (sp1 key sp2 value : string) :
  Env.plain_key key = true ->
  Env.blank sp1 = true ->
  Env.blank sp2 = true ->
  Env.assignment (sp1 ++ key ++ sp2 ++ "=" ++ value) = Some (key, Text.strip value).
Proof.
  unfold Env.plain_key. intros Hk H1 H2.
  apply andb_prop in Hk. destruct Hk as [Hk Hhash].
  apply andb_prop in Hk. destruct Hk as [Hne Hall].
  assert (Hsolid : Expr.all_chars (fun c => negb (Text.isspace c)) key = true).
  { revert Hall. apply all_chars_impl. intros c H. apply andb_prop in H. apply H. }
  assert (Hnoeq : Expr.all_chars (fun c => negb (Ascii.eqb c "=")) (key ++ sp2) = true).
  { rewrite all_chars_app. apply andb_true_intro. split.
    - revert Hall. apply all_chars_impl. intros c H. apply andb_prop in H. apply H.
    - revert H2. apply all_chars_impl, blank_has_no_equals. }
  destruct key as [| c key]; [discriminate Hne |].
  assert (Hc : Text.isspace c = false).
  { cbn [Expr.all_chars] in Hsolid. apply andb_prop in Hsolid.
    destruct Hsolid as [Hs _]. now apply negb_true_iff in Hs. }
  assert (Hline : Text.strip (sp1 ++ String c key ++ sp2 ++ "=" ++ value)
                  = (String c key ++ sp2) ++ String "=" (Text.rstrip value)).
  { unfold Text.strip. rewrite (lstrip_blank_app sp1 _ H1).
    rewrite lstrip_clean by exact Hc.
    change ("=" ++ value) with (String "=" value).
    rewrite <- append_assoc. apply rstrip_app_cons. reflexivity. }
  unfold Env.assignment. cbv zeta. rewrite Hline.
  rewrite (split_first_app "=" _ _ Hnoeq).
  assert (Hin : Text.contains "=" ((String c key ++ sp2) ++ String "=" (Text.rstrip value)) = true).
  { apply contains_spec. exists (String c key ++ sp2), (Text.rstrip value). reflexivity. }
  rewrite Hin. cbn [append String.eqb negb andb].
  cbn [Text.startswith] in Hhash |- *. rewrite Hhash. cbn [andb].
  rewrite strip_rstrip. f_equal. f_equal.
  change (String c (key ++ sp2)) with (String c key ++ sp2).
  rewrite (strip_app_blank _ sp2 H2). unfold Text.strip.
  cbn [Text.lstrip]. rewrite Hc. apply rstrip_solid, Hsolid.
Qed.

Lemma line_assigns_key_value_witness :
  Env.plain_key "GROQ_API_KEY" = true /\
  Env.blank " " = true /\
  Env.blank "  " = true /\
  Env.assignment (" " ++ "GROQ_API_KEY" ++ "  " ++ "=" ++ " gsk=1 # two ")
  = Some ("GROQ_API_KEY", Text.strip " gsk=1 # two ").
Proof.
  repeat (split; [reflexivity |]).
  apply (line_assigns_key_value " " "GROQ_API_KEY" "  " " gsk=1 # two "); reflexivity.
Defined.

Example lines_of_an_env_file :
  Env.assignment "GROQ_API_KEY = gsk=1 # two " = Some ("GROQ_API_KEY", "gsk=1 # two") /\
  Env.assignment "# GROQ_API_KEY=1" = None /\
  Env.assignment "GROQ_API_KEY" = None /\
  Env.assignment "=1" = Some (EmptyString, "1") /\
  Env.assignment "export A=1" = Some ("export A", "1") /\
  Env.assignment "A=" = Some ("A", EmptyString).
Proof. vm_compute. repeat split. Qed.

(** *** The whole file *)

Lemma lookup_assign {V} (key k : string) (v : V) (d : list (string * V)) :
  lookup key (Env.assign k v d) = if String.eqb k key then Some v else lookup key d.
Proof.
  induction d as [| [k' v'] d IH]; cbn [Env.assign lookup]; [reflexivity |].
  destruct (String.eqb_spec k' k) as [-> | Hkk]; cbn [lookup].
  - destruct (String.eqb k key); reflexivity.
  - destruct (String.eqb_spec k' key) as [-> | Hk'].
    + destruct (String.eqb_spec k key) as [-> | _]; [contradiction | reflexivity].
    + exact IH.
Qed.

Lemma read_lines_app {V} (of_str : string -> V) (l1 l2 : list string)
      (env_vars : list (string * V)) :
  Env.read_lines of_str (l1 ++ l2)%list env_vars
  = Env.read_lines of_str l2 (Env.read_lines of_str l1 env_vars).
Proof. unfold Env.read_lines. apply fold_left_app. Qed.

Lemma read_lines_cons {V} (of_str : string -> V) (line : string) (lines : list string)
      (env_vars : list (string * V)) :
  Env.read_lines of_str (line :: lines) env_vars
  = Env.read_lines of_str lines
      match Env.assignment line with
      | Some (key, value) => Env.assign key (of_str value) env_vars
      | None => env_vars
      end.
Proof. reflexivity. Qed.

Lemma read_lines_other {V} (of_str : string -> V) (key : string) (lines : list string)
      (env_vars : list (string * V)) :
  forallb (fun line => negb (Env.assigns key line)) lines = true ->
  lookup key (Env.read_lines of_str lines env_vars) = lookup key env_vars.
Proof.
  revert env_vars. induction lines as [| line lines IH]; intros env_vars; [reflexivity |].
  cbn [forallb]. intros H. apply andb_prop in H. destruct H as [H1 H2].
  rewrite read_lines_cons, (IH _ H2). unfold Env.assigns in H1.
  destruct (Env.assignment line) as [[k v] |]; [| reflexivity].
  rewrite lookup_assign. apply negb_true_iff in H1. now rewrite H1.
Qed.

Lemma splitlines_line (line rest : string) :
  Env.no_break line = true ->
  Env.splitlines (line ++ Text.nl ++ rest) = line :: Env.splitlines rest.
Proof.
  unfold Env.no_break.
  induction line as [| c line IH]; cbn [append Expr.all_chars].
  - intros _. destruct rest; reflexivity.
  - intros H. apply andb_prop in H. destruct H as [H1 H2]. apply negb_true_iff in H1.
    cbn [Env.splitlines]. rewrite H1. fold (Text.nl ++ rest). now rewrite (IH H2).
Qed.

Lemma splitlines_write_lines (lines : list string) :
  forallb Env.no_break lines = true ->
  Env.splitlines (Env.write_lines lines) = lines.
Proof.
  induction lines as [| line lines IH]; cbn [forallb Env.write_lines]; [reflexivity |].
  intros H. apply andb_prop in H. destruct H as [H1 H2].
  now rewrite (splitlines_line line _ H1), (IH H2).
Qed.

(** In a file written line by line, a key has the value of the last line
    that assigns it: the lines before it, whatever they assign, and the
    lines after it that assign other keys or nothing, do not count. *)
Theorem last_assignment_wins (before after : list string) (line key value : string) :
  forallb Env.no_break (before ++ line :: after)%list = true ->
  Env.assignment line = Some (key, value) ->
  forallb (fun l => negb (Env.assigns key l)) after = true ->
  Env.get (Env._load_env_file (Some (Env.write_lines (before ++ line :: after)%list))) key
  = Some value.
Proof.
  intros Hb Hl Ha. unfold Env.get, Env._load_env_file.
  rewrite (splitlines_write_lines _ Hb), read_lines_app, read_lines_cons, Hl.
  rewrite (read_lines_other _ key after _ Ha), lookup_assign, String.eqb_refl.
  reflexivity.
Qed.

Lemma last_assignment_wins_witness :
  forallb Env.no_break
          (["# keys"; "ALPHA_VANTAGE_API_KEY=old"] ++ "ALPHA_VANTAGE_API_KEY = demo"
             :: [EmptyString; "GROQ_API_KEY=gsk"])%list = true /\
  Env.assignment "ALPHA_VANTAGE_API_KEY = demo" = Some ("ALPHA_VANTAGE_API_KEY", "demo") /\
  forallb (fun l => negb (Env.assigns "ALPHA_VANTAGE_API_KEY" l))
          [EmptyString; "GROQ_API_KEY=gsk"] = true /\
  Env.get (Env._load_env_file
             (Some (Env.write_lines
                      (["# keys"; "ALPHA_VANTAGE_API_KEY=old"] ++ "ALPHA_VANTAGE_API_KEY = demo"
                         :: [EmptyString; "GROQ_API_KEY=gsk"])%list)))
          "ALPHA_VANTAGE_API_KEY"
  = Some "demo".
Proof.
  repeat (split; [reflexivity |]).
  apply (last_assignment_wins ["# keys"; "ALPHA_VANTAGE_API_KEY=old"]
           [EmptyString; "GROQ_API_KEY=gsk"]
           "ALPHA_VANTAGE_API_KEY = demo" "ALPHA_VANTAGE_API_KEY" "demo"); reflexivity.
Defined.

(** The template that [create_env_file] writes names both keys and gives
    neither a value; with it, as with no file at all, a rate-limited
    request ends at the missing key. *)
Example template_has_no_key :
  Env._load_env_file (Some Env.template)
    = [("GROQ_API_KEY", EmptyString); ("ALPHA_VANTAGE_API_KEY", EmptyString)] /\
  Adapter.invoke (Env.with_file Worlds.throttled (Some Env.template)) (Adapter.Price "aapl") []
    = ([Sleep 2; TickerInfo "AAPL"; EnvFile],
       Ok "Alpha Vantage API key not configured for aapl") /\
  Adapter.invoke (Env.with_file Worlds.throttled None) (Adapter.Price "aapl") []
    = ([Sleep 2; TickerInfo "AAPL"; EnvFile],
       Ok "Alpha Vantage API key not configured for aapl").
Proof. vm_compute. repeat split. Qed.

(** *** The three loaders *)







(** Where they part: a form feed ends a line for the agent and is a blank
    inside the line for the test script. *)
Example loaders_part :
  let content := String "A" (String "=" (String "1" (String (ascii_of_nat 12) "B=2"))) in
  Env._load_env_file (Some content) = [("A", "1"); ("B", "2")] /\
  Env.test_load_env_file (Some content)
    = [("A", String "1" (String (ascii_of_nat 12) "B=2"))].
Proof. vm_compute. split; reflexivity. Qed.

Lemma read_lines_over {V} (of_str : string -> V) (key : string) (lines : list string)
      (env_vars : list (string * V)) (plain : list (string * string)) :
  lookup key env_vars
    = match lookup key plain with
      | Some v => Some (of_str v)
      | None => lookup key env_vars
      end ->
  forall base,
    (forall k, lookup k env_vars
               = match lookup k plain with
                 | Some v => Some (of_str v)
                 | None => lookup k base
                 end) ->
    lookup key (Env.read_lines of_str lines env_vars)
    = match lookup key (Env.read_lines (fun value => value) lines plain) with
      | Some v => Some (of_str v)
      | None => lookup key base
      end.
Proof.
  intros _ base. revert env_vars plain.
  induction lines as [| line lines IH]; intros env_vars plain Hrel; [apply Hrel |].
  rewrite !read_lines_cons. apply IH. intros k.
  destruct (Env.assignment line) as [[k' v'] |]; [| apply Hrel].
  rewrite !lookup_assign. destruct (String.eqb k' k); [reflexivity | apply Hrel].
Qed.

(** In the web application a key of the [.env] file overrides the secret
    of the same name, and a secret the file does not assign is kept. *)
Theorem file_overrides_secrets
        (secrets : result (list (string * json))) (content key : string) :
  Env.get (Env.app_load_env_file secrets (Some content)) key
  = match Env.get (Env._load_env_file (Some content)) key with
    | Some value => Some (JStr value)
    | None => Env.get (Env.app_load_env_file secrets None) key
    end.
Proof.
  unfold Env.get, Env.app_load_env_file, Env._load_env_file. cbv zeta.
  apply read_lines_over; [| intros k]; cbn [lookup];
    destruct (lookup _ _); reflexivity.
Qed.

Example secrets_and_file :
  Env.app_load_env_file (Ok [("GROQ_API_KEY", JStr "secret"); ("OTHER", JStr "kept")])
                        (Some Env.template)
    = [("GROQ_API_KEY", JStr EmptyString); ("OTHER", JStr "kept");
       ("ALPHA_VANTAGE_API_KEY", JStr EmptyString)] /\
  Env.app_load_env_file (Raise (Exn "No secrets found.")) (Some "GROQ_API_KEY=gsk")
    = [("GROQ_API_KEY", JStr "gsk")].
Proof. vm_compute. split; reflexivity. Qed.

(** ** The request to Alpha Vantage *)

Lemma makes_none {A} (m : M A) (allowed : event -> bool) (t : trace) :
  Calls.makes m 0 allowed -> fst (m t) = t.
Proof.
  intros H. destruct (H t) as (evs & Ht & Hlen & _).
  destruct evs; [now rewrite app_nil_r in Ht | cbn in Hlen; lia].
Qed.

Lemma bind_call_trace {A B} (ev : event) (answer : result A) (rest : A -> M B) (t : trace) :
  (forall x, Calls.makes (rest x) 0 Calls.any_call) ->
  fst (bind (call ev answer) rest t) = (t ++ [ev])%list.
Proof.
  intros H. unfold bind, call. destruct answer as [x | e]; [| reflexivity].
  apply (makes_none _ _ _ (H x)).
Qed.

Lemma query_url_ends (function_ symbol api_key : string) :
  exists before, query_url function_ symbol api_key = before ++ "&apikey=" ++ api_key.
Proof.
  exists ("https://www.alphavantage.co/query?function=" ++ function_ ++ "&symbol=" ++ symbol).
  unfold query_url. now rewrite !append_assoc.
Qed.

Lemma rate_url_ends (crypto_symbol api_key : string) :
  exists before,
    "https://www.alphavantage.co/query?function=CURRENCY_EXCHANGE_RATE&from_currency="
      ++ crypto_symbol ++ "&to_currency=USD&apikey=" ++ api_key
    = before ++ "&apikey=" ++ api_key.
Proof.
  exists ("https://www.alphavantage.co/query?function=CURRENCY_EXCHANGE_RATE&from_currency="
            ++ crypto_symbol ++ "&to_currency=USD").
  now rewrite !append_assoc.
Qed.

Ltac one_request He Hk :=
  cbv zeta; rewrite try_except_trace; unfold bind at 1, call at 1; rewrite He, Hk;
  let b := fresh "before" in
  match goal with
  | |- context [query_url ?f ?s ?k] => destruct (query_url_ends f s k) as [b ->]
  | |- context [HttpGet (?a ++ ?c ++ ?d ++ ?k)] => destruct (rate_url_ends c k) as [b ->]
  end;
  exists b;
  rewrite bind_call_trace, <- app_assoc; [reflexivity | intros; no_call].

(** With a key in the [.env] file the fallback reads the file and sends
    exactly one request, whose address ends with that key as its [apikey]
    parameter; whatever Alpha Vantage answers, or fails to, nothing is
    asked again. *)
Theorem configured_key_is_sent_once
        (w : World) (r : Adapter.request) (t : trace)
        (env_vars : string -> option string) (api_key : string) :
  env_file w = Ok env_vars ->
  usable_key (env_vars ALPHA_VANTAGE_API_KEY) = Some api_key ->
  exists before,
    fst (Adapter.fallback w r t)
    = (t ++ [EnvFile; HttpGet (before ++ "&apikey=" ++ api_key)])%list.
Proof.
  intros He Hk.
  destruct r; cbn [Adapter.fallback].
  - unfold _get_stock_price_alpha_vantage, _load_env_file, fetch. one_request He Hk.
  - unfold _get_stock_info_alpha_vantage, _load_env_file, fetch. one_request He Hk.
  - unfold _get_historical_data_alpha_vantage, _load_env_file, fetch. one_request He Hk.
  - unfold _calculate_average_price_alpha_vantage, _load_env_file, fetch. one_request He Hk.
  - unfold _get_crypto_price_alpha_vantage, _load_env_file, fetch. one_request He Hk.
Qed.

Lemma configured_key_is_sent_once_witness :
  env_file (Env.with_file Worlds.throttled (Some "ALPHA_VANTAGE_API_KEY=demo"))
    = Ok (Env.get (Env._load_env_file (Some "ALPHA_VANTAGE_API_KEY=demo"))) /\
  usable_key (Env.get (Env._load_env_file (Some "ALPHA_VANTAGE_API_KEY=demo"))
                      ALPHA_VANTAGE_API_KEY) = Some "demo" /\
  exists before,
    fst (Adapter.fallback (Env.with_file Worlds.throttled (Some "ALPHA_VANTAGE_API_KEY=demo"))
                          (Adapter.Crypto "btc") [])
    = ([] ++ [EnvFile; HttpGet (before ++ "&apikey=" ++ "demo")])%list.
Proof.
  split; [reflexivity | split; [reflexivity |]].
  apply (configured_key_is_sent_once
           (Env.with_file Worlds.throttled (Some "ALPHA_VANTAGE_API_KEY=demo"))
           (Adapter.Crypto "btc") []
           (Env.get (Env._load_env_file (Some "ALPHA_VANTAGE_API_KEY=demo"))) "demo");
    reflexivity.
Defined.

Example request_with_key :
  fst (Adapter.fallback (Env.with_file Worlds.throttled (Some "ALPHA_VANTAGE_API_KEY=demo"))
                        (Adapter.Crypto "btc") [])
    = [EnvFile;
       HttpGet "https://www.alphavantage.co/query?function=CURRENCY_EXCHANGE_RATE&from_currency=BTC&to_currency=USD&apikey=demo"] /\
  fst (Adapter.fallback (Env.with_file Worlds.throttled (Some "ALPHA_VANTAGE_API_KEY=demo"))
                        (Adapter.History "tsla" "1y") [])
    = [EnvFile;
       HttpGet "https://www.alphavantage.co/query?function=TIME_SERIES_MONTHLY&symbol=tsla&apikey=demo"].
Proof. vm_compute. split; reflexivity. Qed.

(** ** One prompt of the chat page *)

Lemma chat_returns (w : World) (message : string) (t : trace) :
  exists t1 text, chat w message t = (t1, Ok text).
Proof.
  unfold chat, try_except.
  destruct (chat_body_outcome w message t) as [[t1 [text H]] | [e [_ H]]]; rewrite H;
    do 2 eexists; reflexivity.
Qed.

(** A prompt that is not empty adds exactly two messages to the history:
    the prompt, from the user, and then, from the assistant, what [chat]
    returned for it, or the notice that no key is configured when there is
    no agent.  No call of [chat] makes the page answer with its own
    ["Sorry, I encountered an error"] text. *)
Theorem prompt_adds_two_messages
        (agent : option World) (messages : list App.message) (prompt : string) (t : trace) :
  truthy (Some prompt) = true ->
  exists t1 answer,
    App.on_prompt agent messages (Some prompt) t
    = (t1, Ok (messages ++ [App.user prompt; App.assistant answer])%list)
    /\ match agent with
       | Some w => chat w prompt t = (t1, Ok answer)
       | None => t1 = t /\ answer = App.not_configured
       end.
Proof.
  intros Hp. unfold App.on_prompt. rewrite Hp. cbv zeta.
  destruct agent as [w |].
  - destruct (chat_returns w prompt t) as (t1 & text & H).
    exists t1, text. unfold try_except, bind, ret. rewrite H, <- app_assoc.
    split; reflexivity.
  - exists t, App.not_configured. unfold ret. rewrite <- app_assoc.
    repeat split.
Qed.

Lemma prompt_adds_two_messages_witness :
  truthy (Some "How are you?") = true /\
  exists t1 answer,
    App.on_prompt (Some Worlds.silent) [] (Some "How are you?") []
    = (t1, Ok ([] ++ [App.user "How are you?"; App.assistant answer])%list)
    /\ chat Worlds.silent "How are you?" [] = (t1, Ok answer).
Proof.
  split; [reflexivity |].
  apply (prompt_adds_two_messages (Some Worlds.silent) [] "How are you?" []). reflexivity.
Defined.

Example prompts_of_the_page :
  App.on_prompt (Some Worlds.silent) [] (Some "How are you?") []
    = ([Invoke "How are you?"],
       Ok [App.user "How are you?";
           App.assistant "Error processing your request: Connection error."]) /\
  App.on_prompt None [] (Some "How are you?") []
    = ([], Ok [App.user "How are you?"; App.assistant App.not_configured]) /\
  App.on_prompt (Some Worlds.silent) [] (Some EmptyString) [] = ([], Ok []) /\
  App.on_prompt (Some Worlds.silent) [] None [] = ([], Ok []).
Proof. vm_compute. repeat split. Qed.

(** ** The dates of the average *)













Example dates_of_the_average :
  slice_to (Z.min 2 3) (sorted_reverse ["2024-01-03"; "2024-01-05"; "2024-01-04"])
    = ["2024-01-05"; "2024-01-04"] /\
  slice_to (Z.min 7 3) (sorted_reverse ["2024-01-03"; "2024-01-05"; "2024-01-04"])
    = ["2024-01-05"; "2024-01-04"; "2024-01-03"] /\
  slice_to (Z.min (-1) 3) (sorted_reverse ["2024-01-03"; "2024-01-05"; "2024-01-04"])
    = ["2024-01-05"; "2024-01-04"].
Proof. vm_compute. repeat split. Qed.

(** ** A fallback that fails *)

(** A fallback never raises what went wrong on its way: when reading the
    [.env] file fails, or when a key is configured and the request to Alpha
    Vantage fails (no network, a timeout, an answer that is not JSON), the
    tool answers with the fallback's own error text, which ends with the
    text of the exception. *)
Theorem failed_fallback_is_reported
        (w : World) (r : Adapter.request) (t : trace) (e : exn) :
  env_file w = Raise e
  \/ (exists env_vars api_key,
         env_file w = Ok env_vars
         /\ usable_key (env_vars ALPHA_VANTAGE_API_KEY) = Some api_key
         /\ forall url, http_get_json w url = Raise e) ->
  snd (Adapter.fallback w r t) = Ok (Report.fallback_error r e).
Proof.
  intros [He | (env_vars & api_key & He & Hk & Hh)];
    destruct r; cbn [Adapter.fallback Report.fallback_error];
    [ unfold _get_stock_price_alpha_vantage | unfold _get_stock_info_alpha_vantage
    | unfold _get_historical_data_alpha_vantage
    | unfold _calculate_average_price_alpha_vantage
    | unfold _get_crypto_price_alpha_vantage
    | unfold _get_stock_price_alpha_vantage | unfold _get_stock_info_alpha_vantage
    | unfold _get_historical_data_alpha_vantage
    | unfold _calculate_average_price_alpha_vantage
    | unfold _get_crypto_price_alpha_vantage ];
    unfold _load_env_file, fetch, try_except; cbv zeta;
    unfold bind at 1, call at 1; rewrite He; try reflexivity;
    rewrite Hk; unfold bind at 1, call at 1; rewrite Hh; reflexivity.
Qed.

Lemma failed_fallback_is_reported_witness :
  (env_file (Env.with_file Worlds.throttled (Some "ALPHA_VANTAGE_API_KEY=demo"))
   = Raise (Exn "Connection refused")
   \/ (exists env_vars api_key,
          env_file (Env.with_file Worlds.throttled (Some "ALPHA_VANTAGE_API_KEY=demo"))
          = Ok env_vars
          /\ usable_key (env_vars ALPHA_VANTAGE_API_KEY) = Some api_key
          /\ forall url,
              http_get_json (Env.with_file Worlds.throttled (Some "ALPHA_VANTAGE_API_KEY=demo"))
                            url
              = Raise (Exn "Connection refused"))) /\
  snd (Adapter.fallback (Env.with_file Worlds.throttled (Some "ALPHA_VANTAGE_API_KEY=demo"))
                        (Adapter.Info "aapl") [])
  = Ok "Error fetching detailed info from Alpha Vantage for aapl: Connection refused".
Proof.
  assert (H : env_file (Env.with_file Worlds.throttled (Some "ALPHA_VANTAGE_API_KEY=demo"))
              = Raise (Exn "Connection refused")
              \/ (exists env_vars api_key,
                     env_file (Env.with_file Worlds.throttled
                                             (Some "ALPHA_VANTAGE_API_KEY=demo"))
                     = Ok env_vars
                     /\ usable_key (env_vars ALPHA_VANTAGE_API_KEY) = Some api_key
                     /\ forall url,
                         http_get_json (Env.with_file Worlds.throttled
                                                      (Some "ALPHA_VANTAGE_API_KEY=demo"))
                                       url
                         = Raise (Exn "Connection refused"))).
  { right.
    exists (Env.get (Env._load_env_file (Some "ALPHA_VANTAGE_API_KEY=demo"))), "demo".
    repeat split. }
  split; [exact H |].
  exact (failed_fallback_is_reported
           (Env.with_file Worlds.throttled (Some "ALPHA_VANTAGE_API_KEY=demo"))
           (Adapter.Info "aapl") [] (Exn "Connection refused") H).
Defined.
